(** * scripts/lint.py: discovery and dispatch of cargo tools

    A shallow embedding of [scripts/lint.py] and the properties of its
    directory discovery, tool selection and exit status.

    Python strings are modelled as byte strings ([string]), in UTF-8 where
    a character is not ASCII; the operating
    system (file existence, the working directory, child processes) is an
    interface [OS] over an abstract world; the script itself runs in a small
    state-and-exit monad that records what it prints and what it spawns. *)

From Stdlib Require Import String Ascii List ZArith Bool Arith Lia.
Import ListNotations.
Local Open Scope list_scope.
Local Open Scope string_scope.

Set Implicit Arguments.

(** [not xs] for a list. *)
Definition is_nil {A} (l : list A) : bool :=
  match l with [] => true | _ => false end.

(* ================================================================= *)
(** ** Python string built-ins used by the script *)

Module pystr.

(** [s.startswith(p)] *)
Fixpoint startswith (p s : string) : bool :=
  match p, s with
  | EmptyString, _ => true
  | String a p', String b s' => Ascii.eqb a b && startswith p' s'
  | String _ _, EmptyString => false
  end.

(** [s.endswith(c)] for a one-character suffix. *)
Fixpoint endswith_char (c : ascii) (s : string) : bool :=
  match s with
  | EmptyString => false
  | String a EmptyString => Ascii.eqb a c
  | String _ s' => endswith_char c s'
  end.

(** [bool(s)]: a string is truthy when it is not empty. *)
Definition truthy (s : string) : bool :=
  match s with EmptyString => false | String _ _ => true end.

(** [sep.join(parts)] *)
Definition join (sep : string) (parts : list string) : string :=
  String.concat sep parts.

(** [x in xs] for a list of strings. *)
Definition mem (x : string) (xs : list string) : bool :=
  existsb (String.eqb x) xs.

Definition is_lower (c : ascii) : bool :=
  let n := nat_of_ascii c in ((97 <=? n) && (n <=? 122))%nat.
Definition is_upper (c : ascii) : bool :=
  let n := nat_of_ascii c in ((65 <=? n) && (n <=? 90))%nat.
Definition upper_char (c : ascii) : ascii :=
  if is_lower c then ascii_of_nat (nat_of_ascii c - 32) else c.
Definition lower_char (c : ascii) : ascii :=
  if is_upper c then ascii_of_nat (nat_of_ascii c + 32) else c.
Fixpoint lower (s : string) : string :=
  match s with
  | EmptyString => EmptyString
  | String c s' => String (lower_char c) (lower s')
  end.

(** Is every character of [s] an ASCII character? *)
Fixpoint is_ascii (s : string) : bool :=
  match s with
  | EmptyString => true
  | String c s' => (nat_of_ascii c <? 128)%nat && is_ascii s'
  end.

(** [s.capitalize()] for a string of ASCII characters: the first character
    upper-cased, the rest lower-cased. *)
Definition capitalize_ascii (s : string) : string :=
  match s with
  | EmptyString => EmptyString
  | String c s' => String (upper_char c) (lower s')
  end.

(** [s.capitalize()].  On ASCII strings it is computed; on strings with
    other characters the result comes from the Unicode case tables of the
    interpreter, which are taken as the function [unicode_capitalize]. *)
Definition capitalize (unicode_capitalize : string -> string) (s : string) : string :=
  if is_ascii s then capitalize_ascii s else unicode_capitalize s.

(** Length in bytes of the line boundary at the head of [s], [0] when [s]
    does not start with one.  The boundaries of [str.splitlines]:
    LF, CR, CR LF, VT, FF, FS, GS, RS, NEL (U+0085), LS (U+2028) and
    PS (U+2029), the last three in their UTF-8 encoding. *)
Definition linebreak_len (s : string) : nat :=
  match s with
  | String "013" (String "010" _) => 2
  | String "010" _ | String "013" _ | String "011" _ | String "012" _
  | String "028" _ | String "029" _ | String "030" _ => 1
  | String "194" (String "133" _) => 2
  | String "226" (String "128" (String "168" _)) => 3
  | String "226" (String "128" (String "169" _)) => 3
  | _ => 0
  end.

(** The loop of [str.splitlines]: [skip] bytes of a boundary are still to
    be dropped, [cur] is the line read so far. *)
Fixpoint splitlines_go (skip : nat) (cur : string) (s : string) : list string :=
  match s with
  | EmptyString => if truthy cur then [cur] else []
  | String c rest =>
      match skip with
      | S k => splitlines_go k cur rest
      | O =>
          match linebreak_len s with
          | O => splitlines_go 0 (cur ++ String c EmptyString) rest
          | S k => cur :: splitlines_go k EmptyString rest
          end
      end
  end.

(** [s.splitlines()] *)
Definition splitlines (s : string) : list string :=
  splitlines_go 0 EmptyString s.

(** [list(dict.fromkeys(xs))]: the keys of the dict in insertion order,
    that is [xs] without repetitions, each kept where it first occurs. *)
Definition dict_fromkeys (xs : list string) : list string :=
  fold_left (fun keys x => if mem x keys then keys else (keys ++ [x])%list) xs [].

End pystr.

(* ================================================================= *)
(** ** [os.path] on POSIX ([posixpath]) *)

Module posixpath.

Definition sep : ascii := "/"%char.
Definition curdir : string := ".".
Definition pardir : string := "..".

(** [path.split("/")] *)
Fixpoint split_sep (s : string) : list string :=
  match s with
  | EmptyString => [EmptyString]
  | String c s' =>
      if Ascii.eqb c sep then EmptyString :: split_sep s'
      else match split_sep s' with
           | [] => [String c EmptyString]
           | h :: t => String c h :: t
           end
  end.

(** ["/" * n] *)
Fixpoint seps (n : nat) : string :=
  match n with O => EmptyString | S k => String sep (seps k) end.

Definition isabs (s : string) : bool := pystr.startswith "/" s.

(** [join(a, b)] with a single second argument. *)
Definition join (a b : string) : string :=
  if pystr.startswith "/" b then b
  else if negb (pystr.truthy a) || pystr.endswith_char sep a then a ++ b
  else a ++ "/" ++ b.

(** One iteration of the component loop of [normpath]. *)
Definition normpath_step (initial_slashes : nat)
           (new_comps : list string) (comp : string) : list string :=
  if (comp =? "") || (comp =? curdir) then new_comps
  else if negb (comp =? pardir)
          || ((initial_slashes =? 0)%nat && is_nil new_comps)
          || (negb (is_nil new_comps) && (last new_comps "" =? pardir))
       then (new_comps ++ [comp])%list
       else if negb (is_nil new_comps) then removelast new_comps
            else new_comps.

Definition initial_slashes_of (path : string) : nat :=
  if pystr.startswith "/" path then
    if pystr.startswith "//" path && negb (pystr.startswith "///" path)
    then 2 else 1
  else 0.

Definition normpath (path : string) : string :=
  if negb (pystr.truthy path) then curdir
  else
    let initial_slashes := initial_slashes_of path in
    let comps := fold_left (normpath_step initial_slashes) (split_sep path) [] in
    let path' := seps initial_slashes ++ pystr.join "/" comps in
    if pystr.truthy path' then path' else curdir.

(** Does [s] contain a separator? *)
Fixpoint has_sep (s : string) : bool :=
  match s with
  | EmptyString => false
  | String c s' => Ascii.eqb c sep || has_sep s'
  end.

(** [p[:p.rfind("/") + 1]] *)
Fixpoint head_of (p : string) : string :=
  match p with
  | EmptyString => EmptyString
  | String c p' => if has_sep p then String c (head_of p') else EmptyString
  end.

(** [s == "/" * len(s)] *)
Fixpoint all_sep (s : string) : bool :=
  match s with
  | EmptyString => true
  | String c s' => Ascii.eqb c sep && all_sep s'
  end.

(** [s.rstrip("/")] *)
Fixpoint rstrip_sep (s : string) : string :=
  match s with
  | EmptyString => EmptyString
  | String c s' =>
      let r := rstrip_sep s' in
      if Ascii.eqb c sep && negb (pystr.truthy r) then EmptyString
      else String c r
  end.

Definition dirname (p : string) : string :=
  let head := head_of p in
  if pystr.truthy head && negb (all_sep head) then rstrip_sep head else head.

(** [abspath(path)] with the working directory [cwd] of the process. *)
Definition abspath (cwd : string) (path : string) : string :=
  normpath (if isabs path then path else join cwd path).

End posixpath.

(* ================================================================= *)
(** ** The operating system and the script monad *)

(** What [subprocess.run] hands back for a child that ran to completion. *)
Module CompletedProcess.
Record t : Type := Build
  { returncode : Z; stdout : string; stderr : string }.
End CompletedProcess.

(** The result of starting a child process and waiting for it: it completed
    with some exit status and output that is text; or the operating system
    could not run it (the executable does not exist, the working directory
    is not usable, ...); or it exited but what it wrote cannot be decoded as
    text, which [text=True] asks for. *)
Inductive SpawnResult : Type :=
| Completed (p : CompletedProcess.t)
| SpawnFault (msg : string)
| Undecodable.

(** The environment of the script: the operating system as the script sees
    it, and the Unicode case tables of the interpreter.  [os_spawn cmd cwd]
    runs a child and waits until it has exited; the child may change the
    world (cargo fix rewrites files).  A child that never exits is outside
    the model: the script then waits for ever, as it has no timeout. *)
Class OS (World : Type) : Type :=
  { os_path_exists : World -> string -> bool;
    os_getcwd : World -> string;
    os_spawn : list string -> option string -> World -> SpawnResult * World;
    unicode_capitalize : string -> string }.

(** Python exceptions the script can let escape. *)
Inductive PyExn : Type :=
| CalledProcessError (returncode : Z) (cmd : list string)
| OSError (msg : string)
| UnicodeDecodeError.

(** What the process does that an observer can see. *)
Inductive Event : Type :=
| EPrint (line : string)
| ESpawn (cmd : list string) (cwd : option string).

Record St (World : Type) : Type := mkSt
  { world : World; trace : list Event }.

(** How a computation ends: with a value, by [sys.exit(code)], by an
    exception nobody catches, or not within the step budget of a loop. *)
Inductive Outcome (A : Type) : Type :=
| Ret (a : A)
| Exit (code : Z)
| Raise (e : PyExn)
| OutOfFuel.
Arguments Ret {A} a.
Arguments Exit {A} code.
Arguments Raise {A} e.
Arguments OutOfFuel {A}.

Definition M (World A : Type) : Type := St World -> Outcome A * St World.

Section Monad.
Context {World : Type}.

Definition ret {A} (a : A) : M World A := fun st => (Ret a, st).

Definition bind {A B} (m : M World A) (k : A -> M World B) : M World B :=
  fun st =>
    match m st with
    | (Ret a, st') => k a st'
    | (Exit code, st') => (Exit code, st')
    | (Raise e, st') => (Raise e, st')
    | (OutOfFuel, st') => (OutOfFuel, st')
    end.

Definition log (e : Event) (st : St World) : St World :=
  {| world := world st; trace := (trace st ++ [e])%list |}.

(** [print(line)], on a standard output that takes every line. *)
Definition print (line : string) : M World unit :=
  fun st => (Ret tt, log (EPrint line) st).

(** [sys.exit(code)] *)
Definition sys_exit {A} (code : Z) : M World A :=
  fun st => (Exit code, st).
End Monad.

Notation "x <- m ;; k" := (bind m (fun x => k))
  (at level 61, m at next level, right associativity).
Notation "m ;;; k" := (bind m (fun _ => k))
  (at level 61, right associativity).

Module os_path.
Section WithOS.
Context {World : Type} `{OS World}.

(** [os.path.exists(p)] *)
Definition exists_ (p : string) : M World bool :=
  fun st => (Ret (os_path_exists (world st) p), st).
End WithOS.
End os_path.

(** [s.capitalize()] in the environment [os]. *)
Definition str_capitalize {World : Type} (os : OS World) (s : string) : string :=
  pystr.capitalize (@unicode_capitalize World os) s.

Module subprocess.
Section WithOS.
Context {World : Type} `{OS World}.

(** [subprocess.run(cmd, cwd=cwd, capture_output=True, text=True,
    check=check)]: one child process; output that is not text raises
    [UnicodeDecodeError] when it is read, before the exit status is looked
    at; with [check] a non-zero exit status raises [CalledProcessError]. *)
Definition run (cmd : list string) (cwd : option string) (check : bool)
  : M World CompletedProcess.t :=
  fun st =>
    let (r, w') := os_spawn cmd cwd (world st) in
    let st' := {| world := w'; trace := (trace st ++ [ESpawn cmd cwd])%list |} in
    match r with
    | SpawnFault msg => (Raise (OSError msg), st')
    | Undecodable => (Raise UnicodeDecodeError, st')
    | Completed p =>
        if check && negb (CompletedProcess.returncode p =? 0)%Z
        then (Raise (CalledProcessError (CompletedProcess.returncode p) cmd), st')
        else (Ret p, st')
    end.
End WithOS.
End subprocess.

(* ================================================================= *)
(** ** scripts/lint.py *)

(** ANSI color codes *)
Definition GREEN : string := String "027" "[92m".
Definition RED : string := String "027" "[91m".
Definition BLUE : string := String "027" "[94m".
Definition RESET : string := String "027" "[0m".
Definition NL : string := String "010" "".

(** Default directory to run the commands on *)
Definition DEFAULT_CARGO_DIR : string := ".".

Module ToolResult.
Record t : Type := Build
  { name : string; success : bool; stdout : string; stderr : string }.
End ToolResult.

Module BaseRustTool.
Record t : Type := Build
  { name : string; command_factory : string -> list string }.

Section WithOS.
Context {World : Type} `{OS World}.

Definition run (self : t) (directory : string) : M World ToolResult.t :=
  present <- os_path.exists_ (posixpath.join directory "Cargo.toml") ;;
  if negb present then
    print (BLUE ++ "Skipping " ++ directory ++ ": "
             ++ "Cargo.toml not found (not a Rust project)." ++ RESET) ;;;
    ret (ToolResult.Build (name self) true ("Skipped " ++ directory) "")
  else
    let command := command_factory self directory in
    process <- subprocess.run command (Some directory) false ;;
    ret (ToolResult.Build (name self)
           (CompletedProcess.returncode process =? 0)%Z
           (CompletedProcess.stdout process)
           (CompletedProcess.stderr process)).
End WithOS.
End BaseRustTool.

(** A Python [dict] from tool names to tools, in insertion order. *)
Definition tools_dict : Type := list (string * BaseRustTool.t).

(** [tools.values()] *)
Definition dict_values (tools : tools_dict) : list BaseRustTool.t :=
  map snd tools.
(** [tools.keys()] *)
Definition dict_keys (tools : tools_dict) : list string :=
  map fst tools.

(** [bool(xs)] for an optional list: [None] and [[]] are falsy. *)
Definition list_truthy {A} (xs : option (list A)) : bool :=
  match xs with
  | Some (_ :: _) => true
  | _ => false
  end.

Module RustToolRunner.
Record t : Type := Build
  { linters : tools_dict;
    formatters : tools_dict;
    fixers : tools_dict;
    unsafe_fixers : tools_dict }.

(** [__init__] *)
Definition init : t :=
  {| linters :=
      [("clippy", BaseRustTool.Build "clippy"
                    (fun d => ["cargo"; "clippy"; "--"; "-D"; "warnings"]))];
     formatters :=
      [("fmt", BaseRustTool.Build "fmt" (fun d => ["cargo"; "fmt"]))];
     fixers :=
      [("fix", BaseRustTool.Build "fix" (fun d => ["cargo"; "fix"]))];
     unsafe_fixers :=
      [("fix", BaseRustTool.Build "fix"
                 (fun d => ["cargo"; "fix"; "--allow-dirty"; "--allow-staged"]))] |}.

Definition get_tools_to_run (self : t) (tools : tools_dict)
           (selected_tools : option (list string))
           (_is_git_modified : bool) : tools_dict :=
  match selected_tools with
  | Some ((_ :: _) as selected) =>
      filter (fun '(name, tool) => pystr.mem name selected) tools
  | _ => tools
  end.

Definition failure_line (capitalize : string -> string)
           (result : ToolResult.t) (directory : string) : string :=
  RED ++ "❌ " ++ capitalize (ToolResult.name result)
      ++ " issues in " ++ directory ++ ":" ++ RESET.

Definition passed_line (capitalize : string -> string)
           (result : ToolResult.t) (directory : string) : string :=
  GREEN ++ "✅ " ++ capitalize (ToolResult.name result)
        ++ " checks passed in " ++ directory ++ "." ++ RESET.

Definition banner_formatter : string :=
  BLUE ++ "🎨 Running formatter (cargo fmt)..." ++ RESET.
Definition banner_fixer : string :=
  BLUE ++ "🔧 Running fixer (cargo fix)..." ++ RESET.
Definition banner_linter : string :=
  BLUE ++ "🔎 Running linter (cargo clippy)..." ++ RESET.

Definition failure_summary (failures : list string) : string :=
  NL ++ RED ++ "💥 The following tools failed: "
     ++ pystr.join ", " failures ++ RESET.

Definition success_banner (action : string) : string :=
  NL ++ GREEN ++ "🎉 All " ++ action ++ " completed successfully!" ++ RESET.

Section WithOS.
Context {World : Type} `{OS World}.

Definition handle_result (self : t) (result : ToolResult.t)
           (directory : string) : M World bool :=
  if negb (ToolResult.success result) then
    print (failure_line (str_capitalize _) result directory) ;;;
    print (ToolResult.stdout result) ;;;
    (if pystr.truthy (ToolResult.stderr result)
     then print (ToolResult.stderr result) else ret tt) ;;;
    ret true
  else
    print (passed_line (str_capitalize _) result directory) ;;;
    ret false.

(** The inner loop of [run_on_dirs]: [for d in dirs]. *)
Fixpoint run_on_dirs_inner (self : t) (tool : BaseRustTool.t)
         (dirs : list string) (tool_failed : bool) : M World bool :=
  match dirs with
  | [] => ret tool_failed
  | d :: dirs' =>
      result <- BaseRustTool.run tool d ;;
      failed <- handle_result self result d ;;
      run_on_dirs_inner self tool dirs' (if failed then true else tool_failed)
  end.

(** The outer loop of [run_on_dirs]: [for tool in tools.values()]. *)
Fixpoint run_on_dirs_outer (self : t) (tools : list BaseRustTool.t)
         (dirs : list string) (failures : list string)
  : M World (list string) :=
  match tools with
  | [] => ret failures
  | tool :: tools' =>
      tool_failed <- run_on_dirs_inner self tool dirs false ;;
      run_on_dirs_outer self tools' dirs
        (if tool_failed then (failures ++ [BaseRustTool.name tool])%list
         else failures)
  end.

Definition run_on_dirs (self : t) (tools : tools_dict) (dirs : list string)
  : M World (list string) :=
  run_on_dirs_outer self (dict_values tools) dirs [].

Definition run (self : t)
           (target_dirs : option (list string))
           (selected_tools : option (list string))
           (is_formatting is_fixing is_unsafe_fixing is_git_modified : bool)
  : M World unit :=
  tools_to_run <-
    (if is_formatting then
       print banner_formatter ;;;
       ret (get_tools_to_run self (formatters self) selected_tools is_git_modified)
     else if is_fixing then
       print banner_fixer ;;;
       (if is_unsafe_fixing then
          ret (get_tools_to_run self (unsafe_fixers self) selected_tools is_git_modified)
        else
          ret (get_tools_to_run self (fixers self) selected_tools is_git_modified))
     else
       print banner_linter ;;;
       ret (get_tools_to_run self (linters self) selected_tools is_git_modified)) ;;
  let paths :=
    match target_dirs with
    | Some ((_ :: _) as dirs) => dirs
    | _ => [DEFAULT_CARGO_DIR]
    end in
  failures <- run_on_dirs self tools_to_run paths ;;
  if negb (is_nil failures) then
    print (failure_summary failures) ;;;
    sys_exit 1
  else
    let action :=
      if is_formatting then "formatting"
      else if is_fixing then "fixes"
      else "linting checks" in
    print (success_banner action) ;;;
    sys_exit 0.
End WithOS.
End RustToolRunner.

(** How the [while True] loop of [find_cargo_manifest_dir] can end. *)
Inductive Walk : Type :=
| Found (d : string)
| NotFound
| Unfinished.

Section WithOS.
Context {World : Type} `{OS World}.

(** The body of the [while True] loop of [find_cargo_manifest_dir], run
    at most [fuel] times in the world [w]. *)
Fixpoint find_cargo_manifest_dir_loop (fuel : nat) (w : World)
         (curr_dir : string) : Walk :=
  match fuel with
  | O => Unfinished
  | S fuel' =>
      if os_path_exists w (posixpath.join curr_dir "Cargo.toml") then
        Found curr_dir
      else
        let parent :=
          posixpath.abspath (os_getcwd w)
            (posixpath.join curr_dir posixpath.pardir) in
        if curr_dir =? parent then NotFound
        else find_cargo_manifest_dir_loop fuel' w parent
  end.

(** Where the walk starts: [os.path.abspath(os.path.dirname(path))]. *)
Definition start_dir (w : World) (path : string) : string :=
  posixpath.abspath (os_getcwd w) (posixpath.dirname path).

(** The walk from the directory of [path], with a step budget of one more
    than the length of the starting directory; [walk_terminates] shows
    that this is enough whenever the working directory is absolute. *)
Definition find_cargo_manifest_dir_in (w : World) (path : string) : Walk :=
  let curr_dir := start_dir w path in
  find_cargo_manifest_dir_loop (S (String.length curr_dir)) w curr_dir.

Definition find_cargo_manifest_dir (path : string) : M World (option string) :=
  fun st =>
    match find_cargo_manifest_dir_in (world st) path with
    | Found d => (Ret (Some d), st)
    | NotFound => (Ret None, st)
    | Unfinished => (OutOfFuel, st)
    end.

(** [[f for f in files if os.path.exists(f)]] *)
Fixpoint keep_existing (files : list string) : M World (list string) :=
  match files with
  | [] => ret []
  | f :: files' =>
      present <- os_path.exists_ f ;;
      rest <- keep_existing files' ;;
      ret (if present then f :: rest else rest)
  end.

Definition get_modified_files : M World (list string) :=
  staged_p <- subprocess.run ["git"; "diff"; "--cached"; "--name-only"] None true ;;
  let staged := pystr.splitlines (CompletedProcess.stdout staged_p) in
  unstaged_p <- subprocess.run ["git"; "diff"; "--name-only"] None false ;;
  let unstaged := pystr.splitlines (CompletedProcess.stdout unstaged_p) in
  let modified := pystr.dict_fromkeys (staged ++ unstaged)%list in
  modified <- keep_existing modified ;;
  if is_nil modified then
    print (BLUE ++ "No modified files found." ++ RESET) ;;;
    sys_exit 0
  else ret modified.

(** The [for file in modified_files] loop of [get_modified_dirs]; the test
    is [manifest_dir and manifest_dir not in dirs], where [None] and the
    empty string are falsy. *)
Fixpoint get_modified_dirs_loop (modified_files : list string)
         (dirs : list string) : M World (list string) :=
  match modified_files with
  | [] => ret dirs
  | file :: files' =>
      manifest_dir <- find_cargo_manifest_dir file ;;
      get_modified_dirs_loop files'
        (match manifest_dir with
         | Some d =>
             if pystr.truthy d && negb (pystr.mem d dirs)
             then (dirs ++ [d])%list else dirs
         | None => dirs
         end)
  end.

Definition get_modified_dirs : M World (list string) :=
  modified_files <- get_modified_files ;;
  dirs <- get_modified_dirs_loop modified_files [] ;;
  if is_nil dirs then
    print (BLUE ++ "No modified cargo projects found." ++ RESET) ;;;
    sys_exit 0
  else ret dirs.
End WithOS.

(** The namespace [parser.parse_args()] returns: positional [paths]
    (nargs="*"), [--linters] and [--formatters] (nargs="+", absent is
    [None]), and the four [store_true] flags. *)
Module Args.
Record t : Type := Build
  { paths : list string;
    linters : option (list string);
    format : bool;
    formatters : option (list string);
    fix_ : bool;
    unsafe_fixes : bool;
    git_modified : bool }.
End Args.

Section WithOS.
Context {World : Type} `{OS World}.

(** [main], from the parsed arguments on. *)
Definition main (args : Args.t) : M World unit :=
  let runner := RustToolRunner.init in
  target_paths <-
    (if Args.git_modified args then get_modified_dirs
     else if negb (is_nil (Args.paths args)) then ret (Args.paths args)
     else ret [DEFAULT_CARGO_DIR]) ;;
  let selected_tools :=
    if Args.format args then Args.formatters args else Args.linters args in
  RustToolRunner.run runner (Some target_paths) selected_tools
    (Args.format args) (Args.fix_ args) (Args.unsafe_fixes args)
    (Args.git_modified args).
End WithOS.

(* ================================================================= *)
(** ** Notions used to state the properties *)

(** The four modes of the specification and their resolution from the
    flags, in the words of the specification: formatting first, then fixing
    (with its unsafe sub-variant), then linting as the default. *)
Inductive Mode : Type :=
| Formatting
| Fixing (unsafe : bool)
| Linting.

Definition spec_resolve_mode (is_formatting is_fixing is_unsafe_fixing : bool) : Mode :=
  if is_formatting then Formatting
  else if is_fixing then Fixing is_unsafe_fixing
  else Linting.

Definition mode_registry (self : RustToolRunner.t) (m : Mode) : tools_dict :=
  match m with
  | Formatting => RustToolRunner.formatters self
  | Fixing true => RustToolRunner.unsafe_fixers self
  | Fixing false => RustToolRunner.fixers self
  | Linting => RustToolRunner.linters self
  end.

Definition mode_banner (m : Mode) : string :=
  match m with
  | Formatting => RustToolRunner.banner_formatter
  | Fixing _ => RustToolRunner.banner_fixer
  | Linting => RustToolRunner.banner_linter
  end.

Definition mode_action (m : Mode) : string :=
  match m with
  | Formatting => "formatting"
  | Fixing _ => "fixes"
  | Linting => "linting checks"
  end.

(** [target_dirs if target_dirs else [DEFAULT_CARGO_DIR]] *)
Definition paths_of (target_dirs : option (list string)) : list string :=
  if list_truthy target_dirs
  then match target_dirs with Some dirs => dirs | None => [] end
  else [DEFAULT_CARGO_DIR].

(** The results of one tool, each with the directory it is for. *)
Definition dir_results : Type := list (string * ToolResult.t).

(** A tool failed when its result in one of the directories is not a
    success. *)
Definition tool_failed (results : dir_results) : bool :=
  existsb (fun dr => negb (ToolResult.success (snd dr))) results.

(** The names of the tools with a failing result, one per tool. *)
Definition failed_names (m : list (BaseRustTool.t * dir_results)) : list string :=
  map (fun p => BaseRustTool.name (fst p)) (filter (fun p => tool_failed (snd p)) m).

Definition any_failed (m : list (BaseRustTool.t * dir_results)) : bool :=
  existsb (fun p => tool_failed (snd p)) m.

Definition fmap {World A B} (f : A -> B) (m : M World A) : M World B :=
  x <- m ;; ret (f x).

Section WithOS.
Context {World : Type} `{OS World}.

Definition has_manifest (w : World) (d : string) : bool :=
  os_path_exists w (posixpath.join d "Cargo.toml").

(** One step up, as the loop of [find_cargo_manifest_dir] takes it. *)
Definition parent (w : World) (d : string) : string :=
  posixpath.abspath (os_getcwd w) (posixpath.join d posixpath.pardir).

(** The directory [n] steps above [d]. *)
Definition ancestor (w : World) (d : string) (n : nat) : string :=
  Nat.iter n (parent w) d.

(** The run of one tool over the directories, keeping every result with
    its directory: the same calls, in the same order, as the inner loop of
    [run_on_dirs]. *)
Fixpoint tool_results (self : RustToolRunner.t) (tool : BaseRustTool.t)
         (dirs : list string) : M World dir_results :=
  match dirs with
  | [] => ret []
  | d :: dirs' =>
      result <- BaseRustTool.run tool d ;;
      RustToolRunner.handle_result self result d ;;;
      rest <- tool_results self tool dirs' ;;
      ret ((d, result) :: rest)
  end.

(** The run of every tool over every directory, keeping every result. *)
Fixpoint all_results (self : RustToolRunner.t) (tools : list BaseRustTool.t)
         (dirs : list string)
  : M World (list (BaseRustTool.t * dir_results)) :=
  match tools with
  | [] => ret []
  | tool :: tools' =>
      results <- tool_results self tool dirs ;;
      rest <- all_results self tools' dirs ;;
      ret ((tool, results) :: rest)
  end.

(** The orchestrator in a given mode, in the words of the specification:
    banner, selection from the registry of the mode, the run over the
    directories, summary and exit status. *)
Definition spec_run_in_mode (self : RustToolRunner.t) (mode : Mode)
           (target_dirs selected_tools : option (list string))
           (is_git_modified : bool) : M World unit :=
  print (mode_banner mode) ;;;
  failures <- RustToolRunner.run_on_dirs self
                (RustToolRunner.get_tools_to_run self (mode_registry self mode)
                   selected_tools is_git_modified)
                (paths_of target_dirs) ;;
  if is_nil failures then
    print (RustToolRunner.success_banner (mode_action mode)) ;;; sys_exit 0
  else
    print (RustToolRunner.failure_summary failures) ;;; sys_exit 1.

(** The changed files of the working copy as [get_modified_files] keeps
    them, from the two captured outputs, in the world [w]. *)
Definition changed_files (w : World) (staged_out unstaged_out : string) : list string :=
  filter (os_path_exists w)
    (pystr.dict_fromkeys (pystr.splitlines staged_out ++ pystr.splitlines unstaged_out)%list).

(** The project directory owning [file], if the walk finds one. *)
Definition owner (w : World) (file : string) : option string :=
  match find_cargo_manifest_dir_in w file with
  | Found d => Some d
  | _ => None
  end.

(** The owners of the files, in order, without the files that have none. *)
Definition owners (w : World) (files : list string) : list string :=
  flat_map (fun f => match owner w f with
                     | Some d => if pystr.truthy d then [d] else []
                     | None => []
                     end) files.
End WithOS.

(** One insertion into the keys of [dict.fromkeys]. *)
Definition add_key (keys : list string) (x : string) : list string :=
  if pystr.mem x keys then keys else (keys ++ [x])%list.

Definition GIT_STAGED : list string := ["git"; "diff"; "--cached"; "--name-only"].
Definition GIT_UNSTAGED : list string := ["git"; "diff"; "--name-only"].

Definition no_files_line : string := BLUE ++ "No modified files found." ++ RESET.
Definition no_dirs_line : string := BLUE ++ "No modified cargo projects found." ++ RESET.

Section WithOS.
Context {World : Type} `{OS World}.

(** Both queries ran to completion, the first with status zero. *)
Definition queries_ok (st : St World) (p1 p2 : CompletedProcess.t) (w1 w2 : World) : Prop :=
  os_spawn GIT_STAGED None (world st) = (Completed p1, w1)
  /\ CompletedProcess.returncode p1 = 0%Z
  /\ os_spawn GIT_UNSTAGED None w1 = (Completed p2, w2).

(** The state after the two queries. *)
Definition after_queries (st : St World) (w2 : World) : St World :=
  {| world := w2;
     trace := (trace st ++ [ESpawn GIT_STAGED None; ESpawn GIT_UNSTAGED None])%list |}.
End WithOS.

(** Components of a normalized path: not empty, no separator, neither
    [.] nor [..]. *)
Definition clean_comp (c : string) : bool :=
  pystr.truthy c && negb (posixpath.has_sep c)
  && negb (c =? posixpath.curdir) && negb (c =? posixpath.pardir).

Definition all_clean (comps : list string) : Prop :=
  Forall (fun c => clean_comp c = true) comps.

(** The text of the absolute path with [k] leading slashes and the
    components [comps]. *)
Definition render (k : nat) (comps : list string) : string :=
  posixpath.seps k ++ pystr.join "/" comps.

(* ================================================================= *)
(** ** A small simulated world, for concrete runs *)

Record SimWorld : Type := mkSim
  { sim_files : list string;
    sim_cwd : string;
    sim_proc : list string -> option string -> SpawnResult }.

#[export] Instance SimOS : OS SimWorld :=
  {| os_path_exists := fun w p => pystr.mem p (sim_files w);
     os_getcwd := sim_cwd;
     os_spawn := fun cmd cwd w => (sim_proc w cmd cwd, w);
     unicode_capitalize := fun s => s |}.

Definition sim_start (w : SimWorld) : St SimWorld := {| world := w; trace := [] |}.

Definition completed (rc : Z) (out err : string) : SpawnResult :=
  Completed (CompletedProcess.Build rc out err).

Definition clippy : BaseRustTool.t :=
  BaseRustTool.Build "clippy" (fun d => ["cargo"; "clippy"; "--"; "-D"; "warnings"]).

(** A world with no files, in which every command completes with status
    zero and no output. *)
Definition quiet (cmd : list string) (cwd : option string) : SpawnResult :=
  completed 0 "" "".
Definition empty_world : SimWorld :=
  {| sim_files := []; sim_cwd := "/repo"; sim_proc := quiet |}.

(** A project at the working directory whose linter fails with status 101. *)
Definition clippy_fails (cmd : list string) (cwd : option string) : SpawnResult :=
  if pystr.mem "clippy" cmd then completed 101 "" "error: foo" else completed 0 "" "".
Definition failing_world : SimWorld :=
  {| sim_files := ["./Cargo.toml"; "app/Cargo.toml"];
     sim_cwd := "/repo"; sim_proc := clippy_fails |}.

(** A repository with a workspace manifest at its root and a crate below:
    both [/repo] and [/repo/crates/x] carry a [Cargo.toml]. *)
Definition nested_world : SimWorld :=
  {| sim_files := ["/repo/Cargo.toml"; "/repo/crates/x/Cargo.toml";
                   "crates/x/src/a.rs"; "crates/x/src/b.rs"; "README.md"];
     sim_cwd := "/repo"; sim_proc := quiet |}.

(** Version-control queries with fixed answers: the staged query prints
    [staged] and exits with status zero, the unstaged query prints [unstaged]
    and exits with [unstaged_rc]; every other command succeeds silently. *)
Definition git_answers (staged unstaged : string) (unstaged_rc : Z)
           (cmd : list string) (cwd : option string) : SpawnResult :=
  if pystr.mem "--cached" cmd then completed 0 staged ""
  else if pystr.mem "git" cmd then completed unstaged_rc unstaged ""
  else completed 0 "" "".

(** Three projects, and changed files [a, b, a, c] over the two queries. *)
Definition three_projects : SimWorld :=
  {| sim_files := ["/repo/Cargo.toml"; "/repo/crates/x/Cargo.toml";
                   "/repo/crates/y/Cargo.toml";
                   "crates/x/src/a.rs"; "README.md"; "crates/y/src/c.rs"];
     sim_cwd := "/repo";
     sim_proc := git_answers ("crates/x/src/a.rs" ++ NL ++ "README.md" ++ NL)
                             ("crates/x/src/a.rs" ++ NL ++ "crates/y/src/c.rs" ++ NL) 0 |}.

(** Two changed files of one project. *)
Definition one_project : SimWorld :=
  {| sim_files := ["/repo/crates/x/Cargo.toml";
                   "crates/x/src/a.rs"; "crates/x/src/b.rs"];
     sim_cwd := "/repo";
     sim_proc := git_answers ("crates/x/src/a.rs" ++ NL ++ "crates/x/gone.rs" ++ NL)
                             ("crates/x/src/b.rs" ++ NL) 0 |}.

(** A changed file outside every project. *)
Definition no_project : SimWorld :=
  {| sim_files := ["README.md"]; sim_cwd := "/repo";
     sim_proc := git_answers ("README.md" ++ NL) "" 0 |}.


(** The unstaged query fails with status 1 after printing a path. *)
Definition unstaged_fails_with_output : SimWorld :=
  {| sim_files := ["/repo/Cargo.toml"; "README.md"; "src/lib.rs"]; sim_cwd := "/repo";
     sim_proc := git_answers ("README.md" ++ NL) ("src/lib.rs" ++ NL) 1 |}.

Definition git_modified_args : Args.t :=
  Args.Build [] None false None false false true.

(** The child processes among the events: command and working directory. *)
Definition spawned (evs : list Event) : list (list string * option string) :=
  flat_map (fun e => match e with
                     | ESpawn cmd cwd => [(cmd, cwd)]
                     | EPrint _ => []
                     end) evs.

(** The command a tool runs in a directory, with its working directory. *)
Definition tool_command (tool : BaseRustTool.t) (d : string)
  : list string * option string :=
  (BaseRustTool.command_factory tool d, Some d).

Section WithOS.
Context {World : Type} `{OS World}.

(** One command per tool and per directory that holds a manifest in [w],
    tool by tool, directories in order. *)
Definition expected_spawns (w : World) (tools : list BaseRustTool.t)
           (dirs : list string) : list (list string * option string) :=
  flat_map (fun tool =>
              flat_map (fun d => if has_manifest w d then [tool_command tool d] else [])
                dirs) tools.

(** Commands always run to completion and leave the existence of every
    path as it was. *)
Definition commands_are_quiet : Prop :=
  (forall cmd cwd (w : World), exists p, fst (os_spawn cmd cwd w) = Completed p)
  /\ (forall cmd cwd (w : World) path,
         os_path_exists (snd (os_spawn cmd cwd w)) path = os_path_exists w path).
End WithOS.

(** A world that is its list of files, with a linter that always fails and
    other commands that succeed; no command touches the files. *)
#[export] Instance FilesOS : OS (list string) :=
  {| os_path_exists := fun files p => pystr.mem p files;
     os_getcwd := fun _ => "/repo";
     os_spawn := fun cmd cwd files => (clippy_fails cmd cwd, files);
     unicode_capitalize := fun s => s |}.

Definition fmt : BaseRustTool.t :=
  BaseRustTool.Build "fmt" (fun d => ["cargo"; "fmt"]).

(** The staged query fails: not a repository. *)
Definition not_a_repository : SimWorld :=
  {| sim_files := ["./Cargo.toml"]; sim_cwd := "/repo";
     sim_proc := fun _ _ => completed 128 "" "fatal: not a git repository" |}.

(** The build tool is not installed: no command can be started. *)
Definition no_cargo : SimWorld :=
  {| sim_files := ["./Cargo.toml"]; sim_cwd := "/repo";
     sim_proc := fun _ _ => SpawnFault "No such file or directory: 'cargo'" |}.

(** Every command writes bytes that are not text. *)
Definition garbled_output : SimWorld :=
  {| sim_files := ["./Cargo.toml"]; sim_cwd := "/repo";
     sim_proc := fun _ _ => Undecodable |}.

(** What is printed for a directory without manifest: the skip line, then
    the line of a passed check, with the name of the tool as [capitalize]
    gives it. *)
Definition skipped_lines (capitalize : string -> string)
           (tool : BaseRustTool.t) (d : string) : list string :=
  [BLUE ++ "Skipping " ++ d ++ ": " ++ "Cargo.toml not found (not a Rust project)." ++ RESET;
   GREEN ++ "✅ " ++ capitalize (BaseRustTool.name tool)
         ++ " checks passed in " ++ d ++ "." ++ RESET].

(** What is printed for a directory where the command completed. *)
Definition completed_lines (capitalize : string -> string)
           (tool : BaseRustTool.t) (d : string)
           (p : CompletedProcess.t) : list string :=
  if (CompletedProcess.returncode p =? 0)%Z then
    [GREEN ++ "✅ " ++ capitalize (BaseRustTool.name tool)
           ++ " checks passed in " ++ d ++ "." ++ RESET]
  else
    (RED ++ "❌ " ++ capitalize (BaseRustTool.name tool)
         ++ " issues in " ++ d ++ ":" ++ RESET)
      :: CompletedProcess.stdout p
      :: (if pystr.truthy (CompletedProcess.stderr p)
          then [CompletedProcess.stderr p] else []).


(** [l1] is [l2] with some of its elements left out: what is kept is in
    the same order, and nothing occurs more often than in [l2]. *)
Inductive subseq {A : Type} : list A -> list A -> Prop :=
| subseq_nil : subseq [] []
| subseq_skip (x : A) (l1 l2 : list A) : subseq l1 l2 -> subseq l1 (x :: l2)
| subseq_keep (x : A) (l1 l2 : list A) : subseq l1 l2 -> subseq (x :: l1) (x :: l2).

(** The commands of the tools over the directories when no directory is
    skipped: tool by tool, directories in order. *)
Definition planned_spawns (tools : list BaseRustTool.t) (dirs : list string)
  : list (list string * option string) :=
  flat_map (fun tool => map (tool_command tool) dirs) tools.

Section WithOS.
Context {World : Type} `{OS World}.

End WithOS.


(* ================================================================= *)
(** * Properties *)

Unset Implicit Arguments.

Example splitlines_ex1 :
  pystr.splitlines ("src/a.rs" ++ String "010" ("b.rs" ++ String "013" (String "010" (String "010" "c"))))
  = ["src/a.rs"; "b.rs"; ""; "c"].
Proof. reflexivity. Qed.

Example normpath_ex1 : posixpath.normpath "/a/./b//../c/" = "/a/c".
Proof. reflexivity. Qed.
Example normpath_ex2 : posixpath.normpath "//.." = "//".
Proof. reflexivity. Qed.
Example normpath_ex3 : posixpath.normpath "///a/../.." = "/".
Proof. reflexivity. Qed.
Example normpath_ex4 : posixpath.normpath "a/../.." = "..".
Proof. reflexivity. Qed.
Example dirname_ex1 : posixpath.dirname "src/main.rs" = "src".
Proof. reflexivity. Qed.
Example dirname_ex2 : posixpath.dirname "main.rs" = "".
Proof. reflexivity. Qed.
Example dirname_ex3 : posixpath.dirname "/main.rs" = "/".
Proof. reflexivity. Qed.
Example dirname_ex4 : posixpath.dirname "a//b" = "a".
Proof. reflexivity. Qed.
Example abspath_ex1 : posixpath.abspath "/home/u/repo" (posixpath.dirname "main.rs") = "/home/u/repo".
Proof. reflexivity. Qed.
Example capitalize_ex : pystr.capitalize (fun s => s) "clippy" = "Clippy".
Proof. reflexivity. Qed.
Example fromkeys_ex : pystr.dict_fromkeys ["a"; "b"; "a"; "c"] = ["a"; "b"; "c"].
Proof. reflexivity. Qed.

(** The case tables of the interpreter play no part for an ASCII name, and
    decide alone for any other. *)
Example capitalize_ascii_ex :
  forall f, pystr.capitalize f "cLIPPY-fix" = "Clippy-fix".
Proof. reflexivity. Qed.
Example capitalize_unicode_ex :
  forall f, pystr.capitalize f "ßig" = f "ßig".
Proof. reflexivity. Qed.

(* ----------------------------------------------------------------- *)
(** ** Strings *)

Lemma str_app_assoc (a b c : string) : (a ++ b) ++ c = a ++ (b ++ c).
Proof. induction a as [|x a IH]; simpl; [reflexivity | now rewrite IH]. Qed.

Lemma str_app_nil_r (a : string) : a ++ "" = a.
Proof. induction a as [|x a IH]; simpl; [reflexivity | now rewrite IH]. Qed.

Lemma str_length_app (a b : string) :
  String.length (a ++ b) = String.length a + String.length b.
Proof. induction a as [|x a IH]; simpl; [reflexivity | now rewrite IH]. Qed.

Lemma truthy_false_iff (s : string) : pystr.truthy s = false <-> s = "".
Proof. destruct s; simpl; split; congruence. Qed.

Lemma truthy_app_l (a b : string) : pystr.truthy a = true -> pystr.truthy (a ++ b) = true.
Proof. destruct a; simpl; congruence. Qed.

Lemma mem_In (x : string) (xs : list string) : pystr.mem x xs = true <-> In x xs.
Proof.
  unfold pystr.mem. rewrite existsb_exists. split.
  - intros [y [Hy Heq]]. apply String.eqb_eq in Heq. now subst.
  - intros Hin. exists x. split; [assumption | apply String.eqb_refl].
Qed.

(* ----------------------------------------------------------------- *)
(** ** [posixpath]: splitting and joining *)

Lemma has_sep_app (a b : string) :
  posixpath.has_sep (a ++ b) = posixpath.has_sep a || posixpath.has_sep b.
Proof.
  induction a as [|x a IH]; simpl; [reflexivity|].
  rewrite IH. now rewrite orb_assoc.
Qed.

Lemma split_sep_not_nil (s : string) : posixpath.split_sep s <> [].
Proof.
  induction s as [|c s IH]; simpl; [discriminate|].
  destruct (Ascii.eqb c posixpath.sep); [discriminate|].
  destruct (posixpath.split_sep s); discriminate.
Qed.

Lemma split_sep_no_sep (s : string) :
  Forall (fun c => posixpath.has_sep c = false) (posixpath.split_sep s).
Proof.
  induction s as [|c s IH]; simpl.
  - constructor; [reflexivity | constructor].
  - destruct (Ascii.eqb c posixpath.sep) eqn:Ec.
    + constructor; [reflexivity | assumption].
    + destruct (posixpath.split_sep s) as [|h t].
      * constructor; [simpl; now rewrite Ec | constructor].
      * inversion IH; subst. constructor; [simpl; rewrite Ec; assumption | assumption].
Qed.

(** Splitting undoes joining a component in front. *)
Lemma split_sep_cons (c s : string) :
  posixpath.has_sep c = false ->
  posixpath.split_sep (c ++ String "/" s) = c :: posixpath.split_sep s.
Proof.
  induction c as [|x c IH]; simpl; intros Hc; [reflexivity|].
  apply orb_false_iff in Hc. destruct Hc as [Hx Hc].
  rewrite Hx. rewrite (IH Hc). reflexivity.
Qed.

Lemma split_sep_single (c : string) :
  posixpath.has_sep c = false -> posixpath.split_sep c = [c].
Proof.
  induction c as [|x c IH]; simpl; intros Hc; [reflexivity|].
  apply orb_false_iff in Hc. destruct Hc as [Hx Hc].
  rewrite Hx. rewrite (IH Hc). reflexivity.
Qed.

Lemma split_sep_join (comps : list string) :
  comps <> [] ->
  Forall (fun c => posixpath.has_sep c = false) comps ->
  posixpath.split_sep (pystr.join "/" comps) = comps.
Proof.
  induction comps as [|c comps IH]; intros Hne Hall; [congruence|].
  inversion Hall as [|? ? Hc Hrest]; subst.
  destruct comps as [|c' comps'].
  - simpl. now apply split_sep_single.
  - change (pystr.join "/" (c :: c' :: comps'))
      with (c ++ String "/" (pystr.join "/" (c' :: comps'))).
    rewrite split_sep_cons by assumption.
    rewrite IH; [reflexivity | discriminate | assumption].
Qed.

Lemma join_snoc (comps : list string) (c : string) :
  comps <> [] ->
  pystr.join "/" (comps ++ [c]) = pystr.join "/" comps ++ "/" ++ c.
Proof.
  induction comps as [|x comps IH]; intros Hne; [congruence|].
  destruct comps as [|y comps'].
  - reflexivity.
  - change (pystr.join "/" ((x :: y :: comps') ++ [c]))
      with (x ++ "/" ++ pystr.join "/" ((y :: comps') ++ [c])).
    rewrite IH by discriminate.
    change (pystr.join "/" (x :: y :: comps'))
      with (x ++ "/" ++ pystr.join "/" (y :: comps')).
    rewrite !str_app_assoc. reflexivity.
Qed.

(* ----------------------------------------------------------------- *)
(** ** [posixpath.normpath] on absolute paths *)

Lemma clean_comp_inv (c : string) :
  clean_comp c = true ->
  pystr.truthy c = true /\ posixpath.has_sep c = false
  /\ (c =? ".") = false /\ (c =? "..") = false.
Proof.
  unfold clean_comp, posixpath.curdir, posixpath.pardir. intros Hc.
  repeat (apply andb_true_iff in Hc; destruct Hc as [Hc ?]).
  repeat match goal with
         | Hn : negb _ = true |- _ => apply negb_true_iff in Hn
         end.
  auto.
Qed.

Lemma clean_comp_intro (c : string) :
  (c =? "") = false -> posixpath.has_sep c = false ->
  (c =? ".") = false -> (c =? "..") = false -> clean_comp c = true.
Proof.
  intros He Hs Hd Hp. unfold clean_comp, posixpath.curdir, posixpath.pardir.
  rewrite Hs, Hd, Hp. destruct c; [discriminate | reflexivity].
Qed.

Lemma all_clean_no_sep (comps : list string) :
  all_clean comps -> Forall (fun c => posixpath.has_sep c = false) comps.
Proof.
  intros Hall. eapply Forall_impl; [|exact Hall].
  intros c Hc. now apply clean_comp_inv in Hc.
Qed.

Lemma normpath_step_clean (k : nat) (acc : list string) (c : string) :
  clean_comp c = true -> posixpath.normpath_step k acc c = (acc ++ [c])%list.
Proof.
  intros Hc. apply clean_comp_inv in Hc. destruct Hc as (Ht & _ & Hd & Hp).
  unfold posixpath.normpath_step, posixpath.curdir, posixpath.pardir.
  assert (He : (c =? "") = false) by (destruct c; [discriminate | reflexivity]).
  now rewrite He, Hd, Hp.
Qed.

Lemma fold_normpath_clean (k : nat) (comps acc : list string) :
  all_clean comps ->
  fold_left (posixpath.normpath_step k) comps acc = (acc ++ comps)%list.
Proof.
  revert acc. induction comps as [|c comps IH]; intros acc Hall; simpl.
  - now rewrite app_nil_r.
  - inversion Hall; subst. rewrite normpath_step_clean by assumption.
    rewrite IH by assumption. now rewrite <- app_assoc.
Qed.

Lemma all_clean_removelast (comps : list string) :
  all_clean comps -> all_clean (removelast comps).
Proof.
  induction comps as [|c comps IH]; intros Hall; [constructor|].
  inversion Hall; subst. destruct comps as [|c' comps']; [constructor|].
  change (removelast (c :: c' :: comps')) with (c :: removelast (c' :: comps')).
  constructor; [assumption | now apply IH].
Qed.

Lemma all_clean_last (comps : list string) (d : string) :
  all_clean comps -> comps <> [] -> clean_comp (last comps d) = true.
Proof.
  induction comps as [|c comps IH]; intros Hall Hne; [congruence|].
  inversion Hall; subst. destruct comps as [|c' comps']; [assumption|].
  change (last (c :: c' :: comps') d) with (last (c' :: comps') d).
  apply IH; [assumption | discriminate].
Qed.

(** With a leading slash the component loop keeps its list clean: [..]
    never stays in it. *)
Lemma normpath_step_keeps_clean (k : nat) (acc : list string) (c : string) :
  k <> 0 -> all_clean acc -> posixpath.has_sep c = false ->
  all_clean (posixpath.normpath_step k acc c).
Proof.
  intros Hk Hacc Hc. unfold posixpath.normpath_step, posixpath.curdir, posixpath.pardir.
  destruct (c =? "") eqn:He; [assumption|].
  destruct (c =? ".") eqn:Hd; [assumption|]. simpl.
  destruct (c =? "..") eqn:Hp; simpl.
  - assert (Hk0 : (k =? 0)%nat = false) by now apply Nat.eqb_neq.
    rewrite Hk0. simpl.
    destruct acc as [|a acc']; [assumption|].
    cbn [is_nil negb andb].
    assert (Hl : (last (a :: acc') "" =? "..") = false).
    { pose proof (all_clean_last (a :: acc') "" Hacc ltac:(discriminate)) as Hl.
      now apply clean_comp_inv in Hl. }
    rewrite Hl. now apply all_clean_removelast.
  - apply Forall_app. split; [assumption|].
    constructor; [|constructor]. now apply clean_comp_intro.
Qed.

Lemma fold_normpath_keeps_clean (k : nat) (comps acc : list string) :
  k <> 0 -> all_clean acc ->
  Forall (fun c => posixpath.has_sep c = false) comps ->
  all_clean (fold_left (posixpath.normpath_step k) comps acc).
Proof.
  intros Hk. revert acc. induction comps as [|c comps IH]; intros acc Hacc Hall; simpl.
  - assumption.
  - inversion Hall; subst. apply IH; [|assumption].
    now apply normpath_step_keeps_clean.
Qed.

Lemma initial_slashes_abs (p : string) :
  posixpath.isabs p = true ->
  posixpath.initial_slashes_of p = 1 \/ posixpath.initial_slashes_of p = 2.
Proof.
  unfold posixpath.isabs, posixpath.initial_slashes_of. intros ->.
  destruct (_ && _); auto.
Qed.

(** The normal form of an absolute path: one or two slashes, then clean
    components joined by slashes. *)
Lemma normpath_abs (p : string) :
  posixpath.isabs p = true ->
  exists k comps, (k = 1 \/ k = 2) /\ all_clean comps
                  /\ posixpath.normpath p = render k comps.
Proof.
  intros Habs.
  exists (posixpath.initial_slashes_of p),
    (fold_left (posixpath.normpath_step (posixpath.initial_slashes_of p))
       (posixpath.split_sep p) []).
  pose proof (initial_slashes_abs p Habs) as Hk.
  split; [assumption|]. split.
  - apply fold_normpath_keeps_clean; [lia | constructor | apply split_sep_no_sep].
  - unfold posixpath.normpath, render.
    destruct p as [|x p']; [discriminate|]. cbn [pystr.truthy negb].
    cbv zeta.
    destruct Hk as [-> | ->]; reflexivity.
Qed.

Lemma endswith_char_app (c : ascii) (a b : string) :
  pystr.truthy b = true ->
  pystr.endswith_char c (a ++ b) = pystr.endswith_char c b.
Proof.
  intros Hb. induction a as [|x a IH]; [reflexivity|].
  simpl. destruct (a ++ b) eqn:Hab.
  - destruct a, b; simpl in *; discriminate.
  - exact IH.
Qed.

Lemma endswith_sep_no_sep (s : string) :
  posixpath.has_sep s = false -> pystr.endswith_char posixpath.sep s = false.
Proof.
  induction s as [|x s IH]; [reflexivity|]. simpl. intros Hs.
  apply orb_false_iff in Hs. destruct Hs as [Hx Hs].
  destruct s; [assumption | now apply IH].
Qed.

Lemma join_ends_with_last (comps : list string) :
  comps <> [] -> exists pre, pystr.join "/" comps = pre ++ last comps "".
Proof.
  induction comps as [|c comps IH]; intros Hne; [congruence|].
  destruct comps as [|c' comps'].
  - exists "". reflexivity.
  - destruct IH as [pre Hpre]; [discriminate|].
    exists (c ++ "/" ++ pre).
    change (pystr.join "/" (c :: c' :: comps'))
      with (c ++ "/" ++ pystr.join "/" (c' :: comps')).
    rewrite Hpre.
    change (last (c :: c' :: comps') "") with (last (c' :: comps') "").
    now rewrite !str_app_assoc.
Qed.

Lemma render_not_ending_in_sep (k : nat) (comps : list string) :
  all_clean comps -> comps <> [] ->
  pystr.endswith_char posixpath.sep (render k comps) = false.
Proof.
  intros Hall Hne. unfold render.
  destruct (join_ends_with_last comps Hne) as [pre ->].
  pose proof (all_clean_last comps "" Hall Hne) as Hl.
  apply clean_comp_inv in Hl. destruct Hl as (Ht & Hs & _).
  rewrite <- str_app_assoc, endswith_char_app by assumption.
  now apply endswith_sep_no_sep.
Qed.

Lemma render_truthy (k : nat) (comps : list string) :
  k <> 0 -> pystr.truthy (render k comps) = true.
Proof. destruct k; [congruence | reflexivity]. Qed.

Lemma render_isabs (k : nat) (comps : list string) :
  k <> 0 -> posixpath.isabs (render k comps) = true.
Proof. destruct k; [congruence | reflexivity]. Qed.

Lemma join_pardir_render (k : nat) (comps : list string) :
  k <> 0 -> all_clean comps -> comps <> [] ->
  posixpath.join (render k comps) posixpath.pardir
  = render k (comps ++ [posixpath.pardir]).
Proof.
  intros Hk Hall Hne. unfold posixpath.join.
  change (pystr.startswith "/" posixpath.pardir) with false. cbv iota.
  rewrite render_truthy by assumption.
  rewrite render_not_ending_in_sep by assumption.
  cbn [negb orb]. unfold render.
  rewrite join_snoc by assumption. now rewrite !str_app_assoc.
Qed.

Lemma clean_join_head (c : string) (cs : list string) :
  clean_comp c = true ->
  exists x rest, pystr.join "/" (c :: cs) = String x rest
                 /\ Ascii.eqb x posixpath.sep = false.
Proof.
  intros Hc. apply clean_comp_inv in Hc. destruct Hc as (Ht & Hs & _).
  destruct c as [|x c']; [discriminate|].
  simpl in Hs. apply orb_false_iff in Hs. destruct Hs as [Hx _].
  destruct cs as [|c2 cs'].
  - exists x, c'. split; [reflexivity | assumption].
  - exists x, (c' ++ "/" ++ pystr.join "/" (c2 :: cs')).
    split; [reflexivity | assumption].
Qed.

Lemma initial_slashes_render (k : nat) (comps : list string) :
  k = 1 \/ k = 2 -> all_clean comps -> comps <> [] ->
  posixpath.initial_slashes_of (render k comps) = k.
Proof.
  intros Hk Hall Hne. destruct comps as [|c cs]; [congruence|].
  inversion Hall as [|? ? Hc _]; subst.
  destruct (clean_join_head c cs Hc) as (x & rest & Hj & Hx).
  unfold render. rewrite Hj.
  unfold posixpath.sep in Hx. rewrite Ascii.eqb_sym in Hx.
  destruct Hk as [-> | ->]; unfold posixpath.initial_slashes_of, posixpath.sep;
    cbn [pystr.startswith posixpath.seps append];
    rewrite ?Ascii.eqb_refl, ?Hx; reflexivity.
Qed.

Lemma split_sep_render (k : nat) (comps : list string) :
  Forall (fun c => posixpath.has_sep c = false) comps -> comps <> [] ->
  posixpath.split_sep (render k comps) = (repeat "" k ++ comps)%list.
Proof.
  intros Hall Hne. unfold render. induction k as [|k IH]; simpl.
  - now apply split_sep_join.
  - now rewrite IH.
Qed.

Lemma fold_normpath_empties (k n : nat) (acc : list string) :
  fold_left (posixpath.normpath_step k) (repeat "" n) acc = acc.
Proof. induction n as [|n IH]; simpl; [reflexivity | exact IH]. Qed.

(** Going up from a normalized absolute path drops its last component;
    at the root there is nothing to drop. *)
Lemma normpath_pardir (k : nat) (comps : list string) :
  k = 1 \/ k = 2 -> all_clean comps ->
  posixpath.normpath (posixpath.join (render k comps) posixpath.pardir)
  = render k (removelast comps).
Proof.
  intros Hk Hall. destruct comps as [|c0 cs0] eqn:Ecomps.
  - destruct Hk as [-> | ->]; reflexivity.
  - rewrite <- Ecomps in *.
    assert (Hne : comps <> []) by (rewrite Ecomps; discriminate).
    assert (Hk0 : k <> 0) by lia.
    rewrite join_pardir_render by assumption.
    unfold posixpath.normpath.
    rewrite render_truthy by assumption. cbn [negb]. cbv zeta.
    assert (Hinit : posixpath.initial_slashes_of (render k (comps ++ [posixpath.pardir])) = k).
    { unfold render. rewrite join_snoc by assumption.
      rewrite <- str_app_assoc.
      destruct comps as [|c cs]; [congruence|].
      inversion Hall as [|? ? Hc _]; subst.
      destruct (clean_join_head c cs Hc) as (x & rest & Hj & Hx).
      rewrite Hj. unfold posixpath.sep in Hx. rewrite Ascii.eqb_sym in Hx.
      destruct Hk as [-> | ->]; unfold posixpath.initial_slashes_of, posixpath.sep;
        cbn [pystr.startswith posixpath.seps append];
        rewrite ?Ascii.eqb_refl, ?Hx; reflexivity. }
    rewrite Hinit.
    assert (Hsplit : posixpath.split_sep (render k (comps ++ [posixpath.pardir]))
                     = (repeat "" k ++ comps ++ [posixpath.pardir])%list).
    { apply split_sep_render.
      - apply Forall_app. split; [now apply all_clean_no_sep|].
        constructor; [reflexivity | constructor].
      - destruct comps; discriminate. }
    rewrite Hsplit, !fold_left_app, fold_normpath_empties.
    rewrite (fold_normpath_clean k comps []) by assumption. cbn [app fold_left].
    assert (Hstep : posixpath.normpath_step k comps posixpath.pardir = removelast comps).
    { unfold posixpath.normpath_step, posixpath.curdir, posixpath.pardir.
      change (".." =? "") with false. change (".." =? ".") with false.
      change (".." =? "..") with true. cbn [orb negb].
      assert (Hkb : (k =? 0)%nat = false) by now apply Nat.eqb_neq.
      rewrite Hkb. cbn [andb orb].
      pose proof (all_clean_last comps "" Hall Hne) as Hl.
      apply clean_comp_inv in Hl. destruct Hl as (_ & _ & _ & Hl).
      unfold posixpath.pardir in Hl.
      destruct comps; [congruence|]. cbn [is_nil negb andb].
      now rewrite Hl. }
    rewrite Hstep.
    change (posixpath.seps k ++ pystr.join "/" (removelast comps))
      with (render k (removelast comps)).
    now rewrite render_truthy by assumption.
Qed.

Lemma isabs_join_l (a b : string) :
  posixpath.isabs a = true -> posixpath.isabs (posixpath.join a b) = true.
Proof.
  unfold posixpath.isabs, posixpath.join. intros Ha.
  destruct (pystr.startswith "/" b) eqn:Hb; [assumption|].
  destruct a as [|x a']; [discriminate|].
  destruct (_ || _); exact Ha.
Qed.

Lemma join_length_ge (comps : list string) :
  all_clean comps -> length comps <= String.length (pystr.join "/" comps).
Proof.
  induction comps as [|c comps IH]; intros Hall; [simpl; lia|].
  inversion Hall as [|? ? Hc Hrest]; subst.
  apply clean_comp_inv in Hc. destruct Hc as (Ht & _).
  destruct c as [|x c']; [discriminate|].
  destruct comps as [|c2 comps'].
  - simpl. lia.
  - change (pystr.join "/" (String x c' :: c2 :: comps'))
      with (String x c' ++ "/" ++ pystr.join "/" (c2 :: comps')).
    rewrite !str_length_app. specialize (IH Hrest). simpl in *. lia.
Qed.

Lemma all_clean_firstn (n : nat) (comps : list string) :
  all_clean comps -> all_clean (firstn n comps).
Proof.
  revert n. induction comps as [|c comps IH]; intros n Hall.
  - now rewrite firstn_nil.
  - destruct n; [constructor|]. inversion Hall; subst.
    simpl. constructor; [assumption | now apply IH].
Qed.

(* ----------------------------------------------------------------- *)
(** ** The walk of [find_cargo_manifest_dir] *)

Section Walk.
Context {World : Type} `{OS World}.
Variable w : World.

Lemma parent_render (k : nat) (comps : list string) :
  k = 1 \/ k = 2 -> all_clean comps ->
  parent w (render k comps) = render k (removelast comps).
Proof.
  intros Hk Hall. unfold parent, posixpath.abspath.
  rewrite isabs_join_l by (apply render_isabs; lia).
  now apply normpath_pardir.
Qed.

Lemma ancestor_succ (d : string) (j : nat) :
  ancestor w d (S j) = ancestor w (parent w d) j.
Proof. unfold ancestor. apply Nat.iter_succ_r. Qed.

Lemma ancestor_fixed (d : string) (j : nat) :
  parent w d = d -> ancestor w d j = d.
Proof.
  intros Hfix. induction j as [|j IH]; [reflexivity|].
  unfold ancestor in *. simpl. now rewrite IH.
Qed.

(** The ancestors of a normalized absolute path are its prefixes. *)
Lemma ancestor_render (k : nat) (comps : list string) (j : nat) :
  k = 1 \/ k = 2 -> all_clean comps ->
  ancestor w (render k comps) j = render k (firstn (length comps - j) comps).
Proof.
  intros Hk Hall. induction j as [|j IH].
  - rewrite Nat.sub_0_r, firstn_all. reflexivity.
  - change (ancestor w (render k comps) (S j))
      with (parent w (ancestor w (render k comps) j)).
    rewrite IH, parent_render by (try apply all_clean_firstn; assumption).
    f_equal.
    destruct (length comps - j) as [|m] eqn:Em.
    + replace (length comps - S j) with 0 by lia. reflexivity.
    + replace (length comps - S j) with m by lia.
      apply removelast_firstn. lia.
Qed.

Lemma start_dir_render (path : string) :
  posixpath.isabs (os_getcwd w) = true ->
  exists k comps, (k = 1 \/ k = 2) /\ all_clean comps
                  /\ start_dir w path = render k comps.
Proof.
  intros Hcwd. unfold start_dir, posixpath.abspath.
  apply normpath_abs.
  destruct (posixpath.isabs (posixpath.dirname path)) eqn:Hd; [assumption|].
  now apply isabs_join_l.
Qed.

(** Enough fuel: one step per component, and one for the root. *)
Lemma loop_finishes (fuel k : nat) (comps : list string) :
  k = 1 \/ k = 2 -> all_clean comps -> length comps < fuel ->
  find_cargo_manifest_dir_loop fuel w (render k comps) <> Unfinished.
Proof.
  intros Hk. revert comps.
  induction fuel as [|fuel IH]; intros comps Hall Hlen; [lia|].
  cbn [find_cargo_manifest_dir_loop].
  destruct (os_path_exists w _); [discriminate|].
  fold (parent w (render k comps)). rewrite parent_render by assumption.
  destruct comps as [|c cs].
  { cbn [removelast]. now rewrite String.eqb_refl. }
  destruct (render k (c :: cs) =? render k (removelast (c :: cs))); [discriminate|].
  apply IH; [now apply all_clean_removelast|].
  assert (Hl : length (removelast (c :: cs)) = length cs).
  { clear. revert c. induction cs as [|c' cs IH]; intros c; [reflexivity|].
    change (removelast (c :: c' :: cs)) with (c :: removelast (c' :: cs)).
    cbn [Datatypes.length]. now rewrite IH. }
  rewrite Hl. simpl in Hlen. lia.
Qed.

Lemma walk_terminates (path : string) :
  posixpath.isabs (os_getcwd w) = true ->
  find_cargo_manifest_dir_in w path <> Unfinished.
Proof.
  intros Hcwd. unfold find_cargo_manifest_dir_in.
  destruct (start_dir_render path Hcwd) as (k & comps & Hk & Hall & ->).
  apply loop_finishes; [assumption | assumption|].
  unfold render. rewrite str_length_app.
  pose proof (join_length_ge comps Hall). lia.
Qed.

(** What the loop returns, whatever the fuel. *)
Lemma loop_found (fuel : nat) (d r : string) :
  find_cargo_manifest_dir_loop fuel w d = Found r ->
  exists j, r = ancestor w d j /\ has_manifest w r = true
            /\ (forall i, i < j -> has_manifest w (ancestor w d i) = false)
            /\ (forall i, i < j -> parent w (ancestor w d i) <> ancestor w d i).
Proof.
  revert d. induction fuel as [|fuel IH]; intros d Hrun; [discriminate|].
  cbn [find_cargo_manifest_dir_loop] in Hrun. fold (has_manifest w d) in Hrun.
  fold (parent w d) in Hrun.
  destruct (has_manifest w d) eqn:Hm.
  - inversion Hrun; subst. exists 0. repeat split; try assumption; intros; lia.
  - destruct (d =? parent w d) eqn:Hroot; [discriminate|].
    apply String.eqb_neq in Hroot.
    destruct (IH _ Hrun) as (j & Hr & Hmr & Hbelow & Hmove).
    exists (S j). rewrite ancestor_succ. repeat split; try assumption.
    + intros [|i] Hi; [exact Hm|]. rewrite ancestor_succ. apply Hbelow. lia.
    + intros [|i] Hi; [simpl; congruence|]. rewrite ancestor_succ. apply Hmove. lia.
Qed.

Lemma loop_not_found (fuel : nat) (d : string) :
  find_cargo_manifest_dir_loop fuel w d = NotFound ->
  (exists n, parent w (ancestor w d n) = ancestor w d n)
  /\ forall j, has_manifest w (ancestor w d j) = false.
Proof.
  revert d. induction fuel as [|fuel IH]; intros d Hrun; [discriminate|].
  cbn [find_cargo_manifest_dir_loop] in Hrun. fold (has_manifest w d) in Hrun.
  fold (parent w d) in Hrun.
  destruct (has_manifest w d) eqn:Hm; [discriminate|].
  destruct (d =? parent w d) eqn:Hroot.
  - apply String.eqb_eq in Hroot. symmetry in Hroot. split.
    + exists 0. exact Hroot.
    + intros j. now rewrite ancestor_fixed.
  - destruct (IH _ Hrun) as [[n Hn] Hall]. split.
    + exists (S n). now rewrite ancestor_succ.
    + intros [|j]; [exact Hm|]. rewrite ancestor_succ. apply Hall.
Qed.
End Walk.

(* ----------------------------------------------------------------- *)
(** ** Running one tool in one directory *)

Ltac unfold_monad :=
  unfold bind, ret, print, sys_exit, fmap, os_path.exists_, log in *.

Section Runner.
Context {World : Type} `{OS World}.

Lemma run_without_manifest (tool : BaseRustTool.t) (directory : string) (st : St World) :
  has_manifest (world st) directory = false ->
  BaseRustTool.run tool directory st
  = (Ret (ToolResult.Build (BaseRustTool.name tool) true ("Skipped " ++ directory) ""),
     log (EPrint (BLUE ++ "Skipping " ++ directory ++ ": "
                       ++ "Cargo.toml not found (not a Rust project)." ++ RESET)) st).
Proof.
  unfold has_manifest, BaseRustTool.run. intros Hm.
  unfold bind at 1. unfold os_path.exists_. rewrite Hm. reflexivity.
Qed.

Lemma run_with_manifest (tool : BaseRustTool.t) (directory : string) (st : St World) :
  has_manifest (world st) directory = true ->
  BaseRustTool.run tool directory st
  = let cmd := BaseRustTool.command_factory tool directory in
    let st' := {| world := snd (os_spawn cmd (Some directory) (world st));
                  trace := (trace st ++ [ESpawn cmd (Some directory)])%list |} in
    match fst (os_spawn cmd (Some directory) (world st)) with
    | Completed p =>
        (Ret (ToolResult.Build (BaseRustTool.name tool)
                (CompletedProcess.returncode p =? 0)%Z
                (CompletedProcess.stdout p) (CompletedProcess.stderr p)), st')
    | SpawnFault msg => (Raise (OSError msg), st')
    | Undecodable => (Raise UnicodeDecodeError, st')
    end.
Proof.
  unfold has_manifest, BaseRustTool.run. intros Hm.
  unfold bind at 1. unfold os_path.exists_. rewrite Hm. cbn [negb].
  unfold bind, subprocess.run, ret. cbv zeta.
  destruct (os_spawn _ _ _) as [[p | msg |] w']; reflexivity.
Qed.

(** A tool run never exits the process and never loops. *)
Lemma run_ret_or_raise (tool : BaseRustTool.t) (directory : string) (st : St World) :
  (exists r st', BaseRustTool.run tool directory st = (Ret r, st'))
  \/ (exists e st', BaseRustTool.run tool directory st = (Raise e, st')).
Proof.
  destruct (has_manifest (world st) directory) eqn:Hm.
  - rewrite run_with_manifest by assumption. cbv zeta.
    destruct (fst _); [left | right | right]; eauto.
  - rewrite run_without_manifest by assumption. left; eauto.
Qed.

Lemma handle_result_ret (self : RustToolRunner.t) (result : ToolResult.t)
      (directory : string) (st : St World) :
  exists lines,
    RustToolRunner.handle_result self result directory st
    = (Ret (negb (ToolResult.success result)),
       {| world := world st; trace := (trace st ++ map EPrint lines)%list |}).
Proof.
  unfold RustToolRunner.handle_result.
  destruct (ToolResult.success result); cbn [negb].
  - eexists [_]. reflexivity.
  - destruct (pystr.truthy (ToolResult.stderr result)) eqn:He.
    + eexists [_; _; _]. unfold_monad. cbn [world trace].
      rewrite <- !app_assoc. reflexivity.
    + eexists [_; _]. unfold_monad. cbn [world trace].
      rewrite <- !app_assoc. reflexivity.
Qed.

Lemma tool_failed_cons (d : string) (r : ToolResult.t) (rs : dir_results) :
  tool_failed ((d, r) :: rs) = negb (ToolResult.success r) || tool_failed rs.
Proof. reflexivity. Qed.

(** The inner loop of [run_on_dirs] computes whether a result failed. *)
Lemma run_on_dirs_inner_results (self : RustToolRunner.t) (tool : BaseRustTool.t)
      (dirs : list string) (b : bool) (st : St World) :
  RustToolRunner.run_on_dirs_inner self tool dirs b st
  = fmap (fun rs => b || tool_failed rs) (tool_results self tool dirs) st.
Proof.
  revert b st. induction dirs as [|d dirs IH]; intros b st.
  - unfold fmap, bind, ret. simpl. now rewrite orb_false_r.
  - cbn [RustToolRunner.run_on_dirs_inner tool_results].
    unfold fmap, bind, ret.
    destruct (BaseRustTool.run tool d st) as [[r | code | e |] st1]; try reflexivity.
    destruct (handle_result_ret self r d st1) as [lines ->].
    rewrite IH. unfold fmap, bind, ret.
    destruct (tool_results self tool dirs _) as [[rs | code | e |] st3]; try reflexivity.
    rewrite tool_failed_cons.
    destruct (ToolResult.success r), b; reflexivity.
Qed.

Lemma failed_names_cons (tool : BaseRustTool.t) (rs : dir_results)
      (m : list (BaseRustTool.t * dir_results)) :
  failed_names ((tool, rs) :: m)
  = ((if tool_failed rs then [BaseRustTool.name tool] else []) ++ failed_names m)%list.
Proof. unfold failed_names. simpl. now destruct (tool_failed rs). Qed.

(** The outer loop appends the name of each failed tool, once. *)
Lemma run_on_dirs_outer_results (self : RustToolRunner.t)
      (tools : list BaseRustTool.t) (dirs failures : list string) (st : St World) :
  RustToolRunner.run_on_dirs_outer self tools dirs failures st
  = fmap (fun m => (failures ++ failed_names m)%list) (all_results self tools dirs) st.
Proof.
  revert failures st. induction tools as [|tool tools IH]; intros failures st.
  - unfold fmap, bind, ret. simpl. now rewrite app_nil_r.
  - cbn [RustToolRunner.run_on_dirs_outer all_results].
    unfold fmap, bind, ret.
    rewrite run_on_dirs_inner_results. unfold fmap, bind, ret.
    destruct (tool_results self tool dirs st) as [[rs | code | e |] st1]; try reflexivity.
    cbn [orb]. rewrite IH. unfold fmap, bind, ret.
    destruct (all_results self tools dirs st1) as [[m | code | e |] st2]; try reflexivity.
    rewrite failed_names_cons.
    destruct (tool_failed rs); [rewrite <- app_assoc|]; reflexivity.
Qed.

Lemma run_on_dirs_results (self : RustToolRunner.t) (tools : tools_dict)
      (dirs : list string) (st : St World) :
  RustToolRunner.run_on_dirs self tools dirs st
  = fmap failed_names (all_results self (dict_values tools) dirs) st.
Proof. unfold RustToolRunner.run_on_dirs. now rewrite run_on_dirs_outer_results. Qed.
End Runner.

Section RunnerShape.
Context {World : Type} `{OS World}.

Lemma tool_results_shape (self : RustToolRunner.t) (tool : BaseRustTool.t)
      (dirs : list string) (st : St World) :
  match tool_results self tool dirs st with
  | (Ret rs, _) => map fst rs = dirs
  | (Raise _, _) => True
  | _ => False
  end.
Proof.
  revert st. induction dirs as [|d dirs IH]; intros st; [reflexivity|].
  cbn [tool_results]. unfold bind, ret.
  destruct (run_ret_or_raise tool d st) as [(r & st1 & ->) | (e & st1 & ->)]; [|exact I].
  destruct (handle_result_ret self r d st1) as [lines ->].
  specialize (IH {| world := world st1; trace := (trace st1 ++ map EPrint lines)%list |}).
  destruct (tool_results self tool dirs _) as [[rs | code | e |] st3]; try assumption.
  simpl. now rewrite IH.
Qed.

Lemma all_results_shape (self : RustToolRunner.t) (tools : list BaseRustTool.t)
      (dirs : list string) (st : St World) :
  match all_results self tools dirs st with
  | (Ret m, _) =>
      map fst m = tools /\ Forall (fun p => map fst (snd p) = dirs) m
  | (Raise _, _) => True
  | _ => False
  end.
Proof.
  revert st. induction tools as [|tool tools IH]; intros st.
  - simpl. split; [reflexivity | constructor].
  - cbn [all_results]. unfold bind, ret.
    pose proof (tool_results_shape self tool dirs st) as Hrs.
    destruct (tool_results self tool dirs st) as [[rs | code | e |] st1]; try assumption.
    specialize (IH st1).
    destruct (all_results self tools dirs st1) as [[m | code | e |] st2]; try assumption.
    destruct IH as [Hfst Hlen]. split.
    + simpl. now rewrite Hfst.
    + constructor; assumption.
Qed.

Lemma paths_of_match (target_dirs : option (list string)) :
  match target_dirs with
  | Some ((_ :: _) as dirs) => dirs
  | _ => [DEFAULT_CARGO_DIR]
  end = paths_of target_dirs.
Proof. destruct target_dirs as [[|d ds]|]; reflexivity. Qed.

(** [run] is the orchestrator of the specification in the resolved mode. *)
Lemma run_as_mode (self : RustToolRunner.t)
      (target_dirs selected_tools : option (list string))
      (is_formatting is_fixing is_unsafe_fixing is_git_modified : bool)
      (st : St World) :
  RustToolRunner.run self target_dirs selected_tools
    is_formatting is_fixing is_unsafe_fixing is_git_modified st
  = spec_run_in_mode self
      (spec_resolve_mode is_formatting is_fixing is_unsafe_fixing)
      target_dirs selected_tools is_git_modified st.
Proof.
  unfold RustToolRunner.run, spec_run_in_mode. rewrite paths_of_match.
  destruct is_formatting, is_fixing, is_unsafe_fixing;
    cbn [spec_resolve_mode mode_banner mode_registry mode_action];
    unfold bind, ret, print;
    match goal with
    | |- context [RustToolRunner.run_on_dirs ?s ?t ?d ?x] =>
        destruct (RustToolRunner.run_on_dirs s t d x) as [[[|f fs] | code | e |] st1]
    end; reflexivity.
Qed.

(** The run in a mode, in terms of the results of the tools. *)
Lemma run_in_mode_results (self : RustToolRunner.t) (mode : Mode)
      (target_dirs selected_tools : option (list string))
      (is_git_modified : bool) (st : St World) :
  spec_run_in_mode self mode target_dirs selected_tools is_git_modified st
  = match all_results self
            (dict_values (RustToolRunner.get_tools_to_run self
                            (mode_registry self mode) selected_tools is_git_modified))
            (paths_of target_dirs) (log (EPrint (mode_banner mode)) st) with
    | (Ret m, st1) =>
        if any_failed m
        then (Exit 1, log (EPrint (RustToolRunner.failure_summary (failed_names m))) st1)
        else (Exit 0, log (EPrint (RustToolRunner.success_banner (mode_action mode))) st1)
    | (Exit code, st1) => (Exit code, st1)
    | (Raise e, st1) => (Raise e, st1)
    | (OutOfFuel, st1) => (OutOfFuel, st1)
    end.
Proof.
  unfold spec_run_in_mode. unfold bind at 1. unfold print at 1.
  unfold bind at 1. rewrite run_on_dirs_results. unfold fmap, bind, ret.
  destruct (all_results _ _ _ _) as [[m | code | e |] st1]; try reflexivity.
  assert (Hnil : is_nil (failed_names m) = negb (any_failed m)).
  { unfold failed_names, any_failed. induction m as [|[t rs] m IH]; [reflexivity|].
    simpl. destruct (tool_failed rs); [reflexivity | exact IH]. }
  rewrite Hnil. destruct (any_failed m); reflexivity.
Qed.

Lemma failed_names_in (m : list (BaseRustTool.t * dir_results)) (n : string) :
  In n (failed_names m) -> In n (map BaseRustTool.name (map fst m)).
Proof.
  unfold failed_names. rewrite map_map. rewrite !in_map_iff.
  intros [p [Hn Hp]]. apply filter_In in Hp. exists p. tauto.
Qed.

Lemma any_failed_iff (m : list (BaseRustTool.t * dir_results)) :
  any_failed m = true <->
  exists tool results d r,
    In (tool, results) m /\ In (d, r) results /\ ToolResult.success r = false.
Proof.
  unfold any_failed, tool_failed. rewrite existsb_exists. split.
  - intros ([tool results] & Hin & Hf). cbn [snd] in Hf.
    apply existsb_exists in Hf. destruct Hf as ([d r] & Hr & Hs).
    exists tool, results, d, r. cbn [snd] in Hs. apply negb_true_iff in Hs. auto.
  - intros (tool & results & d & r & Hin & Hr & Hs).
    exists (tool, results). split; [exact Hin|]. cbn [snd].
    apply existsb_exists. exists (d, r). split; [exact Hr|]. cbn [snd]. now rewrite Hs.
Qed.

(** With distinct tool names, a tool's name is in the summary once when it
    failed and not at all when it did not. *)
Lemma failed_names_count (m : list (BaseRustTool.t * dir_results))
      (tool : BaseRustTool.t) (rs : dir_results) :
  NoDup (map BaseRustTool.name (map fst m)) -> In (tool, rs) m ->
  count_occ string_dec (failed_names m) (BaseRustTool.name tool)
  = if tool_failed rs then 1 else 0.
Proof.
  induction m as [|[t' rs'] m IH]; intros Hnd Hin; [contradiction|].
  simpl in Hnd. inversion Hnd as [|? ? Hnotin Hnd']; subst.
  rewrite failed_names_cons, count_occ_app.
  destruct Hin as [Heq | Hin].
  - inversion Heq; subst.
    assert (Hz : count_occ string_dec (failed_names m) (BaseRustTool.name tool) = 0).
    { apply count_occ_not_In. intros Hc. apply Hnotin. now apply failed_names_in. }
    rewrite Hz. destruct (tool_failed rs); simpl; [|reflexivity].
    destruct (string_dec _ _); [reflexivity | congruence].
  - rewrite (IH Hnd' Hin).
    assert (Hne : BaseRustTool.name t' <> BaseRustTool.name tool).
    { intros Heq. apply Hnotin. rewrite Heq.
      apply in_map. change tool with (fst (tool, rs)). now apply in_map. }
    destruct (tool_failed rs'); simpl; [|reflexivity].
    destruct (string_dec _ _); [congruence | reflexivity].
Qed.
End RunnerShape.

(* ----------------------------------------------------------------- *)
(** ** [dict.fromkeys]: removing repetitions, first occurrence kept *)

Lemma filter_filter {A} (f g : A -> bool) (l : list A) :
  filter f (filter g l) = filter (fun x => g x && f x) l.
Proof.
  induction l as [|x l IH]; [reflexivity|]. simpl.
  destruct (g x); simpl; [destruct (f x)|]; now rewrite IH.
Qed.

Lemma mem_app (y : string) (l1 l2 : list string) :
  pystr.mem y (l1 ++ l2) = pystr.mem y l1 || pystr.mem y l2.
Proof. unfold pystr.mem. apply existsb_app. Qed.

Lemma mem_single (y x : string) : pystr.mem y [x] = (y =? x).
Proof. unfold pystr.mem. simpl. apply orb_false_r. Qed.

Lemma fold_add_key (xs acc : list string) :
  fold_left add_key xs acc
  = (acc ++ filter (fun y => negb (pystr.mem y acc)) (fold_left add_key xs []))%list.
Proof.
  revert acc. induction xs as [|x xs IH]; intros acc.
  - simpl. now rewrite app_nil_r.
  - cbn [fold_left]. rewrite (IH (add_key [] x)). rewrite (IH (add_key acc x)).
    set (rest := fold_left add_key xs []).
    change (add_key [] x) with [x]. cbn [app filter].
    rewrite filter_filter. unfold add_key.
    destruct (pystr.mem x acc) eqn:Hx; cbn [negb].
    + f_equal. apply filter_ext. intros y. rewrite mem_single.
      destruct (y =? x) eqn:Hyx; [|reflexivity].
      apply String.eqb_eq in Hyx. subst. now rewrite Hx.
    + rewrite <- app_assoc. cbn [app]. f_equal. f_equal.
      apply filter_ext. intros y. rewrite mem_app, mem_single.
      rewrite negb_orb. apply andb_comm.
Qed.

(** The keys are the list without repetitions, each element where it
    first occurs. *)
Lemma dict_fromkeys_cons (x : string) (xs : list string) :
  pystr.dict_fromkeys (x :: xs)
  = x :: filter (fun y => negb (y =? x)) (pystr.dict_fromkeys xs).
Proof.
  unfold pystr.dict_fromkeys. fold add_key. cbn [fold_left].
  rewrite fold_add_key. unfold add_key at 1. cbn [pystr.mem existsb app].
  f_equal. apply filter_ext. intros y.
  change (add_key [] x) with [x]. now rewrite mem_single.
Qed.

Lemma dict_fromkeys_In (xs : list string) (y : string) :
  In y (pystr.dict_fromkeys xs) <-> In y xs.
Proof.
  induction xs as [|x xs IH]; [reflexivity|].
  rewrite dict_fromkeys_cons. simpl. rewrite filter_In, IH.
  destruct (String.eqb_spec y x) as [-> | Hne]; simpl.
  - tauto.
  - split; [intros [Hx | [Hin _]]; auto | intros [Hx | Hin]; [congruence | auto]].
Qed.

Lemma NoDup_filter {A} (f : A -> bool) (l : list A) : NoDup l -> NoDup (filter f l).
Proof.
  induction 1 as [|x l Hx Hnd IH]; simpl; [constructor|].
  destruct (f x); [|assumption].
  constructor; [|assumption]. intros Hin. apply filter_In in Hin. tauto.
Qed.

Lemma dict_fromkeys_NoDup (xs : list string) : NoDup (pystr.dict_fromkeys xs).
Proof.
  induction xs as [|x xs IH]; [constructor|].
  rewrite dict_fromkeys_cons. constructor.
  - intros Hin. apply filter_In in Hin. destruct Hin as [_ Hx].
    now rewrite String.eqb_refl in Hx.
  - now apply NoDup_filter.
Qed.

Lemma dict_fromkeys_nil_iff (xs : list string) :
  pystr.dict_fromkeys xs = [] <-> xs = [].
Proof.
  split; [|intros ->; reflexivity].
  destruct xs as [|x xs]; [reflexivity|]. rewrite dict_fromkeys_cons. discriminate.
Qed.

(* ----------------------------------------------------------------- *)
(** ** The change set *)

Section ChangeSet.
Context {World : Type} `{OS World}.

Lemma keep_existing_filter (files : list string) (st : St World) :
  keep_existing files st = (Ret (filter (os_path_exists (world st)) files), st).
Proof.
  induction files as [|f files IH]; [reflexivity|].
  cbn [keep_existing filter]. unfold bind, os_path.exists_, ret in *.
  rewrite IH. now destruct (os_path_exists (world st) f).
Qed.

(** [get_modified_files], case by case on what the two queries do. *)
Lemma get_modified_files_cases (st : St World) :
  get_modified_files st
  = let (r1, w1) := os_spawn GIT_STAGED None (world st) in
    let st1 := {| world := w1; trace := (trace st ++ [ESpawn GIT_STAGED None])%list |} in
    match r1 with
    | SpawnFault msg => (Raise (OSError msg), st1)
    | Undecodable => (Raise UnicodeDecodeError, st1)
    | Completed p1 =>
        if negb (CompletedProcess.returncode p1 =? 0)%Z
        then (Raise (CalledProcessError (CompletedProcess.returncode p1) GIT_STAGED), st1)
        else
          let (r2, w2) := os_spawn GIT_UNSTAGED None w1 in
          let st2 := {| world := w2;
                        trace := (trace st1 ++ [ESpawn GIT_UNSTAGED None])%list |} in
          match r2 with
          | SpawnFault msg => (Raise (OSError msg), st2)
          | Undecodable => (Raise UnicodeDecodeError, st2)
          | Completed p2 =>
              let files := changed_files w2 (CompletedProcess.stdout p1)
                             (CompletedProcess.stdout p2) in
              if is_nil files then (Exit 0, log (EPrint no_files_line) st2)
              else (Ret files, st2)
          end
    end.
Proof.
  unfold get_modified_files. fold GIT_STAGED GIT_UNSTAGED.
  unfold bind at 1. unfold subprocess.run at 1.
  destruct (os_spawn GIT_STAGED None (world st)) as [[p1 | msg |] w1];
    [|reflexivity|reflexivity].
  cbn [andb]. destruct (negb (CompletedProcess.returncode p1 =? 0)%Z); [reflexivity|].
  cbv zeta. unfold bind at 1. unfold subprocess.run at 1. cbn [world trace].
  destruct (os_spawn GIT_UNSTAGED None w1) as [[p2 | msg |] w2];
    [|reflexivity|reflexivity].
  cbn [andb]. unfold bind at 1. rewrite keep_existing_filter. cbn [world].
  fold (changed_files w2 (CompletedProcess.stdout p1) (CompletedProcess.stdout p2)).
  destruct (is_nil _); reflexivity.
Qed.

Lemma get_modified_files_ok (st : St World) (p1 p2 : CompletedProcess.t) (w1 w2 : World) :
  queries_ok st p1 p2 w1 w2 ->
  get_modified_files st
  = let files := changed_files w2 (CompletedProcess.stdout p1) (CompletedProcess.stdout p2) in
    if is_nil files then (Exit 0, log (EPrint no_files_line) (after_queries st w2))
    else (Ret files, after_queries st w2).
Proof.
  intros (Hs1 & Hrc & Hs2). rewrite get_modified_files_cases.
  rewrite Hs1, Hrc. cbn [Z.eqb negb]. cbv zeta. cbn [world trace]. rewrite Hs2.
  unfold after_queries. rewrite <- app_assoc. reflexivity.
Qed.

Lemma find_cargo_manifest_dir_owner (file : string) (st : St World) :
  posixpath.isabs (os_getcwd (world st)) = true ->
  find_cargo_manifest_dir file st = (Ret (owner (world st) file), st).
Proof.
  intros Hcwd. unfold find_cargo_manifest_dir, owner.
  pose proof (walk_terminates (world st) file Hcwd) as Hfin.
  destruct (find_cargo_manifest_dir_in (world st) file); congruence.
Qed.

(** The loop of [get_modified_dirs] adds the owners, first seen first. *)
Lemma get_modified_dirs_loop_owners (files dirs : list string) (st : St World) :
  posixpath.isabs (os_getcwd (world st)) = true ->
  get_modified_dirs_loop files dirs st
  = (Ret (fold_left add_key (owners (world st) files) dirs), st).
Proof.
  intros Hcwd. revert dirs. induction files as [|f files IH]; intros dirs; [reflexivity|].
  cbn [get_modified_dirs_loop]. unfold bind.
  rewrite find_cargo_manifest_dir_owner by assumption.
  rewrite IH. unfold owners. cbn [flat_map]. rewrite fold_left_app.
  do 2 f_equal.
  destruct (owner (world st) f) as [d|]; [|reflexivity].
  destruct (pystr.truthy d); [|reflexivity].
  cbn [fold_left andb]. unfold add_key. now destruct (pystr.mem d dirs).
Qed.

Lemma get_modified_dirs_ok (st : St World) (p1 p2 : CompletedProcess.t) (w1 w2 : World) :
  queries_ok st p1 p2 w1 w2 ->
  posixpath.isabs (os_getcwd w2) = true ->
  get_modified_dirs st
  = let files := changed_files w2 (CompletedProcess.stdout p1) (CompletedProcess.stdout p2) in
    let dirs := pystr.dict_fromkeys (owners w2 files) in
    if is_nil files then (Exit 0, log (EPrint no_files_line) (after_queries st w2))
    else if is_nil dirs then (Exit 0, log (EPrint no_dirs_line) (after_queries st w2))
    else (Ret dirs, after_queries st w2).
Proof.
  intros Hq Hcwd. unfold get_modified_dirs. unfold bind at 1.
  rewrite (get_modified_files_ok st p1 p2 w1 w2 Hq). cbv zeta.
  destruct (is_nil (changed_files _ _ _)); [reflexivity|].
  unfold bind at 1. rewrite get_modified_dirs_loop_owners by exact Hcwd.
  change (world (after_queries st w2)) with w2.
  change (fold_left add_key (owners w2 (changed_files w2 (CompletedProcess.stdout p1)
                                          (CompletedProcess.stdout p2))) [])
    with (pystr.dict_fromkeys (owners w2 (changed_files w2 (CompletedProcess.stdout p1)
                                            (CompletedProcess.stdout p2)))).
  destruct (is_nil (pystr.dict_fromkeys _)); reflexivity.
Qed.
End ChangeSet.

(* ----------------------------------------------------------------- *)
(** ** The tool runner *)

Section ToolRunnerSkip.
Context {World : Type} `{OS World}.

(** C4. In a directory without [Cargo.toml], [BaseRustTool.run] returns a
    result with [success = True] and the stdout text [Skipped <directory>];
    it only prints the skip line: the world is untouched and no child
    process is started. *)
Theorem run_skips_without_manifest :
  forall (tool : BaseRustTool.t) (directory : string) (st : St World),
    os_path_exists (world st) (posixpath.join directory "Cargo.toml") = false ->
    let (out, st') := BaseRustTool.run tool directory st in
    out = Ret (ToolResult.Build (BaseRustTool.name tool) true ("Skipped " ++ directory) "")
    /\ world st' = world st
    /\ trace st' = (trace st ++ [EPrint (BLUE ++ "Skipping " ++ directory ++ ": "
                                   ++ "Cargo.toml not found (not a Rust project)."
                                   ++ RESET)])%list
    /\ (forall cmd cwd, In (ESpawn cmd cwd) (trace st') -> In (ESpawn cmd cwd) (trace st)).
Proof.
  intros tool directory st Hm.
  rewrite run_without_manifest by exact Hm.
  repeat split. intros cmd cwd Hin. cbn [log trace] in Hin.
  apply in_app_or in Hin. destruct Hin as [Hin | [Heq | []]]; [assumption | discriminate].
Qed.
End ToolRunnerSkip.

Lemma run_skips_without_manifest_witness :
  os_path_exists (world (sim_start empty_world)) (posixpath.join "app" "Cargo.toml") = false
  /\ fst (BaseRustTool.run clippy "app" (sim_start empty_world))
     = Ret (ToolResult.Build "clippy" true "Skipped app" "").
Proof.
  split; [reflexivity|].
  pose proof (run_skips_without_manifest clippy "app" (sim_start empty_world) eq_refl) as Hrun.
  destruct (BaseRustTool.run clippy "app" (sim_start empty_world)) as [out st'].
  exact (proj1 Hrun).
Defined.

Section ToolRunnerExit.
Context {World : Type} `{OS World}.

(** C5. In a directory with [Cargo.toml], [BaseRustTool.run] starts exactly
    one child process, the command of the tool's [command_factory] with the
    directory as working directory; whatever the exit status it does not
    raise, and the result's [success] is [returncode == 0] whatever the
    captured output holds (only a command that could not be run at all,
    or whose output is not text, raises).  Hence a successful result comes from a skipped directory or
    from a command that exited with status zero. *)
Theorem run_success_is_exit_zero :
  forall (tool : BaseRustTool.t) (directory : string) (st : St World),
    (has_manifest (world st) directory = true ->
     let cmd := BaseRustTool.command_factory tool directory in
     let (r, w') := os_spawn cmd (Some directory) (world st) in
     let (out, st') := BaseRustTool.run tool directory st in
     world st' = w'
     /\ trace st' = (trace st ++ [ESpawn cmd (Some directory)])%list
     /\ match r with
        | Completed p =>
            out = Ret (ToolResult.Build (BaseRustTool.name tool)
                         (CompletedProcess.returncode p =? 0)%Z
                         (CompletedProcess.stdout p) (CompletedProcess.stderr p))
        | SpawnFault msg => out = Raise (OSError msg)
        | Undecodable => out = Raise UnicodeDecodeError
        end)
    /\ (forall res st',
           BaseRustTool.run tool directory st = (Ret res, st') ->
           ToolResult.success res = true ->
           (has_manifest (world st) directory = false
            /\ ToolResult.stdout res = "Skipped " ++ directory)
           \/ (has_manifest (world st) directory = true
               /\ exists p w',
                    os_spawn (BaseRustTool.command_factory tool directory)
                      (Some directory) (world st) = (Completed p, w')
                    /\ CompletedProcess.returncode p = 0%Z)).
Proof.
  intros tool directory st. split.
  - intros Hm. rewrite run_with_manifest by exact Hm. cbv zeta.
    destruct (os_spawn _ _ _) as [[p | msg |] w']; cbn [fst snd]; repeat split.
  - intros res st' Hrun Hok.
    destruct (has_manifest (world st) directory) eqn:Hm.
    + right. split; [reflexivity|].
      rewrite run_with_manifest in Hrun by exact Hm. cbv zeta in Hrun.
      destruct (os_spawn _ _ _) as [[p | msg |] w']; cbn [fst snd] in Hrun;
        [|discriminate|discriminate].
      inversion Hrun; subst. cbn [ToolResult.success] in Hok.
      exists p, w'. split; [reflexivity | now apply Z.eqb_eq].
    + left. split; [reflexivity|].
      rewrite run_without_manifest in Hrun by exact Hm.
      inversion Hrun; subst. reflexivity.
Qed.
End ToolRunnerExit.

Lemma run_success_is_exit_zero_witness :
  has_manifest (world (sim_start failing_world)) "app" = true
  /\ fst (BaseRustTool.run clippy "app" (sim_start failing_world))
     = Ret (ToolResult.Build "clippy" false "" "error: foo")
  /\ ((has_manifest (world (sim_start nested_world)) "/repo" = false
       /\ "" = "Skipped /repo")
      \/ (has_manifest (world (sim_start nested_world)) "/repo" = true
          /\ exists p w',
               os_spawn (BaseRustTool.command_factory clippy "/repo") (Some "/repo")
                 (world (sim_start nested_world)) = (Completed p, w')
               /\ CompletedProcess.returncode p = 0%Z)).
Proof.
  split; [reflexivity|].
  pose proof (proj1 (run_success_is_exit_zero clippy "app" (sim_start failing_world)) eq_refl)
    as Hrun.
  cbv zeta in Hrun.
  change (os_spawn (BaseRustTool.command_factory clippy "app") (Some "app")
            (world (sim_start failing_world)))
    with (completed 101 "" "error: foo", failing_world) in Hrun.
  destruct (BaseRustTool.run clippy "app" (sim_start failing_world)) as [out st'].
  split; [exact (proj2 (proj2 Hrun))|].
  exact (proj2 (run_success_is_exit_zero clippy "/repo" (sim_start nested_world))
           (ToolResult.Build "clippy" true "" "")
           {| world := nested_world;
              trace := [ESpawn ["cargo"; "clippy"; "--"; "-D"; "warnings"] (Some "/repo")] |}
           eq_refl eq_refl).
Defined.

(* ----------------------------------------------------------------- *)
(** ** Tool selection *)

(** C7. With a non-empty filter, [get_tools_to_run] returns the entries of
    the registry whose name is in the filter, in registry order; a filter
    name that is not in the registry selects nothing and is no error.
    Without a filter, or with an empty one, it returns the whole registry.
    The registry {a, b, c} filtered by [b, x] gives {b}. *)
Theorem get_tools_to_run_filters :
  forall (self : RustToolRunner.t) (tools : tools_dict) (gm : bool),
    (forall selected,
        selected <> [] ->
        RustToolRunner.get_tools_to_run self tools (Some selected) gm
        = filter (fun entry => pystr.mem (fst entry) selected) tools
        /\ (forall name tool,
               In (name, tool) (RustToolRunner.get_tools_to_run self tools (Some selected) gm)
               <-> In (name, tool) tools /\ In name selected))
    /\ RustToolRunner.get_tools_to_run self tools None gm = tools
    /\ RustToolRunner.get_tools_to_run self tools (Some []) gm = tools
    /\ (forall ta tb tc,
           RustToolRunner.get_tools_to_run self [("a", ta); ("b", tb); ("c", tc)]
             (Some ["b"; "x"]) gm
           = [("b", tb)]).
Proof.
  intros self tools gm. split; [|repeat split].
  intros selected Hne. destruct selected as [|s selected]; [congruence|].
  assert (Heq : RustToolRunner.get_tools_to_run self tools (Some (s :: selected)) gm
                = filter (fun entry => pystr.mem (fst entry) (s :: selected)) tools).
  { unfold RustToolRunner.get_tools_to_run. apply filter_ext. now intros [name tool]. }
  split; [exact Heq|].
  intros name tool. rewrite Heq, filter_In. cbn [fst]. now rewrite mem_In.
Qed.

Lemma get_tools_to_run_filters_witness :
  ["clippy"] <> []
  /\ RustToolRunner.get_tools_to_run RustToolRunner.init
       (RustToolRunner.fixers RustToolRunner.init) (Some ["clippy"]) false = [].
Proof.
  assert (Hne : ["clippy"] <> []) by discriminate.
  split; [exact Hne|].
  rewrite (proj1 (proj1 (get_tools_to_run_filters RustToolRunner.init
                           (RustToolRunner.fixers RustToolRunner.init) false)
                    ["clippy"] Hne)).
  reflexivity.
Defined.

(* ----------------------------------------------------------------- *)
(** ** Mode resolution *)

Section ModeResolution.
Context {World : Type} `{OS World}.

(** C8. [run] behaves as the orchestrator of the specification in the mode
    resolved in the fixed order formatting, fixing, linting.  With the
    formatting flag set the fixing flags are not looked at: the formatter
    registry is consulted.  The unsafe flag selects the allow-dirty /
    allow-staged command only when fixing is the resolved mode; without the
    fixing flag it changes nothing. *)
Theorem run_mode_priority :
  forall (self : RustToolRunner.t) (target_dirs selected_tools : option (list string))
         (is_formatting is_fixing is_unsafe_fixing is_git_modified : bool)
         (st : St World),
    RustToolRunner.run self target_dirs selected_tools
      is_formatting is_fixing is_unsafe_fixing is_git_modified st
    = spec_run_in_mode self
        (spec_resolve_mode is_formatting is_fixing is_unsafe_fixing)
        target_dirs selected_tools is_git_modified st
    /\ spec_resolve_mode true is_fixing is_unsafe_fixing = Formatting
    /\ mode_registry self (spec_resolve_mode true true is_unsafe_fixing)
       = RustToolRunner.formatters self
    /\ RustToolRunner.run self target_dirs selected_tools
         true is_fixing is_unsafe_fixing is_git_modified st
       = RustToolRunner.run self target_dirs selected_tools
           true false false is_git_modified st
    /\ RustToolRunner.run self target_dirs selected_tools
         false false is_unsafe_fixing is_git_modified st
       = RustToolRunner.run self target_dirs selected_tools
           false false false is_git_modified st
    /\ mode_registry self (spec_resolve_mode false true is_unsafe_fixing)
       = (if is_unsafe_fixing then RustToolRunner.unsafe_fixers self
          else RustToolRunner.fixers self)
    /\ mode_registry self (spec_resolve_mode false false is_unsafe_fixing)
       = RustToolRunner.linters self
    /\ (forall d,
           map (fun tool => BaseRustTool.command_factory tool d)
             (dict_values (mode_registry RustToolRunner.init
                             (spec_resolve_mode false true is_unsafe_fixing)))
           = [if is_unsafe_fixing
              then ["cargo"; "fix"; "--allow-dirty"; "--allow-staged"]
              else ["cargo"; "fix"]]).
Proof.
  intros. split; [apply run_as_mode|].
  split; [reflexivity|]. split; [reflexivity|].
  split; [now rewrite !run_as_mode|].
  split; [now rewrite !run_as_mode|].
  split; [now destruct is_unsafe_fixing|].
  split; [reflexivity | now destruct is_unsafe_fixing].
Qed.
End ModeResolution.

(* ----------------------------------------------------------------- *)
(** ** Exit status of the orchestrator *)

Section ExitStatus.
Context {World : Type} `{OS World}.

(** C1. Let the selected tools run over the target directories, after the
    banner of the mode.  If no command faults, [run] ends the process: with
    status 1 exactly when some tool has a failing result in some directory,
    after printing the summary line, which reads [The following tools
    failed:] followed by the names of the failed tools separated by commas,
    one entry per failed tool however many of its directories failed; with
    status 0 after printing [All <action> completed successfully!] when no
    result failed, the action being [formatting], [fixes] or [linting
    checks].  With distinct tool names, a failed tool's name is in the
    summary exactly once. *)
Theorem run_exit_status :
  forall (self : RustToolRunner.t) (target_dirs selected_tools : option (list string))
         (is_formatting is_fixing is_unsafe_fixing is_git_modified : bool)
         (st : St World),
    let mode := spec_resolve_mode is_formatting is_fixing is_unsafe_fixing in
    let tools := RustToolRunner.get_tools_to_run self (mode_registry self mode)
                   selected_tools is_git_modified in
    let paths := paths_of target_dirs in
    let go := RustToolRunner.run self target_dirs selected_tools
                is_formatting is_fixing is_unsafe_fixing is_git_modified st in
    match all_results self (dict_values tools) paths (log (EPrint (mode_banner mode)) st) with
    | (Ret m, st1) =>
        map fst m = dict_values tools
        /\ Forall (fun entry => map fst (snd entry) = paths) m
        /\ (any_failed m = true <->
            exists tool results d r,
              In (tool, results) m /\ In (d, r) results
              /\ ToolResult.success r = false)
        /\ (fst go = Exit 1 <-> any_failed m = true)
        /\ (fst go = Exit 0 <-> any_failed m = false)
        /\ (any_failed m = true ->
            go = (Exit 1,
                  log (EPrint (String "010"
                                 (String "027"
                                    ("[91m💥 The following tools failed: "
                                       ++ String.concat ", " (failed_names m)
                                       ++ String "027" "[0m")))) st1))
        /\ (any_failed m = false ->
            go = (Exit 0,
                  log (EPrint (String "010"
                                 (String "027"
                                    ("[92m🎉 All "
                                       ++ match mode with
                                          | Formatting => "formatting"
                                          | Fixing _ => "fixes"
                                          | Linting => "linting checks"
                                          end
                                       ++ " completed successfully!"
                                       ++ String "027" "[0m")))) st1))
        /\ (NoDup (map BaseRustTool.name (dict_values tools)) ->
            forall tool results,
              In (tool, results) m ->
              count_occ string_dec (failed_names m) (BaseRustTool.name tool)
              = if tool_failed results then 1 else 0)
    | (Raise e, st1) => go = (Raise e, st1)
    | (Exit _, _) | (OutOfFuel, _) => False
    end.
Proof.
  intros self target_dirs selected_tools is_formatting is_fixing is_unsafe_fixing
         is_git_modified st mode tools paths go.
  assert (Hgo : go = spec_run_in_mode self mode target_dirs selected_tools is_git_modified st)
    by apply run_as_mode.
  rewrite run_in_mode_results in Hgo. fold tools paths in Hgo.
  pose proof (all_results_shape self (dict_values tools) paths
                (log (EPrint (mode_banner mode)) st)) as Hshape.
  destruct (all_results self (dict_values tools) paths _) as [[m | code | e |] st1];
    try contradiction; [|exact Hgo].
  destruct Hshape as [Hfst Hlen].
  split; [exact Hfst|]. split; [exact Hlen|].
  split; [apply any_failed_iff|].
  split; [rewrite Hgo; destruct (any_failed m); cbn [fst]; split; congruence|].
  split; [rewrite Hgo; destruct (any_failed m); cbn [fst]; split; congruence|].
  split; [intros Hf; now rewrite Hgo, Hf|].
  split; [intros Hf; now rewrite Hgo, Hf|].
  intros Hnd tool results Hin. apply failed_names_count; [|exact Hin].
    now rewrite Hfst.
Qed.
End ExitStatus.

Lemma run_exit_status_witness :
  fst (RustToolRunner.run RustToolRunner.init (Some ["app"; "docs"]) None
         false false false false (sim_start failing_world))
  = Exit 1
  /\ NoDup (map BaseRustTool.name (dict_values (RustToolRunner.linters RustToolRunner.init)))
  /\ count_occ string_dec ["clippy"] "clippy" = 1.
Proof.
  pose proof (run_exit_status RustToolRunner.init (Some ["app"; "docs"]) None
                false false false false (sim_start failing_world)) as Hrun.
  cbv zeta in Hrun.
  remember (all_results _ _ _ _) as r eqn:Er in Hrun.
  vm_compute in Er. subst r.
  destruct Hrun as (_ & _ & _ & Hone & _ & _ & _ & Hcount).
  assert (Hnd : NoDup (map BaseRustTool.name
                         (dict_values (RustToolRunner.linters RustToolRunner.init)))).
  { constructor; [intros [] | constructor]. }
  split; [apply Hone; reflexivity|].
  split; [exact Hnd|].
  exact (Hcount Hnd _ _ (or_introl eq_refl)).
Defined.

(* ----------------------------------------------------------------- *)
(** ** The filter of the fixing mode *)

Section FixFilter.
Context {World : Type} `{OS World}.

(** C10. With [--fix] and [--linters clippy] (no [--format], no
    [--git-modified]) the filter handed to the selection is the value of
    [--linters], whatever [--formatters] holds; applied to the fixer
    registry, whose only tool is named [fix], it selects nothing.  No
    command is run: the process prints the fixer banner and the success
    banner and exits with status 0. *)
Theorem fix_with_linters_filter_selects_nothing :
  forall (paths : list string) (formatters : option (list string))
         (unsafe_fixes : bool) (st : St World),
    let args := Args.Build paths (Some ["clippy"]) false formatters true unsafe_fixes false in
    (if Args.format args then Args.formatters args else Args.linters args) = Some ["clippy"]
    /\ RustToolRunner.get_tools_to_run RustToolRunner.init
         (mode_registry RustToolRunner.init (Fixing unsafe_fixes)) (Some ["clippy"]) false
       = []
    /\ dict_keys (mode_registry RustToolRunner.init (Fixing unsafe_fixes)) = ["fix"]
    /\ main args st
       = (Exit 0,
          {| world := world st;
             trace := (trace st ++ [EPrint RustToolRunner.banner_fixer;
                                    EPrint (RustToolRunner.success_banner "fixes")])%list |}).
Proof.
  intros paths formatters unsafe_fixes st args.
  split; [reflexivity|].
  split; [now destruct unsafe_fixes|].
  split; [now destruct unsafe_fixes|].
  unfold main, args. cbn [Args.git_modified Args.paths Args.format Args.linters
                            Args.fix_ Args.unsafe_fixes].
  destruct paths as [|p ps], unsafe_fixes; unfold bind, ret, print, sys_exit, log;
    cbn [is_nil negb world trace]; unfold RustToolRunner.run;
    unfold bind, ret, print, sys_exit, log; cbn; now rewrite <- app_assoc.
Qed.
End FixFilter.

(* ----------------------------------------------------------------- *)
(** ** The manifest locator *)

Section Locator.
Context {World : Type} `{OS World}.

(** A directory the walk returns is never the empty string. *)
Lemma owner_truthy (w : World) (file d : string) :
  posixpath.isabs (os_getcwd w) = true ->
  owner w file = Some d -> pystr.truthy d = true.
Proof.
  intros Hcwd. unfold owner, find_cargo_manifest_dir_in.
  destruct (find_cargo_manifest_dir_loop _ w (start_dir w file)) as [r | |] eqn:Hrun;
    try discriminate.
  intros Heq. inversion Heq; subst r.
  destruct (loop_found w _ _ _ Hrun) as (j & -> & _).
  destruct (start_dir_render w file Hcwd) as (k & comps & Hk & Hall & ->).
  rewrite ancestor_render by assumption. apply render_truthy. lia.
Qed.

(** C2. [find_cargo_manifest_dir] starts at the absolute directory of the
    path, a normalized absolute path, whose ancestors, one parent at a time,
    are its prefixes down to the root, where the parent is the directory
    itself.  It returns the first directory on the way up that holds
    [Cargo.toml], the nearest one when several ancestors hold one, and
    [None] when no directory up to the root holds one.  It always returns,
    and changes nothing. *)
Theorem find_cargo_manifest_dir_nearest :
  forall (path : string) (st : St World),
    posixpath.isabs (os_getcwd (world st)) = true ->
    let w := world st in
    let d0 := posixpath.abspath (os_getcwd w) (posixpath.dirname path) in
    (exists k comps,
        (k = 1 \/ k = 2) /\ all_clean comps /\ d0 = render k comps
        /\ (forall j, ancestor w d0 j = render k (firstn (length comps - j) comps))
        /\ parent w (ancestor w d0 (length comps)) = ancestor w d0 (length comps))
    /\ match find_cargo_manifest_dir path st with
       | (Ret (Some d), st') =>
           st' = st
           /\ exists j, d = ancestor w d0 j /\ has_manifest w d = true
                        /\ forall i, i < j -> has_manifest w (ancestor w d0 i) = false
       | (Ret None, st') =>
           st' = st /\ forall j, has_manifest w (ancestor w d0 j) = false
       | _ => False
       end
    /\ (forall j,
           has_manifest w (ancestor w d0 j) = true ->
           (forall i, i < j -> has_manifest w (ancestor w d0 i) = false) ->
           fst (find_cargo_manifest_dir path st) = Ret (Some (ancestor w d0 j)))
    /\ ((forall j, has_manifest w (ancestor w d0 j) = false) ->
        fst (find_cargo_manifest_dir path st) = Ret None).
Proof.
  intros path st Hcwd w d0.
  assert (Hshape : exists k comps,
             (k = 1 \/ k = 2) /\ all_clean comps /\ d0 = render k comps
             /\ (forall j, ancestor w d0 j = render k (firstn (length comps - j) comps))
             /\ parent w (ancestor w d0 (length comps)) = ancestor w d0 (length comps)).
  { destruct (start_dir_render w path Hcwd) as (k & comps & Hk & Hall & Hd0).
    exists k, comps. fold d0 in Hd0. unfold start_dir in Hd0.
    split; [exact Hk|]. split; [exact Hall|]. split; [exact Hd0|].
    assert (Hanc : forall j, ancestor w d0 j = render k (firstn (length comps - j) comps)).
    { intros j. unfold d0. fold (start_dir w path). unfold start_dir. rewrite Hd0.
      now apply ancestor_render. }
    split; [exact Hanc|].
    rewrite Hanc, Nat.sub_diag. cbn [firstn].
    now rewrite (parent_render w k [] Hk (Forall_nil _)). }
  assert (Hres : match find_cargo_manifest_dir path st with
                 | (Ret (Some d), st') =>
                     st' = st
                     /\ exists j, d = ancestor w d0 j /\ has_manifest w d = true
                                  /\ forall i, i < j -> has_manifest w (ancestor w d0 i) = false
                 | (Ret None, st') =>
                     st' = st /\ forall j, has_manifest w (ancestor w d0 j) = false
                 | _ => False
                 end).
  { unfold find_cargo_manifest_dir. fold w.
    pose proof (walk_terminates w path Hcwd) as Hfin.
    unfold find_cargo_manifest_dir_in in *. fold (start_dir w path) in d0.
    destruct (find_cargo_manifest_dir_loop _ w (start_dir w path)) as [r | |] eqn:Hrun.
    - split; [reflexivity|].
      destruct (loop_found w _ _ _ Hrun) as (j & Hr & Hm & Hbelow & _).
      exists j. auto.
    - split; [reflexivity|]. now destruct (loop_not_found w _ _ Hrun).
    - congruence. }
  split; [exact Hshape|]. split; [exact Hres|].
  destruct (find_cargo_manifest_dir path st) as [[[d|] | code | e |] st'];
    try contradiction; cbn [fst].
  - destruct Hres as (_ & j' & Hd & Hm & Hbelow). split.
    + intros j Hj Hnone. subst d.
      destruct (Nat.lt_trichotomy j j') as [Hlt | [Heq | Hgt]].
      * rewrite (Hbelow j Hlt) in Hj. discriminate.
      * now subst.
      * rewrite (Hnone j' Hgt) in Hm. discriminate.
    + intros Hnone. subst d. rewrite Hnone in Hm. discriminate.
  - destruct Hres as (_ & Hnone). split.
    + intros j Hj _. rewrite Hnone in Hj. discriminate.
    + reflexivity.
Qed.
End Locator.

Lemma find_cargo_manifest_dir_nearest_witness :
  posixpath.isabs (os_getcwd (world (sim_start nested_world))) = true
  /\ fst (find_cargo_manifest_dir "crates/x/src/a.rs" (sim_start nested_world))
     = Ret (Some "/repo/crates/x")
  /\ fst (find_cargo_manifest_dir "crates/x/src/a.rs" (sim_start empty_world)) = Ret None.
Proof.
  split; [reflexivity|]. split.
  - pose proof (find_cargo_manifest_dir_nearest
                  "crates/x/src/a.rs" (sim_start nested_world) eq_refl) as Hfind.
    apply (proj1 (proj2 (proj2 Hfind)) 1).
    + reflexivity.
    + intros i Hi. assert (Hi0 : i = 0) by lia. subst i. reflexivity.
  - pose proof (find_cargo_manifest_dir_nearest
                  "crates/x/src/a.rs" (sim_start empty_world) eq_refl) as Hfind.
    cbv zeta in Hfind. destruct Hfind as (_ & _ & _ & Hnone).
    apply Hnone. intros j.
    unfold has_manifest. cbn [os_path_exists SimOS world sim_start].
    unfold pystr.mem. cbn [sim_files empty_world existsb]. reflexivity.
Defined.

(* ----------------------------------------------------------------- *)
(** ** The change set resolver *)

Section Resolver.
Context {World : Type} `{OS World}.

Lemma owners_In (w : World) (files : list string) (d : string) :
  posixpath.isabs (os_getcwd w) = true ->
  In d (owners w files) <-> exists f, In f files /\ owner w f = Some d.
Proof.
  intros Hcwd. unfold owners. rewrite in_flat_map. split.
  - intros (f & Hf & Hd). exists f. split; [exact Hf|].
    destruct (owner w f) as [d'|]; [|contradiction].
    destruct (pystr.truthy d'); [|contradiction].
    destruct Hd as [-> | []]. reflexivity.
  - intros (f & Hf & Hd). exists f. split; [exact Hf|].
    rewrite Hd. rewrite (owner_truthy w f d Hcwd Hd). now left.
Qed.

(** C3. After the two queries, [get_modified_dirs] takes the staged lines
    followed by the unstaged lines, drops repetitions keeping each path
    where it first occurs, keeps the paths that exist, maps each to its
    owning project directory (files without one are skipped) and drops
    repeated directories keeping each where it first occurs.  Changed files
    [a, b, a, c] owned by [D1, D2, D1, D3] give [D1, D2, D3]. *)
Theorem get_modified_dirs_first_seen :
  forall (st : St World) (p1 p2 : CompletedProcess.t) (w1 w2 : World),
    queries_ok st p1 p2 w1 w2 ->
    posixpath.isabs (os_getcwd w2) = true ->
    let listed := (pystr.splitlines (CompletedProcess.stdout p1)
                     ++ pystr.splitlines (CompletedProcess.stdout p2))%list in
    let files := filter (os_path_exists w2) (pystr.dict_fromkeys listed) in
    let dirs := pystr.dict_fromkeys (owners w2 files) in
    (forall x xs, pystr.dict_fromkeys (x :: xs)
                  = x :: filter (fun y => negb (y =? x)) (pystr.dict_fromkeys xs))
    /\ NoDup files
    /\ (forall f, In f files <-> In f listed /\ os_path_exists w2 f = true)
    /\ NoDup dirs
    /\ (forall d, In d dirs <-> exists f, In f files /\ owner w2 f = Some d)
    /\ get_modified_dirs st
       = (if is_nil files then (Exit 0, log (EPrint no_files_line) (after_queries st w2))
          else if is_nil dirs then (Exit 0, log (EPrint no_dirs_line) (after_queries st w2))
          else (Ret dirs, after_queries st w2))
    /\ (forall a b c D1 D2 D3,
           listed = [a; b; a; c] ->
           os_path_exists w2 a = true -> os_path_exists w2 b = true ->
           os_path_exists w2 c = true ->
           owner w2 a = Some D1 -> owner w2 b = Some D2 -> owner w2 c = Some D3 ->
           D1 <> D2 -> D1 <> D3 -> D2 <> D3 ->
           get_modified_dirs st = (Ret [D1; D2; D3], after_queries st w2)).
Proof.
  intros st p1 p2 w1 w2 Hq Hcwd listed files dirs.
  assert (Hrun : get_modified_dirs st
                 = (if is_nil files then (Exit 0, log (EPrint no_files_line) (after_queries st w2))
                    else if is_nil dirs
                         then (Exit 0, log (EPrint no_dirs_line) (after_queries st w2))
                         else (Ret dirs, after_queries st w2)))
    by exact (get_modified_dirs_ok st p1 p2 w1 w2 Hq Hcwd).
  split; [exact dict_fromkeys_cons|].
  split; [apply NoDup_filter, dict_fromkeys_NoDup|].
  split; [intros f; unfold files; now rewrite filter_In, dict_fromkeys_In|].
  split; [apply dict_fromkeys_NoDup|].
  split; [intros d; unfold dirs; rewrite dict_fromkeys_In; now apply owners_In|].
  split; [exact Hrun|].
  intros a b c D1 D2 D3 Hlisted Ha Hb Hc HD1 HD2 HD3 H12 H13 H23.
  assert (Hneq : forall x y : string, x <> y -> (x =? y) = false)
    by (intros x y Hxy; now apply String.eqb_neq).
  assert (Hab : a <> b) by congruence.
  assert (Hac : a <> c) by congruence.
  assert (Hbc : b <> c) by congruence.
  assert (Hfiles : files = [a; b; c]).
  { unfold files. rewrite Hlisted, !dict_fromkeys_cons.
    change (pystr.dict_fromkeys []) with (@nil string).
    repeat first [ rewrite String.eqb_refl
                 | rewrite (Hneq a b Hab) | rewrite (Hneq a c Hac)
                 | rewrite (Hneq b c Hbc)
                 | rewrite (Hneq b a (not_eq_sym Hab))
                 | rewrite (Hneq c a (not_eq_sym Hac))
                 | rewrite (Hneq c b (not_eq_sym Hbc))
                 | progress cbn [filter negb] ].
    now rewrite Ha, Hb, Hc. }
  assert (Hdirs : dirs = [D1; D2; D3]).
  { unfold dirs. rewrite Hfiles. unfold owners. cbn [flat_map].
    rewrite HD1, HD2, HD3.
    rewrite (owner_truthy w2 a D1 Hcwd HD1), (owner_truthy w2 b D2 Hcwd HD2),
      (owner_truthy w2 c D3 Hcwd HD3).
    cbn [app]. rewrite !dict_fromkeys_cons.
    change (pystr.dict_fromkeys []) with (@nil string).
    repeat first [ rewrite (Hneq D2 D1 (not_eq_sym H12))
                 | rewrite (Hneq D3 D1 (not_eq_sym H13))
                 | rewrite (Hneq D3 D2 (not_eq_sym H23))
                 | progress cbn [filter negb] ].
    reflexivity. }
  rewrite Hrun, Hfiles, Hdirs. reflexivity.
Qed.
End Resolver.

Lemma get_modified_dirs_first_seen_witness :
  get_modified_dirs (sim_start three_projects)
  = (Ret ["/repo/crates/x"; "/repo"; "/repo/crates/y"],
     after_queries (sim_start three_projects) three_projects).
Proof.
  assert (Hq : queries_ok (sim_start three_projects)
                 (CompletedProcess.Build 0 ("crates/x/src/a.rs" ++ NL ++ "README.md" ++ NL) "")
                 (CompletedProcess.Build 0 ("crates/x/src/a.rs" ++ NL ++ "crates/y/src/c.rs" ++ NL) "")
                 three_projects three_projects)
    by (repeat split).
  pose proof (get_modified_dirs_first_seen _ _ _ _ _ Hq eq_refl) as Hdirs.
  cbv zeta in Hdirs.
  apply (proj2 (proj2 (proj2 (proj2 (proj2 (proj2 Hdirs)))))
           "crates/x/src/a.rs" "README.md" "crates/y/src/c.rs");
    try reflexivity; discriminate.
Defined.

(* ----------------------------------------------------------------- *)
(** ** Nothing to do in git-modified mode *)

Section EarlyExit.
Context {World : Type} `{OS World}.

(** C6. With [--git-modified], once the two queries have answered: when no
    listed file exists, the process prints [No modified files found.] and
    exits with status 0; when files exist but none has an owning project,
    it prints [No modified cargo projects found.] and exits with status 0.
    In both cases the two queries are the only commands run: no tool is
    started. *)
Theorem git_modified_nothing_to_do :
  forall (args : Args.t) (st : St World) (p1 p2 : CompletedProcess.t) (w1 w2 : World),
    Args.git_modified args = true ->
    queries_ok st p1 p2 w1 w2 ->
    let files := changed_files w2 (CompletedProcess.stdout p1) (CompletedProcess.stdout p2) in
    (files = [] ->
     main args st
     = (Exit 0,
        {| world := w2;
           trace := (trace st ++ [ESpawn GIT_STAGED None; ESpawn GIT_UNSTAGED None;
                                  EPrint no_files_line])%list |}))
    /\ (files <> [] ->
        posixpath.isabs (os_getcwd w2) = true ->
        (forall f, In f files -> owner w2 f = None) ->
        main args st
        = (Exit 0,
           {| world := w2;
              trace := (trace st ++ [ESpawn GIT_STAGED None; ESpawn GIT_UNSTAGED None;
                                     EPrint no_dirs_line])%list |})).
Proof.
  intros args st p1 p2 w1 w2 Hgm Hq files. split.
  - intros Hnil. unfold main. rewrite Hgm. unfold bind at 1.
    unfold get_modified_dirs. unfold bind at 1.
    rewrite (get_modified_files_ok st p1 p2 w1 w2 Hq). cbv zeta.
    fold files. rewrite Hnil. cbn [is_nil]. unfold log, after_queries. cbn [world trace].
    now rewrite <- app_assoc.
  - intros Hne Hcwd Hnone. unfold main. rewrite Hgm. unfold bind at 1.
    rewrite (get_modified_dirs_ok st p1 p2 w1 w2 Hq Hcwd). cbv zeta. fold files.
    destruct files as [|f fs] eqn:Hfiles; [congruence|]. cbn [is_nil].
    assert (Hown : owners w2 (f :: fs) = []).
    { unfold owners. clear -Hnone. induction (f :: fs) as [|x xs IH]; [reflexivity|].
      cbn [flat_map]. rewrite (Hnone x (or_introl eq_refl)). cbn [app].
      apply IH. intros y Hy. apply Hnone. now right. }
    rewrite Hown. cbn [pystr.dict_fromkeys fold_left is_nil].
    unfold log, after_queries. cbn [world trace]. now rewrite <- app_assoc.
Qed.
End EarlyExit.

Lemma git_modified_nothing_to_do_witness :
  main git_modified_args (sim_start empty_world)
  = (Exit 0,
     {| world := empty_world;
        trace := [ESpawn GIT_STAGED None; ESpawn GIT_UNSTAGED None; EPrint no_files_line] |})
  /\ main git_modified_args (sim_start no_project)
     = (Exit 0,
        {| world := no_project;
           trace := [ESpawn GIT_STAGED None; ESpawn GIT_UNSTAGED None; EPrint no_dirs_line] |}).
Proof.
  assert (Hq : queries_ok (sim_start empty_world)
                 (CompletedProcess.Build 0 "" "") (CompletedProcess.Build 0 "" "")
                 empty_world empty_world)
    by (repeat split).
  assert (Hq' : queries_ok (sim_start no_project)
                  (CompletedProcess.Build 0 ("README.md" ++ NL) "")
                  (CompletedProcess.Build 0 "" "")
                  no_project no_project)
    by (repeat split).
  split.
  - exact (proj1 (git_modified_nothing_to_do git_modified_args (sim_start empty_world)
                    _ _ _ _ eq_refl Hq) eq_refl).
  - refine (proj2 (git_modified_nothing_to_do git_modified_args (sim_start no_project)
                     _ _ _ _ eq_refl Hq') _ eq_refl _).
    + discriminate.
    + intros f [<- | []]. reflexivity.
Defined.

(* ----------------------------------------------------------------- *)
(** ** A failing unstaged query *)

Section UnstagedFailure.
Context {World : Type} `{OS World}.

End UnstagedFailure.



(* ----------------------------------------------------------------- *)
(** ** End-to-end runs *)

(** One directory with a manifest, the linter exits with status zero and
    prints nothing: the run exits with status 0 after the passed line and
    the success banner, without a failure summary. *)
Example run_one_passing_directory :
  RustToolRunner.run RustToolRunner.init (Some ["app"]) None false false false false
    (sim_start {| sim_files := ["app/Cargo.toml"]; sim_cwd := "/repo"; sim_proc := quiet |})
  = (Exit 0,
     {| world := {| sim_files := ["app/Cargo.toml"]; sim_cwd := "/repo"; sim_proc := quiet |};
        trace := [EPrint RustToolRunner.banner_linter;
                  ESpawn ["cargo"; "clippy"; "--"; "-D"; "warnings"] (Some "app");
                  EPrint (GREEN ++ "✅ Clippy checks passed in app." ++ RESET);
                  EPrint (RustToolRunner.success_banner "linting checks")] |}).
Proof. vm_compute. reflexivity. Qed.

(** Two directories, one with a manifest where the linter fails, one
    without: status 1, the failed tool named once, the other directory
    skipped. *)
Example run_failing_and_skipped_directory :
  RustToolRunner.run RustToolRunner.init (Some ["app"; "docs"]) None false false false false
    (sim_start failing_world)
  = (Exit 1,
     {| world := failing_world;
        trace := [EPrint RustToolRunner.banner_linter;
                  ESpawn ["cargo"; "clippy"; "--"; "-D"; "warnings"] (Some "app");
                  EPrint (RED ++ "❌ Clippy issues in app:" ++ RESET);
                  EPrint "";
                  EPrint "error: foo";
                  EPrint (BLUE ++ "Skipping docs: Cargo.toml not found (not a Rust project)."
                               ++ RESET);
                  EPrint (GREEN ++ "✅ Clippy checks passed in docs." ++ RESET);
                  EPrint (RustToolRunner.failure_summary ["clippy"])] |}).
Proof. vm_compute. reflexivity. Qed.

(** With both [--format] and [--fix] the only command run is [cargo fmt]. *)
Example run_format_and_fix :
  trace (snd (main (Args.Build ["."] None true None true true false)
                (sim_start failing_world)))
  = [EPrint RustToolRunner.banner_formatter;
     ESpawn ["cargo"; "fmt"] (Some ".");
     EPrint (GREEN ++ "✅ Fmt checks passed in .." ++ RESET);
     EPrint (RustToolRunner.success_banner "formatting")].
Proof. vm_compute. reflexivity. Qed.

(** Two changed files of one project give its directory once; a listed
    file that is gone is dropped. *)
Example one_project_once :
  fst (get_modified_dirs (sim_start one_project)) = Ret ["/repo/crates/x"].
Proof. vm_compute. reflexivity. Qed.

(** Changed files outside every project: nothing to do, status 0. *)
Example no_project_exit :
  main git_modified_args (sim_start no_project)
  = (Exit 0,
     {| world := no_project;
        trace := [ESpawn GIT_STAGED None; ESpawn GIT_UNSTAGED None; EPrint no_dirs_line] |}).
Proof. vm_compute. reflexivity. Qed.

(** What a failing unstaged query printed is used like any other output. *)
Example unstaged_failure_output_kept :
  fst (get_modified_files (sim_start unstaged_fails_with_output))
  = Ret ["README.md"; "src/lib.rs"].
Proof. vm_compute. reflexivity. Qed.

(** A failing staged query, in contrast, raises. *)
Example staged_failure_raises :
  fst (get_modified_files
         (sim_start {| sim_files := []; sim_cwd := "/repo";
                       sim_proc := fun _ _ => completed 128 "" "fatal: not a git repository" |}))
  = Raise (CalledProcessError 128 GIT_STAGED).
Proof. vm_compute. reflexivity. Qed.

(** Output that is not text is an exception nobody catches. *)
Example run_with_garbled_output :
  RustToolRunner.run RustToolRunner.init None None false false false false
    (sim_start garbled_output)
  = (Raise UnicodeDecodeError,
     {| world := garbled_output;
        trace := [EPrint RustToolRunner.banner_linter;
                  ESpawn ["cargo"; "clippy"; "--"; "-D"; "warnings"] (Some ".")] |}).
Proof. vm_compute. reflexivity. Qed.

(** So is a build tool that is not installed. *)
Example run_without_cargo :
  fst (RustToolRunner.run RustToolRunner.init None None false false false false
         (sim_start no_cargo))
  = Raise (OSError "No such file or directory: 'cargo'").
Proof. vm_compute. reflexivity. Qed.

(** The ancestors of a directory, up to the root and no further. *)
Example ancestors_of_src :
  map (ancestor nested_world "/repo/crates/x/src") [0; 1; 2; 3; 4; 5]
  = ["/repo/crates/x/src"; "/repo/crates/x"; "/repo/crates"; "/repo"; "/"; "/"].
Proof. vm_compute. reflexivity. Qed.

(* ================================================================= *)
(** * Further properties *)

(* ----------------------------------------------------------------- *)
(** ** What a run spawns *)

Lemma spawned_app (evs1 evs2 : list Event) :
  spawned (evs1 ++ evs2) = (spawned evs1 ++ spawned evs2)%list.
Proof. unfold spawned. apply flat_map_app. Qed.

Lemma spawned_prints (lines : list string) : spawned (map EPrint lines) = [].
Proof. induction lines as [|l lines IH]; [reflexivity | exact IH]. Qed.

Lemma subseq_nil_l {A : Type} (l : list A) : subseq [] l.
Proof. induction l as [|x l IH]; [apply subseq_nil | apply subseq_skip; exact IH]. Qed.

Lemma subseq_refl {A : Type} (l : list A) : subseq l l.
Proof. induction l as [|x l IH]; [apply subseq_nil | apply subseq_keep; exact IH]. Qed.

Lemma subseq_app {A : Type} (a b c d : list A) :
  subseq a b -> subseq c d -> subseq (a ++ c) (b ++ d).
Proof.
  intros Hab Hcd. induction Hab as [|x l1 l2 _ IH|x l1 l2 _ IH]; cbn [app].
  - exact Hcd.
  - apply subseq_skip. exact IH.
  - apply subseq_keep. exact IH.
Qed.

Lemma subseq_trans {A : Type} (l1 l2 l3 : list A) :
  subseq l1 l2 -> subseq l2 l3 -> subseq l1 l3.
Proof.
  intros H12 H23. revert l1 H12.
  induction H23 as [|x l2 l3 _ IH|x l2 l3 _ IH]; intros l1 H12.
  - exact H12.
  - apply subseq_skip. apply IH. exact H12.
  - inversion H12 as [|y k1 k2 Hk|y k1 k2 Hk]; subst.
    + apply subseq_skip. apply IH. exact Hk.
    + apply subseq_keep. apply IH. exact Hk.
Qed.

Lemma subseq_In {A : Type} (l1 l2 : list A) (x : A) :
  subseq l1 l2 -> In x l1 -> In x l2.
Proof.
  intros Hsub. induction Hsub as [|y l1 l2 _ IH|y l1 l2 _ IH]; intros Hin.
  - exact Hin.
  - right. apply IH. exact Hin.
  - destruct Hin as [Heq | Hin]; [now left | right; apply IH; exact Hin].
Qed.

Lemma subseq_length {A : Type} (l1 l2 : list A) :
  subseq l1 l2 -> length l1 <= length l2.
Proof. intros Hsub. induction Hsub; simpl; lia. Qed.

Lemma subseq_nil_r {A : Type} (l : list A) : subseq l [] -> l = [].
Proof. intros Hsub. inversion Hsub. reflexivity. Qed.

Lemma planned_spawns_cons (tool : BaseRustTool.t) (tools : list BaseRustTool.t)
      (dirs : list string) :
  planned_spawns (tool :: tools) dirs
  = (map (tool_command tool) dirs ++ planned_spawns tools dirs)%list.
Proof. reflexivity. Qed.

Lemma planned_spawns_In (tools : list BaseRustTool.t) (dirs : list string)
      (c : list string * option string) :
  In c (planned_spawns tools dirs) ->
  exists tool d, In tool tools /\ In d dirs /\ c = tool_command tool d.
Proof.
  unfold planned_spawns. intros Hc. apply in_flat_map in Hc.
  destruct Hc as (tool & Htool & Hc). apply in_map_iff in Hc.
  destruct Hc as (d & Heq & Hd). exists tool, d. auto.
Qed.

Lemma planned_spawns_length (tools : list BaseRustTool.t) (dirs : list string) :
  length (planned_spawns tools dirs) = length tools * length dirs.
Proof.
  induction tools as [|tool tools IH]; [reflexivity|].
  rewrite planned_spawns_cons, length_app, length_map, IH. simpl. lia.
Qed.

Section Effects.
Context {World : Type} `{OS World}.

(** One tool run: what it appends to the trace, and how it can end. *)
Lemma run_effect (tool : BaseRustTool.t) (d : string) (st : St World) :
  exists out st' evs,
    BaseRustTool.run tool d st = (out, st')
    /\ trace st' = (trace st ++ evs)%list
    /\ spawned evs = (if has_manifest (world st) d then [tool_command tool d] else [])
    /\ (has_manifest (world st) d = false -> world st' = world st)
    /\ ((exists r, out = Ret r
                   /\ (has_manifest (world st) d = false -> ToolResult.success r = true))
        \/ (exists e, out = Raise e /\ forall rc cmd, e <> CalledProcessError rc cmd)).
Proof.
  destruct (has_manifest (world st) d) eqn:Hm.
  - rewrite run_with_manifest by exact Hm. cbv zeta.
    destruct (os_spawn _ _ _) as [[p | msg |] w']; cbn [fst snd];
      do 3 eexists; (split; [reflexivity|]); cbn [trace];
      (split; [reflexivity|]); (split; [reflexivity|]); (split; [discriminate|]).
    + left. eexists. split; [reflexivity | discriminate].
    + right. eexists. split; [reflexivity | discriminate].
    + right. eexists. split; [reflexivity | discriminate].
  - rewrite run_without_manifest by exact Hm.
    do 3 eexists. split; [reflexivity|]. cbn [log trace world].
    split; [reflexivity|]. split; [reflexivity|]. split; [reflexivity|].
    left. eexists. split; reflexivity.
Qed.

(** One tool over the directories, in every case: the trace only grows, by
    the tool's command in some of the directories, in their order and at
    most once for each; [CalledProcessError] is never raised. *)
Lemma tool_results_effect (self : RustToolRunner.t) (tool : BaseRustTool.t)
      (dirs : list string) (st : St World) :
  exists out st' evs,
    tool_results self tool dirs st = (out, st')
    /\ trace st' = (trace st ++ evs)%list
    /\ subseq (spawned evs) (map (tool_command tool) dirs)
    /\ ((exists rs, out = Ret rs)
        \/ (exists e, out = Raise e /\ forall rc cmd, e <> CalledProcessError rc cmd)).
Proof.
  revert st. induction dirs as [|d dirs IH]; intros st.
  - exists (Ret []), st, []. split; [reflexivity|]. split; [now rewrite app_nil_r|].
    split; [apply subseq_nil|]. left. now eexists.
  - cbn [tool_results]. unfold bind, ret.
    destruct (run_effect tool d st) as (out1 & st1 & evs1 & -> & Ht1 & Hs1 & _ & Hout1).
    assert (Hsub1 : subseq (spawned evs1) [tool_command tool d]).
    { rewrite Hs1. destruct (has_manifest (world st) d);
        [apply subseq_refl | apply subseq_nil_l]. }
    cbn [map]. change (tool_command tool d :: map (tool_command tool) dirs)
      with ([tool_command tool d] ++ map (tool_command tool) dirs)%list.
    destruct Hout1 as [(r & -> & _) | (e & -> & He)].
    + destruct (handle_result_ret self r d st1) as [lines ->].
      destruct (IH {| world := world st1; trace := (trace st1 ++ map EPrint lines)%list |})
        as (out3 & st3 & evs3 & -> & Ht3 & Hsub3 & Hout3).
      cbn [trace] in Ht3.
      exists (match out3 with
              | Ret rs => Ret ((d, r) :: rs)
              | Exit code => Exit code
              | Raise e => Raise e
              | OutOfFuel => OutOfFuel
              end), st3, (evs1 ++ map EPrint lines ++ evs3)%list.
      split; [now destruct out3|].
      split; [rewrite Ht3, Ht1; now rewrite !app_assoc|].
      rewrite !spawned_app, spawned_prints. cbn [app].
      split; [exact (subseq_app _ [tool_command tool d] _ _ Hsub1 Hsub3)|].
      destruct Hout3 as [(rs & ->) | (e & -> & He)]; [left | right]; eauto.
    + exists (Raise e), st1, evs1.
      split; [reflexivity|]. split; [exact Ht1|].
      split; [|right; eauto].
      rewrite <- (app_nil_r (spawned evs1)).
      apply subseq_app; [exact Hsub1 | apply subseq_nil_l].
Qed.

(** Every tool over every directory, in every case. *)
Lemma all_results_effect (self : RustToolRunner.t) (tools : list BaseRustTool.t)
      (dirs : list string) (st : St World) :
  exists out st' evs,
    all_results self tools dirs st = (out, st')
    /\ trace st' = (trace st ++ evs)%list
    /\ subseq (spawned evs) (planned_spawns tools dirs)
    /\ ((exists m, out = Ret m)
        \/ (exists e, out = Raise e /\ forall rc cmd, e <> CalledProcessError rc cmd)).
Proof.
  revert st. induction tools as [|tool tools IH]; intros st.
  - exists (Ret []), st, []. split; [reflexivity|]. split; [now rewrite app_nil_r|].
    split; [apply subseq_nil|]. left. now eexists.
  - cbn [all_results]. unfold bind, ret. rewrite planned_spawns_cons.
    destruct (tool_results_effect self tool dirs st)
      as (out1 & st1 & evs1 & -> & Ht1 & Hsub1 & Hout1).
    destruct Hout1 as [(rs & ->) | (e & -> & He)].
    + destruct (IH st1) as (out2 & st2 & evs2 & -> & Ht2 & Hsub2 & Hout2).
      exists (match out2 with
              | Ret m => Ret ((tool, rs) :: m)
              | Exit code => Exit code
              | Raise e => Raise e
              | OutOfFuel => OutOfFuel
              end), st2, (evs1 ++ evs2)%list.
      split; [now destruct out2|].
      split; [rewrite Ht2, Ht1; now rewrite app_assoc|].
      rewrite spawned_app. split; [now apply subseq_app|].
      destruct Hout2 as [(m & ->) | (e & -> & He)]; [left | right]; eauto.
    + exists (Raise e), st1, evs1.
      split; [reflexivity|]. split; [exact Ht1|].
      split; [|right; eauto].
      rewrite <- (app_nil_r (spawned evs1)).
      apply subseq_app; [exact Hsub1 | apply subseq_nil_l].
Qed.
End Effects.

Section RunEffects.
Context {World : Type} `{OS World}.

(** The orchestrator, in every case: the trace only grows; the commands
    are those of the selected tools in the target directories, in that
    order and at most once for each pair; the process is ended by
    [sys.exit] with status 0 or 1, unless an exception escapes, which is
    never [CalledProcessError]. *)
Lemma run_summary (self : RustToolRunner.t)
      (target_dirs selected_tools : option (list string))
      (is_formatting is_fixing is_unsafe_fixing is_git_modified : bool) (st : St World) :
  let tools := dict_values
                 (RustToolRunner.get_tools_to_run self
                    (mode_registry self
                       (spec_resolve_mode is_formatting is_fixing is_unsafe_fixing))
                    selected_tools is_git_modified) in
  exists out st' evs,
    RustToolRunner.run self target_dirs selected_tools
      is_formatting is_fixing is_unsafe_fixing is_git_modified st = (out, st')
    /\ trace st' = (trace st ++ evs)%list
    /\ (forall c, In c (spawned evs) ->
                  exists tool d, In tool tools /\ In d (paths_of target_dirs)
                                 /\ c = tool_command tool d)
    /\ length (spawned evs) <= length tools * length (paths_of target_dirs)
    /\ subseq (spawned evs) (planned_spawns tools (paths_of target_dirs))
    /\ match out with
       | Exit code => code = 0%Z \/ code = 1%Z
       | Raise e => forall rc cmd, e <> CalledProcessError rc cmd
       | Ret _ | OutOfFuel => False
       end.
Proof.
  intros tools. rewrite run_as_mode, run_in_mode_results. fold tools.
  set (mode := spec_resolve_mode is_formatting is_fixing is_unsafe_fixing).
  destruct (all_results_effect self tools (paths_of target_dirs)
              (log (EPrint (mode_banner mode)) st))
    as (out & st1 & evs & -> & Ht & Hsub & Hout).
  cbn [log trace] in Ht.
  assert (Hin : forall c, In c (spawned evs) ->
                  exists tool d, In tool tools /\ In d (paths_of target_dirs)
                                 /\ c = tool_command tool d).
  { intros c Hc. apply planned_spawns_In. exact (subseq_In _ _ c Hsub Hc). }
  assert (Hlen : length (spawned evs) <= length tools * length (paths_of target_dirs)).
  { rewrite <- planned_spawns_length. now apply subseq_length. }
  destruct Hout as [(m & ->) | (e & -> & He)].
  - destruct (any_failed m).
    + do 2 eexists.
      exists ([EPrint (mode_banner mode)] ++ evs
                ++ [EPrint (RustToolRunner.failure_summary (failed_names m))])%list.
      split; [reflexivity|]. cbn [log trace].
      split; [rewrite Ht; now rewrite <- !app_assoc|].
      rewrite !spawned_app. cbn [spawned flat_map app]. rewrite app_nil_r.
      split; [exact Hin|]. split; [exact Hlen|]. split; [exact Hsub|]. now right.
    + do 2 eexists.
      exists ([EPrint (mode_banner mode)] ++ evs
                ++ [EPrint (RustToolRunner.success_banner (mode_action mode))])%list.
      split; [reflexivity|]. cbn [log trace].
      split; [rewrite Ht; now rewrite <- !app_assoc|].
      rewrite !spawned_app. cbn [spawned flat_map app]. rewrite app_nil_r.
      split; [exact Hin|]. split; [exact Hlen|]. split; [exact Hsub|]. now left.
  - do 2 eexists. exists ([EPrint (mode_banner mode)] ++ evs)%list.
    split; [reflexivity|].
    split; [rewrite Ht; now rewrite <- !app_assoc|].
    rewrite !spawned_app. cbn [spawned flat_map app].
    split; [exact Hin|]. split; [exact Hlen|]. split; [exact Hsub | exact He].
Qed.

(** X1. [RustToolRunner.run] never hands control back to its caller: when
    it ends by [sys.exit] the status is 0 or 1, and an exception that
    escapes from it is never [CalledProcessError], as the tools are run
    without [check]. *)
Theorem run_never_returns_to_its_caller :
  forall (self : RustToolRunner.t) (target_dirs selected_tools : option (list string))
         (is_formatting is_fixing is_unsafe_fixing is_git_modified : bool)
         (st : St World),
    match fst (RustToolRunner.run self target_dirs selected_tools
                 is_formatting is_fixing is_unsafe_fixing is_git_modified st) with
    | Exit code => code = 0%Z \/ code = 1%Z
    | Raise (CalledProcessError _ _) => False
    | Raise _ => True
    | Ret _ | OutOfFuel => False
    end.
Proof.
  intros.
  destruct (run_summary self target_dirs selected_tools is_formatting is_fixing
              is_unsafe_fixing is_git_modified st)
    as (out & st' & evs & -> & _ & _ & _ & _ & Hout).
  cbn [fst]. destruct out as [u | code | [rc cmd | msg |] |]; try exact Hout; try exact I.
  exact (Hout rc cmd eq_refl).
Qed.

(** X2. Whatever happens, [RustToolRunner.run] only adds to the trace, and
    every process it starts is the command of a selected tool, built for a
    target directory and run with that directory as working directory.
    The processes started are, in the order they are started, the planned
    ones with some left out: the plan has, tool by tool in the order of the
    selection and directory by directory in the order given, one command
    per selected tool and listed directory.  So no command is started a
    second time for its place in the plan (no retry) and none is started
    out of order. *)
Theorem run_spawns_only_tool_commands :
  forall (self : RustToolRunner.t) (target_dirs selected_tools : option (list string))
         (is_formatting is_fixing is_unsafe_fixing is_git_modified : bool)
         (st : St World),
    let tools := dict_values
                   (RustToolRunner.get_tools_to_run self
                      (mode_registry self
                         (spec_resolve_mode is_formatting is_fixing is_unsafe_fixing))
                      selected_tools is_git_modified) in
    let st' := snd (RustToolRunner.run self target_dirs selected_tools
                      is_formatting is_fixing is_unsafe_fixing is_git_modified st) in
    exists evs,
      trace st' = (trace st ++ evs)%list
      /\ (forall cmd cwd,
             In (cmd, cwd) (spawned evs) ->
             exists tool d,
               In tool tools /\ In d (paths_of target_dirs)
               /\ cmd = BaseRustTool.command_factory tool d /\ cwd = Some d)
      /\ subseq (spawned evs)
           (flat_map (fun tool =>
                        map (fun d => (BaseRustTool.command_factory tool d, Some d))
                          (paths_of target_dirs)) tools).
Proof.
  intros. subst st'.
  destruct (run_summary self target_dirs selected_tools is_formatting is_fixing
              is_unsafe_fixing is_git_modified st)
    as (out & st' & evs & -> & Ht & Hin & _ & Hsub & _).
  exists evs. split; [exact Ht|]. split; [|exact Hsub].
  intros cmd cwd Hc. destruct (Hin _ Hc) as (tool & d & Htool & Hd & Heq).
  exists tool, d. inversion Heq. auto.
Qed.
End RunEffects.

(* ----------------------------------------------------------------- *)
(** ** A failure does not stop the run *)

Section Quiet.
Context {World : Type} {os : OS World}.
Hypothesis quiet_commands : @commands_are_quiet World os.

Lemma has_manifest_ext (w w' : World) :
  (forall p, os_path_exists w' p = os_path_exists w p) ->
  forall d, has_manifest w' d = has_manifest w d.
Proof. intros Hsame d. unfold has_manifest. apply Hsame. Qed.

Lemma tool_results_quiet (self : RustToolRunner.t) (tool : BaseRustTool.t)
      (dirs : list string) (st : St World) :
  exists rs st' evs,
    tool_results self tool dirs st = (Ret rs, st')
    /\ (forall p, os_path_exists (world st') p = os_path_exists (world st) p)
    /\ trace st' = (trace st ++ evs)%list
    /\ spawned evs
       = flat_map (fun d => if has_manifest (world st) d then [tool_command tool d] else [])
           dirs.
Proof.
  destruct quiet_commands as [Hcompletes Hkeeps].
  revert st. induction dirs as [|d dirs IH]; intros st.
  - exists [], st, []. split; [reflexivity|]. split; [reflexivity|].
    split; [now rewrite app_nil_r | reflexivity].
  - cbn [tool_results flat_map]. unfold bind, ret.
    assert (Hstep : exists r st1 evs1,
               BaseRustTool.run tool d st = (Ret r, st1)
               /\ (forall p, os_path_exists (world st1) p = os_path_exists (world st) p)
               /\ trace st1 = (trace st ++ evs1)%list
               /\ spawned evs1
                  = (if has_manifest (world st) d then [tool_command tool d] else [])).
    { destruct (has_manifest (world st) d) eqn:Hm.
      - rewrite run_with_manifest by exact Hm. cbv zeta.
        destruct (Hcompletes (BaseRustTool.command_factory tool d) (Some d) (world st))
          as [p Hp].
        rewrite Hp. do 3 eexists. split; [reflexivity|]. cbn [world trace].
        split; [intros q; apply Hkeeps|]. split; reflexivity.
      - rewrite run_without_manifest by exact Hm.
        do 3 eexists. split; [reflexivity|]. cbn [log world trace].
        split; [reflexivity|]. split; reflexivity. }
    destruct Hstep as (r & st1 & evs1 & -> & Hw1 & Ht1 & Hs1).
    destruct (handle_result_ret self r d st1) as [lines ->].
    destruct (IH {| world := world st1; trace := (trace st1 ++ map EPrint lines)%list |})
      as (rs & st3 & evs3 & -> & Hw3 & Ht3 & Hs3).
    cbn [world trace] in Hw3, Ht3, Hs3.
    exists ((d, r) :: rs), st3, (evs1 ++ map EPrint lines ++ evs3)%list.
    split; [reflexivity|].
    split; [intros q; now rewrite Hw3, Hw1|].
    split; [rewrite Ht3, Ht1; now rewrite !app_assoc|].
    rewrite !spawned_app, spawned_prints, Hs1, Hs3. cbn [app]. f_equal.
    apply flat_map_ext. intros d'. now rewrite (has_manifest_ext _ _ Hw1).
Qed.

Lemma all_results_quiet (self : RustToolRunner.t) (tools : list BaseRustTool.t)
      (dirs : list string) (st : St World) :
  exists m st' evs,
    all_results self tools dirs st = (Ret m, st')
    /\ (forall p, os_path_exists (world st') p = os_path_exists (world st) p)
    /\ trace st' = (trace st ++ evs)%list
    /\ spawned evs = expected_spawns (world st) tools dirs.
Proof.
  revert st. induction tools as [|tool tools IH]; intros st.
  - exists [], st, []. split; [reflexivity|]. split; [reflexivity|].
    split; [now rewrite app_nil_r | reflexivity].
  - cbn [all_results]. unfold bind, ret.
    destruct (tool_results_quiet self tool dirs st)
      as (rs & st1 & evs1 & -> & Hw1 & Ht1 & Hs1).
    destruct (IH st1) as (m & st2 & evs2 & -> & Hw2 & Ht2 & Hs2).
    exists ((tool, rs) :: m), st2, (evs1 ++ evs2)%list.
    split; [reflexivity|].
    split; [intros q; now rewrite Hw2, Hw1|].
    split; [rewrite Ht2, Ht1; now rewrite app_assoc|].
    rewrite spawned_app, Hs1, Hs2. unfold expected_spawns. cbn [flat_map]. f_equal.
    apply flat_map_ext. intros tool'. apply flat_map_ext. intros d'.
    now rewrite (has_manifest_ext _ _ Hw1).
Qed.

(** X3. When commands always run to completion and do not change which
    paths exist, [RustToolRunner.run] starts the command of every selected
    tool in every target directory that holds a manifest, tool by tool and
    directory by directory, whatever their exit statuses: a failure never
    stops the remaining directories or tools, and the process then ends by
    [sys.exit]. *)
Theorem run_continues_after_failures :
  forall (self : RustToolRunner.t) (target_dirs selected_tools : option (list string))
         (is_formatting is_fixing is_unsafe_fixing is_git_modified : bool)
         (st : St World),
    let tools := dict_values
                   (RustToolRunner.get_tools_to_run self
                      (mode_registry self
                         (spec_resolve_mode is_formatting is_fixing is_unsafe_fixing))
                      selected_tools is_git_modified) in
    exists code st' evs,
      RustToolRunner.run self target_dirs selected_tools
        is_formatting is_fixing is_unsafe_fixing is_git_modified st = (Exit code, st')
      /\ trace st' = (trace st ++ evs)%list
      /\ spawned evs = expected_spawns (world st) tools (paths_of target_dirs).
Proof.
  intros. rewrite run_as_mode, run_in_mode_results. fold tools.
  set (mode := spec_resolve_mode is_formatting is_fixing is_unsafe_fixing).
  destruct (all_results_quiet self tools (paths_of target_dirs)
              (log (EPrint (mode_banner mode)) st))
    as (m & st1 & evs & -> & _ & Ht & Hs).
  cbn [log world trace] in Ht, Hs.
  destruct (any_failed m).
  - exists 1%Z. eexists.
    exists ([EPrint (mode_banner mode)] ++ evs
              ++ [EPrint (RustToolRunner.failure_summary (failed_names m))])%list.
    split; [reflexivity|]. cbn [log trace].
    split; [rewrite Ht; now rewrite <- !app_assoc|].
    rewrite !spawned_app. cbn [spawned flat_map app]. now rewrite app_nil_r.
  - exists 0%Z. eexists.
    exists ([EPrint (mode_banner mode)] ++ evs
              ++ [EPrint (RustToolRunner.success_banner (mode_action mode))])%list.
    split; [reflexivity|]. cbn [log trace].
    split; [rewrite Ht; now rewrite <- !app_assoc|].
    rewrite !spawned_app. cbn [spawned flat_map app]. now rewrite app_nil_r.
Qed.
End Quiet.

Lemma files_commands_are_quiet : @commands_are_quiet (list string) FilesOS.
Proof.
  split.
  - intros cmd cwd files. cbn [os_spawn FilesOS fst]. unfold clippy_fails, completed.
    destruct (pystr.mem "clippy" cmd); eexists; reflexivity.
  - intros cmd cwd files path. reflexivity.
Qed.

Lemma run_continues_after_failures_witness :
  @commands_are_quiet (list string) FilesOS
  /\ exists st' evs,
      RustToolRunner.run RustToolRunner.init (Some ["app"; "docs"; "lib"]) None
        false false false false
        {| world := ["app/Cargo.toml"; "lib/Cargo.toml"]; trace := [] |} = (Exit 1, st')
      /\ trace st' = evs
      /\ spawned evs = [tool_command clippy "app"; tool_command clippy "lib"].
Proof.
  split; [exact files_commands_are_quiet|].
  destruct (run_continues_after_failures files_commands_are_quiet RustToolRunner.init
              (Some ["app"; "docs"; "lib"]) None false false false false
              {| world := ["app/Cargo.toml"; "lib/Cargo.toml"]; trace := [] |})
    as (code & st' & evs & Hrun & Ht & Hs).
  exists st', evs. split; [|split; [exact Ht | exact Hs]].
  rewrite Hrun. f_equal. f_equal.
  assert (Hfst : fst (RustToolRunner.run RustToolRunner.init (Some ["app"; "docs"; "lib"]) None
                        false false false false
                        {| world := ["app/Cargo.toml"; "lib/Cargo.toml"]; trace := [] |})
                 = Exit 1) by (vm_compute; reflexivity).
  rewrite Hrun in Hfst. cbn [fst] in Hfst. now inversion Hfst.
Defined.

(* ----------------------------------------------------------------- *)
(** ** Nothing to run *)

Section NothingToRun.
Context {World : Type} {os : OS World}.

Lemma tool_results_skipped (self : RustToolRunner.t) (tool : BaseRustTool.t)
      (dirs : list string) (st : St World) :
  (forall d, In d dirs -> has_manifest (world st) d = false) ->
  exists rs,
    tool_results self tool dirs st
    = (Ret rs, {| world := world st;
                  trace := (trace st ++ map EPrint (flat_map (skipped_lines (str_capitalize os) tool) dirs))%list |})
    /\ tool_failed rs = false.
Proof.
  revert st. induction dirs as [|d dirs IH]; intros st Hnone.
  - exists []. split; [|reflexivity]. cbn [tool_results flat_map map]. unfold ret.
    rewrite app_nil_r. now destruct st.
  - cbn [tool_results]. unfold bind, ret.
    rewrite run_without_manifest by (apply Hnone; now left).
    unfold RustToolRunner.handle_result. cbn [ToolResult.success negb].
    unfold bind, print, ret.
    destruct (IH (log (EPrint (RustToolRunner.passed_line (str_capitalize os)
                                 (ToolResult.Build (BaseRustTool.name tool) true
                                    ("Skipped " ++ d) "") d))
                    (log (EPrint (BLUE ++ "Skipping " ++ d ++ ": "
                                       ++ "Cargo.toml not found (not a Rust project)."
                                       ++ RESET)) st)))
      as (rs & -> & Hrs).
    { intros d' Hd'. cbn [log world]. apply Hnone. now right. }
    eexists. split.
    + cbn [log world trace flat_map skipped_lines map app].
      unfold RustToolRunner.passed_line. cbn [ToolResult.name].
      rewrite <- !app_assoc. reflexivity.
    + rewrite tool_failed_cons, Hrs. reflexivity.
Qed.

Lemma all_results_skipped (self : RustToolRunner.t) (tools : list BaseRustTool.t)
      (dirs : list string) (st : St World) :
  (forall d, In d dirs -> has_manifest (world st) d = false) ->
  exists m,
    all_results self tools dirs st
    = (Ret m,
       {| world := world st;
          trace := (trace st
                      ++ map EPrint
                           (flat_map (fun tool => flat_map (skipped_lines (str_capitalize os) tool) dirs) tools))%list |})
    /\ any_failed m = false.
Proof.
  revert st. induction tools as [|tool tools IH]; intros st Hnone.
  - exists []. split; [|reflexivity]. cbn [all_results flat_map map]. unfold ret.
    rewrite app_nil_r. now destruct st.
  - cbn [all_results]. unfold bind, ret.
    destruct (tool_results_skipped self tool dirs st Hnone) as (rs & -> & Hrs).
    destruct (IH {| world := world st;
                    trace := (trace st ++ map EPrint (flat_map (skipped_lines (str_capitalize os) tool) dirs))%list |})
      as (m & -> & Hm); [exact Hnone|].
    eexists. split.
    + cbn [world trace flat_map]. now rewrite map_app, <- !app_assoc.
    + unfold any_failed in *. cbn [existsb snd]. now rewrite Hrs.
Qed.

(** X4. When none of the target directories holds a manifest,
    [RustToolRunner.run] starts no process and leaves the world as it is:
    for every selected tool and directory it prints the skip line followed
    by the line of a passed check, which names the tool as [str.capitalize]
    gives its name in the environment of the run, then the success banner,
    and exits with status 0. *)
Theorem run_all_directories_skipped :
  forall (self : RustToolRunner.t) (target_dirs selected_tools : option (list string))
         (is_formatting is_fixing is_unsafe_fixing is_git_modified : bool)
         (st : St World),
    (forall d, In d (paths_of target_dirs) -> has_manifest (world st) d = false) ->
    let mode := spec_resolve_mode is_formatting is_fixing is_unsafe_fixing in
    let tools := dict_values
                   (RustToolRunner.get_tools_to_run self (mode_registry self mode)
                      selected_tools is_git_modified) in
    RustToolRunner.run self target_dirs selected_tools
      is_formatting is_fixing is_unsafe_fixing is_git_modified st
    = (Exit 0,
       {| world := world st;
          trace := (trace st
                      ++ map EPrint
                           ([mode_banner mode]
                              ++ flat_map (fun tool =>
                                             flat_map (skipped_lines (str_capitalize os) tool)
                                               (paths_of target_dirs)) tools
                              ++ [RustToolRunner.success_banner (mode_action mode)]))%list |}).
Proof.
  intros self target_dirs selected_tools is_formatting is_fixing is_unsafe_fixing
         is_git_modified st Hnone mode tools.
  rewrite run_as_mode, run_in_mode_results. fold mode tools.
  destruct (all_results_skipped self tools (paths_of target_dirs)
              (log (EPrint (mode_banner mode)) st) Hnone) as (m & -> & ->).
  unfold log. cbn [world trace]. rewrite !map_app. cbn [map].
  now rewrite <- !app_assoc.
Qed.

(** With nothing selected only the two banners are printed. *)
Lemma run_no_tools (self : RustToolRunner.t)
      (target_dirs selected_tools : option (list string))
      (is_formatting is_fixing is_unsafe_fixing is_git_modified : bool) (st : St World) :
  RustToolRunner.get_tools_to_run self
    (mode_registry self (spec_resolve_mode is_formatting is_fixing is_unsafe_fixing))
    selected_tools is_git_modified = [] ->
  RustToolRunner.run self target_dirs selected_tools
    is_formatting is_fixing is_unsafe_fixing is_git_modified st
  = (Exit 0,
     {| world := world st;
        trace := (trace st
                    ++ [EPrint (mode_banner
                                  (spec_resolve_mode is_formatting is_fixing is_unsafe_fixing));
                        EPrint (RustToolRunner.success_banner
                                  (mode_action
                                     (spec_resolve_mode is_formatting is_fixing
                                        is_unsafe_fixing)))])%list |}).
Proof.
  intros Hempty.
  rewrite run_as_mode, run_in_mode_results. rewrite Hempty.
  cbn [dict_values map all_results]. unfold ret, log. cbn [any_failed existsb world trace].
  now rewrite <- app_assoc.
Qed.

(** X5. When the filter selects no tool, [RustToolRunner.run] prints the
    banner of the mode and the success banner and exits with status 0,
    whatever the target directories hold: nothing is looked at and nothing
    is run. *)
Theorem run_with_empty_selection :
  forall (self : RustToolRunner.t) (target_dirs selected_tools : option (list string))
         (is_formatting is_fixing is_unsafe_fixing is_git_modified : bool)
         (st : St World),
    let mode := spec_resolve_mode is_formatting is_fixing is_unsafe_fixing in
    RustToolRunner.get_tools_to_run self (mode_registry self mode)
      selected_tools is_git_modified = [] ->
    RustToolRunner.run self target_dirs selected_tools
      is_formatting is_fixing is_unsafe_fixing is_git_modified st
    = (Exit 0,
       {| world := world st;
          trace := (trace st ++ [EPrint (mode_banner mode);
                                 EPrint (RustToolRunner.success_banner (mode_action mode))])%list |}).
Proof.
  intros self target_dirs selected_tools is_formatting is_fixing is_unsafe_fixing
         is_git_modified st mode Hempty.
  now apply run_no_tools.
Qed.
End NothingToRun.

Lemma run_all_directories_skipped_witness :
  (forall d, In d (paths_of (Some ["docs"; "notes"])) ->
             has_manifest (world (sim_start failing_world)) d = false)
  /\ fst (RustToolRunner.run RustToolRunner.init (Some ["docs"; "notes"]) None
            false false false false (sim_start failing_world))
     = Exit 0.
Proof.
  assert (Hnone : forall d, In d (paths_of (Some ["docs"; "notes"])) ->
                            has_manifest (world (sim_start failing_world)) d = false).
  { intros d [<- | [<- | []]]; reflexivity. }
  split; [exact Hnone|].
  rewrite (run_all_directories_skipped RustToolRunner.init (Some ["docs"; "notes"]) None
             false false false false (sim_start failing_world) Hnone).
  reflexivity.
Defined.

Lemma run_with_empty_selection_witness :
  RustToolRunner.get_tools_to_run RustToolRunner.init
    (mode_registry RustToolRunner.init (spec_resolve_mode true false false))
    (Some ["clippy"]) false = []
  /\ fst (RustToolRunner.run RustToolRunner.init (Some ["."]) (Some ["clippy"])
            true false false false (sim_start failing_world))
     = Exit 0.
Proof.
  split; [reflexivity|].
  rewrite (run_with_empty_selection RustToolRunner.init (Some ["."]) (Some ["clippy"])
             true false false false (sim_start failing_world) eq_refl).
  reflexivity.
Defined.

(* ----------------------------------------------------------------- *)
(** ** The filter and the choices of the command line *)

Lemma mem_cons (x y : string) (ys : list string) :
  pystr.mem x (y :: ys) = (x =? y) || pystr.mem x ys.
Proof. reflexivity. Qed.

(** A non-empty list whose elements are all [k] contains [k]. *)
Lemma mem_of_constant_list (k : string) (selected : list string) :
  selected <> [] -> (forall n, In n selected -> n = k) -> pystr.mem k selected = true.
Proof.
  intros Hne Hall. destruct selected as [|s selected]; [congruence|].
  rewrite mem_cons. rewrite (Hall s (or_introl eq_refl)). now rewrite String.eqb_refl.
Qed.

Lemma not_mem_of_constant_list (k k' : string) (selected : list string) :
  k' <> k -> (forall n, In n selected -> n = k) -> pystr.mem k' selected = false.
Proof.
  intros Hk Hall. induction selected as [|s selected IH]; [reflexivity|].
  rewrite mem_cons. rewrite IH by (intros n Hn; apply Hall; now right).
  rewrite (Hall s (or_introl eq_refl)). apply String.eqb_neq in Hk. now rewrite Hk.
Qed.

Section Choices.
Context {World : Type} {os : OS World}.

(** X6. The command line only accepts registered linter names for
    [--linters] and registered formatter names for [--formatters], at least
    one.  With the registries of [__init__], such a filter never removes a
    tool from a lint or format run; but in fixing mode the filter is the
    value of [--linters], which names no fixer: every accepted [--linters]
    value makes [--fix] select nothing, run nothing and exit with status
    0. *)
Theorem accepted_filters :
  forall (selected : list string),
    selected <> [] ->
    (forall gm,
        (forall n, In n selected -> In n (dict_keys (RustToolRunner.linters RustToolRunner.init))) ->
        RustToolRunner.get_tools_to_run RustToolRunner.init
          (RustToolRunner.linters RustToolRunner.init) (Some selected) gm
        = RustToolRunner.linters RustToolRunner.init
        /\ RustToolRunner.get_tools_to_run RustToolRunner.init
             (RustToolRunner.fixers RustToolRunner.init) (Some selected) gm = []
        /\ RustToolRunner.get_tools_to_run RustToolRunner.init
             (RustToolRunner.unsafe_fixers RustToolRunner.init) (Some selected) gm = []
        /\ forall paths formatters unsafe_fixes (st : St World),
            main (Args.Build paths (Some selected) false formatters true unsafe_fixes false) st
            = (Exit 0,
               {| world := world st;
                  trace := (trace st ++ [EPrint RustToolRunner.banner_fixer;
                                         EPrint (RustToolRunner.success_banner "fixes")])%list |}))
    /\ (forall gm,
           (forall n, In n selected ->
                      In n (dict_keys (RustToolRunner.formatters RustToolRunner.init))) ->
           RustToolRunner.get_tools_to_run RustToolRunner.init
             (RustToolRunner.formatters RustToolRunner.init) (Some selected) gm
           = RustToolRunner.formatters RustToolRunner.init).
Proof.
  intros selected Hne.
  assert (Hsel : Some selected = Some selected) by reflexivity.
  destruct selected as [|s0 rest] eqn:Esel; [congruence|]. rewrite <- Esel in *. clear Hsel.
  assert (Hget : forall tools gm,
             RustToolRunner.get_tools_to_run RustToolRunner.init tools (Some selected) gm
             = filter (fun entry => pystr.mem (fst entry) selected) tools).
  { intros tools gm. rewrite Esel. unfold RustToolRunner.get_tools_to_run.
    apply filter_ext. now intros [name tool]. }
  split.
  - intros gm Hchoice.
    assert (Hall : forall n, In n selected -> n = "clippy").
    { intros n Hn. destruct (Hchoice n Hn) as [<- | []]. reflexivity. }
    assert (Hfix : forall gm', RustToolRunner.get_tools_to_run RustToolRunner.init
                     (RustToolRunner.fixers RustToolRunner.init) (Some selected) gm' = []).
    { intros gm'. rewrite Hget. cbn [RustToolRunner.fixers RustToolRunner.init filter fst].
      now rewrite (not_mem_of_constant_list "clippy" "fix" selected ltac:(discriminate) Hall). }
    assert (Hunsafe : forall gm', RustToolRunner.get_tools_to_run RustToolRunner.init
                        (RustToolRunner.unsafe_fixers RustToolRunner.init) (Some selected) gm'
                      = []).
    { intros gm'. rewrite Hget.
      cbn [RustToolRunner.unsafe_fixers RustToolRunner.init filter fst].
      now rewrite (not_mem_of_constant_list "clippy" "fix" selected ltac:(discriminate) Hall). }
    split.
    { rewrite Hget. cbn [RustToolRunner.linters RustToolRunner.init filter fst].
      now rewrite (mem_of_constant_list "clippy" selected Hne Hall). }
    split; [apply Hfix|]. split; [apply Hunsafe|].
    intros paths formatters unsafe_fixes st.
    unfold main. cbn [Args.git_modified Args.paths Args.format Args.linters
                        Args.fix_ Args.unsafe_fixes].
    assert (Hrun : forall dirs,
               RustToolRunner.run RustToolRunner.init (Some dirs) (Some selected)
                 false true unsafe_fixes false st
               = (Exit 0,
                  {| world := world st;
                     trace := (trace st ++ [EPrint RustToolRunner.banner_fixer;
                                            EPrint (RustToolRunner.success_banner "fixes")])%list |})).
    { intros dirs. rewrite run_no_tools; [reflexivity|].
      cbn [spec_resolve_mode mode_registry]. destruct unsafe_fixes; [apply Hunsafe | apply Hfix]. }
    destruct paths as [|p ps]; unfold bind, ret; cbn [is_nil negb]; apply Hrun.
  - intros gm Hchoice.
    assert (Hall : forall n, In n selected -> n = "fmt").
    { intros n Hn. destruct (Hchoice n Hn) as [<- | []]. reflexivity. }
    rewrite Hget. cbn [RustToolRunner.formatters RustToolRunner.init filter fst].
    now rewrite (mem_of_constant_list "fmt" selected Hne Hall).
Qed.
End Choices.

Lemma accepted_filters_witness :
  ["clippy"; "clippy"] <> []
  /\ (forall n, In n ["clippy"; "clippy"] ->
                In n (dict_keys (RustToolRunner.linters RustToolRunner.init)))
  /\ fst (main (Args.Build ["."] (Some ["clippy"; "clippy"]) false None true false false)
            (sim_start failing_world))
     = Exit 0.
Proof.
  assert (Hne : ["clippy"; "clippy"] <> []) by discriminate.
  assert (Hchoice : forall n, In n ["clippy"; "clippy"] ->
                              In n (dict_keys (RustToolRunner.linters RustToolRunner.init))).
  { intros n [<- | [<- | []]]; now left. }
  split; [exact Hne|]. split; [exact Hchoice|].
  destruct (proj1 (accepted_filters (World := SimWorld) ["clippy"; "clippy"] Hne) false Hchoice)
    as (_ & _ & _ & Hmain).
  now rewrite Hmain.
Defined.

(* ----------------------------------------------------------------- *)
(** ** The report of one tool in one directory *)

Section Report.
Context {World : Type} {os : OS World}.

(** X7. One tool in one directory, as [run_on_dirs] handles it.  Without a
    manifest the skip line is followed by the line of a passed check and the
    tool does not count as failed.  With a manifest and a command that
    completed, the tool counts as failed exactly when the exit status is
    not zero; a passed check prints one line, a failed one prints the
    issues line, then the captured stdout even when it is empty, then the
    captured stderr only when it is not empty.  The lines name the tool as
    [str.capitalize] gives its name in the environment of the run. *)
Theorem report_of_one_directory :
  forall (self : RustToolRunner.t) (tool : BaseRustTool.t) (d : string) (st : St World),
    (has_manifest (world st) d = false ->
     RustToolRunner.run_on_dirs_inner self tool [d] false st
     = (Ret false,
        {| world := world st;
           trace := (trace st ++ map EPrint (skipped_lines (str_capitalize os) tool d))%list |}))
    /\ (forall p w',
           has_manifest (world st) d = true ->
           os_spawn (BaseRustTool.command_factory tool d) (Some d) (world st)
           = (Completed p, w') ->
           RustToolRunner.run_on_dirs_inner self tool [d] false st
           = (Ret (negb (CompletedProcess.returncode p =? 0)%Z),
              {| world := w';
                 trace := (trace st
                             ++ ESpawn (BaseRustTool.command_factory tool d) (Some d)
                             :: map EPrint (completed_lines (str_capitalize os) tool d p))%list |})).
Proof.
  intros self tool d st. split.
  - intros Hm. cbn [RustToolRunner.run_on_dirs_inner]. unfold bind at 1.
    rewrite run_without_manifest by exact Hm.
    unfold RustToolRunner.handle_result. cbn [ToolResult.success negb].
    unfold bind, print, ret, log. cbn [world trace skipped_lines map].
    unfold RustToolRunner.passed_line. cbn [ToolResult.name].
    now rewrite <- app_assoc.
  - intros p w' Hm Hspawn. cbn [RustToolRunner.run_on_dirs_inner]. unfold bind at 1.
    rewrite run_with_manifest by exact Hm. cbv zeta. rewrite Hspawn. cbn [fst snd].
    unfold RustToolRunner.handle_result, completed_lines. cbn [ToolResult.success].
    destruct (CompletedProcess.returncode p =? 0)%Z; cbn [negb].
    + unfold bind, print, ret, log. cbn [world trace map].
      unfold RustToolRunner.passed_line. cbn [ToolResult.name].
      now rewrite <- app_assoc.
    + unfold RustToolRunner.failure_line. cbn [ToolResult.name ToolResult.stdout ToolResult.stderr].
      destruct (pystr.truthy (CompletedProcess.stderr p));
        unfold bind, print, ret, log; cbn [world trace map];
        now rewrite <- !app_assoc.
Qed.
End Report.

Lemma report_of_one_directory_witness :
  has_manifest (world (sim_start failing_world)) "docs" = false
  /\ RustToolRunner.run_on_dirs_inner RustToolRunner.init clippy ["docs"] false
       (sim_start failing_world)
     = (Ret false,
        {| world := failing_world; trace := map EPrint (skipped_lines (str_capitalize SimOS) clippy "docs") |})
  /\ has_manifest (world (sim_start failing_world)) "app" = true
  /\ fst (RustToolRunner.run_on_dirs_inner RustToolRunner.init clippy ["app"] false
            (sim_start failing_world))
     = Ret true.
Proof.
  destruct (report_of_one_directory RustToolRunner.init clippy "docs" (sim_start failing_world))
    as [Hskip _].
  destruct (report_of_one_directory RustToolRunner.init clippy "app" (sim_start failing_world))
    as [_ Hrun].
  split; [reflexivity|]. split; [exact (Hskip eq_refl)|]. split; [reflexivity|].
  now rewrite (Hrun (CompletedProcess.Build 101 "" "error: foo") failing_world eq_refl eq_refl).
Defined.

(* ----------------------------------------------------------------- *)
(** ** The outcomes of the version-control queries *)

Section Queries.
Context {World : Type} {os : OS World}.

(** X8. When the staged query exits with a non-zero status,
    [get_modified_files] raises [CalledProcessError] with that status right
    after it: the unstaged query is not run, and in git-modified mode
    [main] raises the same error without printing anything or running any
    tool. *)
Theorem staged_failure_is_raised :
  forall (args : Args.t) (st : St World) (p1 : CompletedProcess.t) (w1 : World),
    os_spawn GIT_STAGED None (world st) = (Completed p1, w1) ->
    CompletedProcess.returncode p1 <> 0%Z ->
    let e := CalledProcessError (CompletedProcess.returncode p1) GIT_STAGED in
    let st1 := {| world := w1; trace := (trace st ++ [ESpawn GIT_STAGED None])%list |} in
    get_modified_files st = (Raise e, st1)
    /\ get_modified_dirs st = (Raise e, st1)
    /\ (Args.git_modified args = true -> main args st = (Raise e, st1)).
Proof.
  intros args st p1 w1 Hspawn Hrc e st1.
  assert (Hfiles : get_modified_files st = (Raise e, st1)).
  { rewrite get_modified_files_cases, Hspawn.
    apply Z.eqb_neq in Hrc. now rewrite Hrc. }
  assert (Hdirs : get_modified_dirs st = (Raise e, st1)).
  { unfold get_modified_dirs. unfold bind at 1. now rewrite Hfiles. }
  split; [exact Hfiles|]. split; [exact Hdirs|].
  intros Hgm. unfold main. rewrite Hgm. unfold bind at 1. now rewrite Hdirs.
Qed.

(** X9. When [get_modified_files] returns a list, the list is not empty,
    has no repetition, and every file in it exists; both queries have been
    run, the staged one first, and nothing else.  When it ends the process,
    the status is 0, both queries have been run and the last thing printed
    is [No modified files found.].  A [CalledProcessError] that escapes
    from it is that of the staged query, with its non-zero status, and the
    unstaged query has not been run.  When another exception of a query
    escapes (the query could not be started, or what it printed is not
    text), the staged query has been run and at most the unstaged one
    after it. *)
Theorem get_modified_files_outcomes :
  forall (st : St World),
    match get_modified_files st with
    | (Ret files, st') =>
        files <> [] /\ NoDup files
        /\ (forall f, In f files -> os_path_exists (world st') f = true)
        /\ trace st' = (trace st ++ [ESpawn GIT_STAGED None; ESpawn GIT_UNSTAGED None])%list
    | (Exit code, st') =>
        code = 0%Z
        /\ trace st' = (trace st ++ [ESpawn GIT_STAGED None; ESpawn GIT_UNSTAGED None;
                                     EPrint no_files_line])%list
    | (Raise (CalledProcessError rc cmd), st') =>
        rc <> 0%Z /\ cmd = GIT_STAGED
        /\ trace st' = (trace st ++ [ESpawn GIT_STAGED None])%list
    | (Raise _, st') =>
        trace st' = (trace st ++ [ESpawn GIT_STAGED None])%list
        \/ trace st' = (trace st ++ [ESpawn GIT_STAGED None; ESpawn GIT_UNSTAGED None])%list
    | (OutOfFuel, _) => False
    end.
Proof.
  intros st. rewrite get_modified_files_cases.
  destruct (os_spawn GIT_STAGED None (world st)) as [[p1 | msg |] w1];
    [|now left|now left].
  destruct (CompletedProcess.returncode p1 =? 0)%Z eqn:Hrc; cbn [negb].
  - cbn [world trace].
    destruct (os_spawn GIT_UNSTAGED None w1) as [[p2 | msg |] w2];
      [|right; cbn [trace]; now rewrite <- app_assoc ..].
    + destruct (changed_files w2 _ _) as [|f files] eqn:Hfiles; cbn [is_nil].
      * split; [reflexivity|]. unfold log. cbn [trace]. now rewrite <- !app_assoc.
      * split; [discriminate|]. rewrite <- Hfiles. unfold changed_files.
        split; [apply NoDup_filter, dict_fromkeys_NoDup|].
        split; [intros f' Hf'; cbn [world]; now apply filter_In in Hf'|].
        cbn [trace]. now rewrite <- app_assoc.
  - apply Z.eqb_neq in Hrc. repeat split; assumption.
Qed.
End Queries.

Lemma staged_failure_is_raised_witness :
  fst (main git_modified_args (sim_start not_a_repository))
  = Raise (CalledProcessError 128 GIT_STAGED).
Proof.
  assert (Hrc : CompletedProcess.returncode
                  (CompletedProcess.Build 128 "" "fatal: not a git repository") <> 0%Z)
    by discriminate.
  assert (Hspawn : os_spawn GIT_STAGED None (world (sim_start not_a_repository))
                   = (Completed (CompletedProcess.Build 128 "" "fatal: not a git repository"),
                      not_a_repository))
    by reflexivity.
  destruct (staged_failure_is_raised git_modified_args (sim_start not_a_repository)
              _ _ Hspawn Hrc) as (_ & _ & Hmain).
  now rewrite (Hmain eq_refl).
Defined.

(* ----------------------------------------------------------------- *)
(** ** Project directories are normalized absolute paths *)

Lemma normpath_render (k : nat) (comps : list string) :
  k = 1 \/ k = 2 -> all_clean comps ->
  posixpath.normpath (render k comps) = render k comps.
Proof.
  intros Hk Hall. destruct comps as [|c0 cs0] eqn:Ecomps.
  - destruct Hk as [-> | ->]; reflexivity.
  - rewrite <- Ecomps in *.
    assert (Hne : comps <> []) by (rewrite Ecomps; discriminate).
    assert (Hk0 : k <> 0) by lia.
    unfold posixpath.normpath.
    rewrite render_truthy by assumption. cbn [negb]. cbv zeta.
    rewrite initial_slashes_render by assumption.
    rewrite split_sep_render by (try apply all_clean_no_sep; assumption).
    rewrite fold_left_app, fold_normpath_empties.
    rewrite (fold_normpath_clean k comps []) by assumption. cbn [app].
    change (posixpath.seps k ++ pystr.join "/" comps) with (render k comps).
    now rewrite render_truthy by assumption.
Qed.

Lemma head_of_no_sep (s : string) :
  posixpath.has_sep s = false -> posixpath.head_of s = "".
Proof. destruct s as [|c s]; [reflexivity|]. intros Hs. cbn [posixpath.head_of]. now rewrite Hs. Qed.

(** The part of a path up to its last separator. *)
Lemma head_of_app_sep (x name : string) :
  posixpath.has_sep name = false ->
  posixpath.head_of (x ++ String "/" name) = x ++ "/".
Proof.
  intros Hname. induction x as [|c x IH].
  - cbn [append posixpath.head_of posixpath.has_sep]. unfold posixpath.sep.
    rewrite Ascii.eqb_refl. cbn [orb]. now rewrite head_of_no_sep.
  - cbn [append]. cbn [posixpath.head_of].
    assert (Hsep : posixpath.has_sep (String c (x ++ String "/" name)) = true).
    { cbn [posixpath.has_sep]. rewrite has_sep_app. cbn [posixpath.has_sep].
      unfold posixpath.sep. rewrite Ascii.eqb_refl. cbn [orb].
      now rewrite orb_true_r, orb_true_r. }
    rewrite Hsep. now rewrite IH.
Qed.

Lemma rstrip_sep_snoc (x : string) :
  posixpath.rstrip_sep (x ++ "/") = posixpath.rstrip_sep x.
Proof.
  induction x as [|c x IH]; [reflexivity|].
  cbn [append posixpath.rstrip_sep]. now rewrite IH.
Qed.

Lemma rstrip_sep_id (x : string) :
  pystr.endswith_char posixpath.sep x = false -> posixpath.rstrip_sep x = x.
Proof.
  induction x as [|c x IH]; [reflexivity|]. intros Hend.
  cbn [posixpath.rstrip_sep]. destruct x as [|c' x'].
  - cbn [pystr.endswith_char] in Hend. cbn [posixpath.rstrip_sep pystr.truthy negb].
    now rewrite Hend.
  - cbn [pystr.endswith_char] in Hend. rewrite (IH Hend).
    cbn [pystr.truthy negb]. now rewrite andb_false_r.
Qed.

Lemma all_sep_seps (k : nat) : posixpath.all_sep (posixpath.seps k) = true.
Proof.
  induction k as [|k IH]; [reflexivity|]. cbn [posixpath.seps posixpath.all_sep].
  rewrite IH. unfold posixpath.sep. now rewrite Ascii.eqb_refl.
Qed.

Lemma all_sep_app (a b : string) :
  posixpath.all_sep (a ++ b) = posixpath.all_sep a && posixpath.all_sep b.
Proof.
  induction a as [|c a IH]; [reflexivity|].
  cbn [append posixpath.all_sep]. rewrite IH. now rewrite andb_assoc.
Qed.

Lemma render_not_all_sep (k : nat) (comps : list string) (rest : string) :
  all_clean comps -> comps <> [] ->
  posixpath.all_sep (render k comps ++ rest) = false.
Proof.
  intros Hall Hne. destruct comps as [|c cs]; [congruence|].
  inversion Hall as [|? ? Hc _]; subst.
  destruct (clean_join_head c cs Hc) as (x & tail & Hj & Hx).
  unfold render. rewrite !all_sep_app, all_sep_seps, Hj. cbn [posixpath.all_sep andb].
  now rewrite Hx.
Qed.

(** The directory of a file placed directly in a normalized absolute
    directory is that directory. *)
Lemma dirname_join_render (k : nat) (comps : list string) (name : string) :
  k = 1 \/ k = 2 -> all_clean comps -> clean_comp name = true ->
  posixpath.dirname (posixpath.join (render k comps) name) = render k comps.
Proof.
  intros Hk Hall Hname.
  apply clean_comp_inv in Hname. destruct Hname as (Ht & Hs & _).
  assert (Hstart : pystr.startswith "/" name = false).
  { destruct name as [|c name']; [discriminate|].
    cbn [posixpath.has_sep] in Hs. apply orb_false_iff in Hs. destruct Hs as [Hc _].
    cbn [pystr.startswith]. unfold posixpath.sep in Hc. rewrite Ascii.eqb_sym in Hc.
    now rewrite Hc. }
  unfold posixpath.join. rewrite Hstart.
  rewrite render_truthy by lia. cbn [negb orb].
  destruct comps as [|c0 cs0] eqn:Ecomps.
  - unfold render. cbn [pystr.join String.concat]. rewrite str_app_nil_r.
    assert (Hhead : forall x, posixpath.dirname (x ++ String "/" name) = x ++ "/"
                              \/ posixpath.all_sep (x ++ "/") = false).
    { intros x. destruct (posixpath.all_sep (x ++ "/")) eqn:Hx; [left | now right].
      unfold posixpath.dirname. rewrite head_of_app_sep by assumption.
      rewrite Hx. now rewrite andb_false_r. }
    destruct Hk as [-> | ->].
    + cbn [posixpath.seps pystr.endswith_char]. unfold posixpath.sep.
      rewrite Ascii.eqb_refl. destruct (Hhead "") as [Hd | Hd]; [exact Hd | discriminate].
    + cbn [posixpath.seps pystr.endswith_char]. unfold posixpath.sep.
      rewrite Ascii.eqb_refl. destruct (Hhead "/") as [Hd | Hd]; [exact Hd | discriminate].
  - rewrite <- Ecomps in *.
    assert (Hne : comps <> []) by (rewrite Ecomps; discriminate).
    rewrite render_not_ending_in_sep by assumption.
    unfold posixpath.dirname.
    change (render k comps ++ "/" ++ name) with (render k comps ++ String "/" name).
    rewrite head_of_app_sep by assumption.
    rewrite (truthy_app_l (render k comps) "/") by (apply render_truthy; lia).
    rewrite render_not_all_sep by assumption. cbn [negb andb].
    rewrite rstrip_sep_snoc. apply rstrip_sep_id.
    now apply render_not_ending_in_sep.
Qed.

Section Projects.
Context {World : Type} {os : OS World}.

(** What the walk finds is a normalized absolute directory that holds the
    manifest. *)
Lemma owner_is_project (w : World) (file d : string) :
  posixpath.isabs (os_getcwd w) = true ->
  owner w file = Some d ->
  has_manifest w d = true
  /\ exists k comps, (k = 1 \/ k = 2) /\ all_clean comps /\ d = render k comps.
Proof.
  intros Hcwd. unfold owner, find_cargo_manifest_dir_in.
  destruct (find_cargo_manifest_dir_loop _ w (start_dir w file)) as [r | |] eqn:Hrun;
    try discriminate.
  intros Heq. inversion Heq; subst r.
  destruct (loop_found w _ _ _ Hrun) as (j & Hd & Hm & _).
  split; [exact Hm|].
  destruct (start_dir_render w file Hcwd) as (k & comps & Hk & Hall & Hstart).
  rewrite Hstart in Hd. rewrite ancestor_render in Hd by assumption.
  exists k, (firstn (length comps - j) comps).
  split; [exact Hk|]. split; [now apply all_clean_firstn | exact Hd].
Qed.

(** The walk from a file placed directly in a project directory stops at
    once. *)
Lemma owner_of_file_in_project (w : World) (k : nat) (comps : list string) (name : string) :
  k = 1 \/ k = 2 -> all_clean comps -> clean_comp name = true ->
  has_manifest w (render k comps) = true ->
  find_cargo_manifest_dir_in w (posixpath.join (render k comps) name)
  = Found (render k comps).
Proof.
  intros Hk Hall Hname Hm. unfold find_cargo_manifest_dir_in, start_dir.
  rewrite dirname_join_render by assumption.
  unfold posixpath.abspath. rewrite render_isabs by lia.
  rewrite normpath_render by assumption.
  cbn [find_cargo_manifest_dir_loop]. fold (has_manifest w (render k comps)).
  now rewrite Hm.
Qed.

(** X10. With an absolute working directory, a directory returned by
    [find_cargo_manifest_dir] is an absolute path in normal form
    ([abspath] leaves it as it is) and holds [Cargo.toml]; searching again
    from any file placed directly in it, such as its own [Cargo.toml],
    returns the same directory. *)
Theorem found_directory_is_a_fixed_point :
  forall (path d : string) (st st' : St World),
    posixpath.isabs (os_getcwd (world st)) = true ->
    find_cargo_manifest_dir path st = (Ret (Some d), st') ->
    posixpath.isabs d = true
    /\ posixpath.abspath (os_getcwd (world st)) d = d
    /\ has_manifest (world st) d = true
    /\ find_cargo_manifest_dir (posixpath.join d "Cargo.toml") st = (Ret (Some d), st)
    /\ (forall name,
           clean_comp name = true ->
           find_cargo_manifest_dir (posixpath.join d name) st = (Ret (Some d), st)).
Proof.
  intros path d st st' Hcwd Hfind.
  assert (Hown : owner (world st) path = Some d).
  { rewrite find_cargo_manifest_dir_owner in Hfind by exact Hcwd. now inversion Hfind. }
  destruct (owner_is_project (world st) path d Hcwd Hown) as (Hm & k & comps & Hk & Hall & ->).
  assert (Hagain : forall name,
             clean_comp name = true ->
             find_cargo_manifest_dir (posixpath.join (render k comps) name) st
             = (Ret (Some (render k comps)), st)).
  { intros name Hname. unfold find_cargo_manifest_dir.
    now rewrite owner_of_file_in_project by assumption. }
  split; [apply render_isabs; lia|].
  split; [unfold posixpath.abspath; rewrite render_isabs by lia;
          now apply normpath_render|].
  split; [exact Hm|]. split; [now apply Hagain | exact Hagain].
Qed.

(** X11. With an absolute working directory and both queries answered, a
    list returned by [get_modified_dirs] is not empty and has no
    repetition, and each directory in it is an absolute path holding
    [Cargo.toml] in the world the list is returned in: run there, a tool
    does not skip it but starts its command with that directory as working
    directory. *)
Theorem modified_dirs_are_projects :
  forall (st : St World) (p1 p2 : CompletedProcess.t) (w1 w2 : World)
         (dirs : list string) (st' : St World),
    queries_ok st p1 p2 w1 w2 ->
    posixpath.isabs (os_getcwd w2) = true ->
    get_modified_dirs st = (Ret dirs, st') ->
    st' = after_queries st w2
    /\ dirs <> [] /\ NoDup dirs
    /\ (forall d,
           In d dirs ->
           posixpath.isabs d = true
           /\ has_manifest (world st') d = true
           /\ forall tool,
               trace (snd (BaseRustTool.run tool d st'))
               = (trace st' ++ [ESpawn (BaseRustTool.command_factory tool d) (Some d)])%list).
Proof.
  intros st p1 p2 w1 w2 dirs st' Hq Hcwd Hrun.
  rewrite (get_modified_dirs_ok st p1 p2 w1 w2 Hq Hcwd) in Hrun. cbv zeta in Hrun.
  destruct (is_nil (changed_files w2 _ _)); [discriminate|].
  destruct (pystr.dict_fromkeys _) as [|d0 ds] eqn:Hdirs; cbn [is_nil] in Hrun;
    [discriminate|].
  inversion Hrun; subst dirs st'. clear Hrun.
  split; [reflexivity|]. split; [discriminate|].
  split; [rewrite <- Hdirs; apply dict_fromkeys_NoDup|].
  intros d Hd. rewrite <- Hdirs in Hd. apply (proj1 (dict_fromkeys_In _ _)) in Hd.
  unfold owners in Hd. apply in_flat_map in Hd. destruct Hd as (f & _ & Hd).
  destruct (owner w2 f) as [d'|] eqn:Hown; [|contradiction].
  destruct (pystr.truthy d'); [|contradiction]. destruct Hd as [<- | []].
  destruct (owner_is_project w2 f d' Hcwd Hown) as (Hm & k & comps & Hk & _ & Heq).
  split; [rewrite Heq; apply render_isabs; lia|].
  split; [exact Hm|].
  intros tool. rewrite run_with_manifest by exact Hm. cbv zeta.
  destruct (fst (os_spawn _ _ _)); reflexivity.
Qed.
End Projects.

Lemma found_directory_is_a_fixed_point_witness :
  posixpath.isabs (os_getcwd (world (sim_start nested_world))) = true
  /\ find_cargo_manifest_dir "crates/x/src/a.rs" (sim_start nested_world)
     = (Ret (Some "/repo/crates/x"), sim_start nested_world)
  /\ find_cargo_manifest_dir "/repo/crates/x/Cargo.toml" (sim_start nested_world)
     = (Ret (Some "/repo/crates/x"), sim_start nested_world).
Proof.
  assert (Hfind : find_cargo_manifest_dir "crates/x/src/a.rs" (sim_start nested_world)
                  = (Ret (Some "/repo/crates/x"), sim_start nested_world))
    by reflexivity.
  assert (Hcwd : posixpath.isabs (os_getcwd (world (sim_start nested_world))) = true)
    by reflexivity.
  split; [exact Hcwd|]. split; [exact Hfind|].
  destruct (found_directory_is_a_fixed_point "crates/x/src/a.rs" "/repo/crates/x"
              (sim_start nested_world) (sim_start nested_world) Hcwd Hfind)
    as (_ & _ & _ & Hagain & _).
  exact Hagain.
Defined.

Lemma modified_dirs_are_projects_witness :
  has_manifest three_projects "/repo/crates/y" = true.
Proof.
  assert (Hq : queries_ok (sim_start three_projects)
                 (CompletedProcess.Build 0 ("crates/x/src/a.rs" ++ NL ++ "README.md" ++ NL) "")
                 (CompletedProcess.Build 0 ("crates/x/src/a.rs" ++ NL ++ "crates/y/src/c.rs" ++ NL) "")
                 three_projects three_projects)
    by (repeat split).
  assert (Hrun : get_modified_dirs (sim_start three_projects)
                 = (Ret ["/repo/crates/x"; "/repo"; "/repo/crates/y"],
                    after_queries (sim_start three_projects) three_projects))
    by (vm_compute; reflexivity).
  assert (Hcwd : posixpath.isabs (os_getcwd three_projects) = true) by reflexivity.
  destruct (modified_dirs_are_projects _ _ _ _ _ _ _ Hq Hcwd Hrun) as (_ & _ & _ & Hall).
  destruct (Hall "/repo/crates/y") as (_ & Hm & _).
  - right. right. now left.
  - exact Hm.
Defined.

(* ----------------------------------------------------------------- *)
(** ** The entry point on explicit paths *)

Lemma get_tools_to_run_incl (self : RustToolRunner.t) (tools : tools_dict)
      (selected : option (list string)) (gm : bool) (entry : string * BaseRustTool.t) :
  In entry (RustToolRunner.get_tools_to_run self tools selected gm) -> In entry tools.
Proof.
  unfold RustToolRunner.get_tools_to_run.
  destruct selected as [[|s sel]|]; try (intros Hin; exact Hin).
  intros Hin. apply filter_In in Hin. tauto.
Qed.

Lemma get_tools_to_run_length (self : RustToolRunner.t) (tools : tools_dict)
      (selected : option (list string)) (gm : bool) :
  length (RustToolRunner.get_tools_to_run self tools selected gm) <= length tools.
Proof.
  unfold RustToolRunner.get_tools_to_run.
  destruct selected as [[|s sel]|]; try lia. apply filter_length_le.
Qed.

Lemma init_registries (mode : Mode) :
  length (mode_registry RustToolRunner.init mode) = 1
  /\ forall name tool d,
      In (name, tool) (mode_registry RustToolRunner.init mode) ->
      hd_error (BaseRustTool.command_factory tool d) = Some "cargo".
Proof.
  destruct mode as [|[|]|]; (split; [reflexivity|]);
    intros name tool d [Heq | []]; inversion Heq; reflexivity.
Qed.

(** A registry with one tool: the selection is empty or the registry. *)
Lemma get_tools_to_run_singleton (self : RustToolRunner.t) (n : string)
      (t : BaseRustTool.t) (selected : option (list string)) (gm : bool) :
  RustToolRunner.get_tools_to_run self [(n, t)] selected gm = []
  \/ RustToolRunner.get_tools_to_run self [(n, t)] selected gm = [(n, t)].
Proof.
  unfold RustToolRunner.get_tools_to_run.
  destruct selected as [[|s sel]|]; [now right | | now right].
  cbn [filter]. destruct (pystr.mem n (s :: sel)); auto.
Qed.

(** With the registries of [__init__], the plan of a run is, at most, the
    one command of the resolved mode in each directory. *)
Lemma init_planned_spawns (is_formatting is_fixing is_unsafe_fixing : bool)
      (selected : option (list string)) (gm : bool) (dirs : list string) :
  subseq
    (planned_spawns
       (dict_values
          (RustToolRunner.get_tools_to_run RustToolRunner.init
             (mode_registry RustToolRunner.init
                (spec_resolve_mode is_formatting is_fixing is_unsafe_fixing))
             selected gm)) dirs)
    (map (fun d => (if is_formatting then ["cargo"; "fmt"]
                    else if is_fixing then
                           if is_unsafe_fixing
                           then ["cargo"; "fix"; "--allow-dirty"; "--allow-staged"]
                           else ["cargo"; "fix"]
                         else ["cargo"; "clippy"; "--"; "-D"; "warnings"],
                    Some d)) dirs).
Proof.
  destruct is_formatting, is_fixing, is_unsafe_fixing;
    cbn [spec_resolve_mode mode_registry RustToolRunner.init RustToolRunner.linters
           RustToolRunner.formatters RustToolRunner.fixers RustToolRunner.unsafe_fixers];
    match goal with
    | |- context [RustToolRunner.get_tools_to_run ?s [(?n, ?t)] ?sel ?g] =>
        destruct (get_tools_to_run_singleton s n t sel g) as [-> | ->]
    end;
    cbn [dict_values map snd];
    try apply subseq_nil_l;
    rewrite planned_spawns_cons; unfold planned_spawns; cbn [flat_map];
    rewrite app_nil_r; apply subseq_refl.
Qed.

Section EntryPoint.
Context {World : Type} {os : OS World}.

Lemma main_on_paths (args : Args.t) (st : St World) :
  Args.git_modified args = false ->
  main args st
  = RustToolRunner.run RustToolRunner.init
      (Some (if is_nil (Args.paths args) then [DEFAULT_CARGO_DIR] else Args.paths args))
      (if Args.format args then Args.formatters args else Args.linters args)
      (Args.format args) (Args.fix_ args) (Args.unsafe_fixes args) false st.
Proof.
  intros Hgm. unfold main. rewrite Hgm.
  destruct (Args.paths args); reflexivity.
Qed.

(** X12. Without [--git-modified], [main] never runs the version-control
    tool: every process it starts is a [cargo] command whose working
    directory is one of the paths given on the command line, or [.] when
    none is given.  The processes started are the one command of the mode
    ([cargo fmt] with [--format], else [cargo fix] with [--fix], with the
    two allow flags under [--unsafe-fixes], else [cargo clippy -- -D
    warnings]) in the paths in the order given, with some left out: a path
    listed once has the command started in it at most once.  Giving no path
    is the same as giving [.]. *)
Theorem main_runs_cargo_in_the_given_paths :
  forall (args : Args.t) (st : St World),
    Args.git_modified args = false ->
    let dirs := if is_nil (Args.paths args) then [DEFAULT_CARGO_DIR] else Args.paths args in
    (exists evs,
        trace (snd (main args st)) = (trace st ++ evs)%list
        /\ (forall cmd cwd,
               In (cmd, cwd) (spawned evs) ->
               hd_error cmd = Some "cargo" /\ exists d, In d dirs /\ cwd = Some d)
        /\ subseq (spawned evs)
             (map (fun d => (if Args.format args then ["cargo"; "fmt"]
                             else if Args.fix_ args then
                                    if Args.unsafe_fixes args
                                    then ["cargo"; "fix"; "--allow-dirty"; "--allow-staged"]
                                    else ["cargo"; "fix"]
                                  else ["cargo"; "clippy"; "--"; "-D"; "warnings"],
                             Some d)) dirs))
    /\ main (Args.Build [] (Args.linters args) (Args.format args) (Args.formatters args)
               (Args.fix_ args) (Args.unsafe_fixes args) false) st
       = main (Args.Build [DEFAULT_CARGO_DIR] (Args.linters args) (Args.format args)
                 (Args.formatters args) (Args.fix_ args) (Args.unsafe_fixes args) false) st.
Proof.
  intros args st Hgm dirs. split; [|now rewrite !main_on_paths by reflexivity].
  rewrite main_on_paths by exact Hgm. fold dirs.
  assert (Hpaths : paths_of (Some dirs) = dirs).
  { unfold dirs. destruct (Args.paths args); reflexivity. }
  destruct (run_summary RustToolRunner.init (Some dirs)
              (if Args.format args then Args.formatters args else Args.linters args)
              (Args.format args) (Args.fix_ args) (Args.unsafe_fixes args) false st)
    as (out & st' & evs & -> & Ht & Hin & _ & Hsub & _).
  rewrite Hpaths in Hin, Hsub. cbn [snd].
  assert (Hplan := init_planned_spawns (Args.format args) (Args.fix_ args)
                     (Args.unsafe_fixes args)
                     (if Args.format args then Args.formatters args else Args.linters args)
                     false dirs).
  set (mode := spec_resolve_mode (Args.format args) (Args.fix_ args) (Args.unsafe_fixes args))
    in *.
  destruct (init_registries mode) as [Hone Hcargo].
  exists evs. split; [exact Ht|]. split.
  - intros cmd cwd Hc. destruct (Hin _ Hc) as (tool & d & Htool & Hd & Heq).
    inversion Heq; subst cmd cwd. split; [|now exists d].
    unfold dict_values in Htool. apply in_map_iff in Htool.
    destruct Htool as ([name tool'] & Hsnd & Hentry). cbn [snd] in Hsnd. subst tool'.
    apply get_tools_to_run_incl in Hentry. exact (Hcargo name tool d Hentry).
  - exact (subseq_trans _ _ _ Hsub Hplan).
Qed.
End EntryPoint.

Lemma main_runs_cargo_in_the_given_paths_witness :
  Args.git_modified (Args.Build ["app"; "docs"] None false None false false false) = false
  /\ exists evs,
      trace (snd (main (Args.Build ["app"; "docs"] None false None false false false)
                    (sim_start failing_world))) = evs
      /\ subseq (spawned evs)
           [(["cargo"; "clippy"; "--"; "-D"; "warnings"], Some "app");
            (["cargo"; "clippy"; "--"; "-D"; "warnings"], Some "docs")].
Proof.
  split; [reflexivity|].
  destruct (proj1 (main_runs_cargo_in_the_given_paths
                     (Args.Build ["app"; "docs"] None false None false false false)
                     (sim_start failing_world) eq_refl))
    as (evs & Ht & _ & Hsub).
  exists evs. split; [exact Ht | exact Hsub].
Defined.

(* ----------------------------------------------------------------- *)
(** ** The entry point in git-modified mode *)

Lemma dict_fromkeys_length (xs : list string) :
  length (pystr.dict_fromkeys xs) <= length xs.
Proof.
  induction xs as [|x xs IH]; [simpl; lia|].
  rewrite dict_fromkeys_cons. cbn [length].
  pose proof (filter_length_le (fun y => negb (y =? x)) (pystr.dict_fromkeys xs)). lia.
Qed.

Lemma dict_fromkeys_length_le_owners {World : Type} {os : OS World}
      (w : World) (files : list string) :
  length (pystr.dict_fromkeys (owners w files)) <= length files.
Proof.
  eapply Nat.le_trans; [apply dict_fromkeys_length|].
  unfold owners. induction files as [|f files IH]; [simpl; lia|].
  cbn [flat_map]. rewrite length_app. cbn [length].
  destruct (owner w f) as [d|]; [destruct (pystr.truthy d)|]; simpl; lia.
Qed.

Section GitMode.
Context {World : Type} {os : OS World}.

(** X13. In git-modified mode, with both queries answered and an absolute
    working directory, [main] runs the two queries first and then only
    [cargo] commands, each in a project directory that owns a changed file
    that exists, at most one per changed file; the paths given on the
    command line play no part. *)
Theorem main_runs_cargo_in_changed_projects :
  forall (args : Args.t) (st : St World) (p1 p2 : CompletedProcess.t) (w1 w2 : World),
    Args.git_modified args = true ->
    queries_ok st p1 p2 w1 w2 ->
    posixpath.isabs (os_getcwd w2) = true ->
    let files := changed_files w2 (CompletedProcess.stdout p1) (CompletedProcess.stdout p2) in
    (exists evs,
        trace (snd (main args st))
        = (trace st ++ [ESpawn GIT_STAGED None; ESpawn GIT_UNSTAGED None] ++ evs)%list
        /\ (forall cmd cwd,
               In (cmd, cwd) (spawned evs) ->
               hd_error cmd = Some "cargo"
               /\ exists d f, cwd = Some d /\ In f files /\ owner w2 f = Some d)
        /\ length (spawned evs) <= length files)
    /\ main args st
       = main (Args.Build [] (Args.linters args) (Args.format args) (Args.formatters args)
                 (Args.fix_ args) (Args.unsafe_fixes args) true) st.
Proof.
  intros args st p1 p2 w1 w2 Hgm Hq Hcwd files.
  split; [|unfold main; cbn [Args.git_modified Args.format Args.formatters Args.linters
                               Args.fix_ Args.unsafe_fixes]; now rewrite Hgm].
  unfold main. rewrite Hgm. unfold bind at 1.
  rewrite (get_modified_dirs_ok st p1 p2 w1 w2 Hq Hcwd). cbv zeta. fold files.
  destruct (is_nil files).
  { exists [EPrint no_files_line]. cbn [snd log trace after_queries].
    split; [now rewrite <- app_assoc|]. split; [intros cmd cwd []|]. simpl. lia. }
  destruct (pystr.dict_fromkeys (owners w2 files)) as [|d0 ds] eqn:Hdirs; cbn [is_nil].
  { exists [EPrint no_dirs_line]. cbn [snd log trace after_queries].
    split; [now rewrite <- app_assoc|]. split; [intros cmd cwd []|]. simpl. lia. }
  set (sel := if Args.format args then Args.formatters args else Args.linters args).
  destruct (run_summary RustToolRunner.init (Some (d0 :: ds)) sel
              (Args.format args) (Args.fix_ args) (Args.unsafe_fixes args) true
              (after_queries st w2))
    as (out & st' & evs & -> & Ht & Hin & Hlen & _).
  cbn [paths_of list_truthy] in Hin, Hlen. cbn [snd].
  set (mode := spec_resolve_mode (Args.format args) (Args.fix_ args) (Args.unsafe_fixes args))
    in *.
  destruct (init_registries mode) as [Hone Hcargo].
  exists evs. split; [rewrite Ht; cbn [after_queries trace]; now rewrite <- app_assoc|].
  split.
  - intros cmd cwd Hc. destruct (Hin _ Hc) as (tool & d & Htool & Hd & Heq).
    inversion Heq; subst cmd cwd. split.
    + unfold dict_values in Htool. apply in_map_iff in Htool.
      destruct Htool as ([name tool'] & Hsnd & Hentry). cbn [snd] in Hsnd. subst tool'.
      apply get_tools_to_run_incl in Hentry. exact (Hcargo name tool d Hentry).
    + rewrite <- Hdirs in Hd. apply (proj1 (dict_fromkeys_In _ _)) in Hd.
      unfold owners in Hd. apply in_flat_map in Hd. destruct Hd as (f & Hf & Hd).
      destruct (owner w2 f) as [d'|] eqn:Hown; [|contradiction].
      destruct (pystr.truthy d'); [|contradiction]. destruct Hd as [<- | []].
      exists d', f. auto.
  - eapply Nat.le_trans; [exact Hlen|].
    unfold dict_values. rewrite length_map.
    pose proof (get_tools_to_run_length RustToolRunner.init
                  (mode_registry RustToolRunner.init mode) sel true) as Hle.
    rewrite Hone in Hle.
    assert (Hdl : length (d0 :: ds) <= length files).
    { rewrite <- Hdirs. apply dict_fromkeys_length_le_owners. }
    nia.
Qed.
End GitMode.

Lemma main_runs_cargo_in_changed_projects_witness :
  Args.git_modified git_modified_args = true
  /\ posixpath.isabs (os_getcwd three_projects) = true
  /\ exists evs,
      trace (snd (main git_modified_args (sim_start three_projects)))
      = ([ESpawn GIT_STAGED None; ESpawn GIT_UNSTAGED None] ++ evs)%list
      /\ length (spawned evs) <= 3.
Proof.
  assert (Hq : queries_ok (sim_start three_projects)
                 (CompletedProcess.Build 0 ("crates/x/src/a.rs" ++ NL ++ "README.md" ++ NL) "")
                 (CompletedProcess.Build 0 ("crates/x/src/a.rs" ++ NL ++ "crates/y/src/c.rs" ++ NL) "")
                 three_projects three_projects)
    by (repeat split).
  assert (Hcwd : posixpath.isabs (os_getcwd three_projects) = true) by reflexivity.
  split; [reflexivity|]. split; [exact Hcwd|].
  destruct (proj1 (main_runs_cargo_in_changed_projects git_modified_args
                     (sim_start three_projects) _ _ _ _ eq_refl Hq Hcwd))
    as (evs & Ht & _ & Hlen).
  exists evs. split; [exact Ht | exact Hlen].
Defined.
